(** * snipsweather: the time-expression resolver, the record selector and the
      answer templates of [action-s710-weather.py]

    The development embeds the methods of [class App] that decide what is
    answered: [get_timerange] and its helpers, [select_weather],
    [process_response] and the three handlers.  Conventions of the embedding:

    - an exception is [Raise]; a Python [None] result is [None] of an option;
    - the wall clock [time.time()] is the argument [now], in whole seconds
      (every path zeroes the microseconds); the local time zone is a fixed
      offset [utc_offset] from UTC, a variable of the section; the module
      [Zoned] has the resolver over a zone whose offset changes, with the
      library's own conversion between readings and local times;
    - a naive [datetime] is its day number (days since 1970-01-01, local) with
      hour, minute and second;
    - JSON numbers (temperatures, probabilities) are rationals;
    - text is a [string] of UTF-8 bytes; a [str] object whose identity the
      code inspects with [is] carries an object id next to its text. *)

From Stdlib Require Import ZArith QArith String Ascii List Sorted Bool Lia DecimalString.
Import ListNotations.

Open Scope string_scope.
Open Scope Z_scope.

(** ** Exceptions *)

Module Py.

Inductive py (A : Type) : Type :=
| Ret (a : A)
| Raise.

Arguments Ret {A} a.
Arguments Raise {A}.

Definition bind {A B : Type} (m : py A) (k : A -> py B) : py B :=
  match m with
  | Ret a => k a
  | Raise => Raise
  end.

(** [d[key]] on a dict: [KeyError] when the key is absent. *)
Definition item {A : Type} (field : option A) : py A :=
  match field with
  | Some v => Ret v
  | None => Raise
  end.

End Py.
Import Py.

Notation "x <- m ;; k" := (bind m (fun x => k))
  (at level 61, m at next level, right associativity).

(** ** Text *)

Module Str.

(** [needle in hay] *)
Fixpoint contains (needle hay : string) : bool :=
  String.prefix needle hay ||
  match hay with
  | EmptyString => false
  | String _ rest => contains needle rest
  end.

(** [s.endswith(suffix)] *)
Fixpoint endswith (s suffix : string) : bool :=
  String.eqb s suffix ||
  match s with
  | EmptyString => false
  | String _ rest => endswith rest suffix
  end.

Definition upper_ascii (c : ascii) : ascii :=
  let n := nat_of_ascii c in
  if (97 <=? n)%nat && (n <=? 122)%nat then ascii_of_nat (n - 32) else c.

Definition lower_ascii (c : ascii) : ascii :=
  let n := nat_of_ascii c in
  if (65 <=? n)%nat && (n <=? 90)%nat then ascii_of_nat (n + 32) else c.

Fixpoint map_string (f : ascii -> ascii) (s : string) : string :=
  match s with
  | EmptyString => EmptyString
  | String c rest => String (f c) (map_string f rest)
  end.

(** [s.capitalize()], on the ASCII words the program applies it to. *)
Definition capitalize (s : string) : string :=
  match s with
  | EmptyString => EmptyString
  | String c rest => String (upper_ascii c) (map_string lower_ascii rest)
  end.

(** [str(n)] for an int *)
Definition str (n : Z) : string := NilZero.string_of_int (Z.to_int n).

(** [sep.join(items)] *)
Fixpoint join (sep : string) (items : list string) : string :=
  match items with
  | [] => ""
  | [x] => x
  | x :: rest => x ++ sep ++ join sep rest
  end.

(** the [%H] and [%M] fields of [strftime]: two digits *)
Definition two_digits (n : Z) : string :=
  if n <? 10 then "0" ++ str n else str n.

End Str.
Import Str.

(** ** Numbers *)

Module Num.

Definition ltb (x y : Q) : bool := negb (Qle_bool y x).

(** [round(x)]: to the nearest integer, a tie to the even one. *)
Definition round (x : Q) : Z :=
  let n := Qnum x in
  let d := Z.pos (Qden x) in
  let fl := n / d in
  let r := n mod d in
  match 2 * r ?= d with
  | Lt => fl
  | Gt => fl + 1
  | Eq => if Z.even fl then fl else fl + 1
  end.

(** [min(xs)] and [max(xs)]: [ValueError] on the empty list, the first of
    equal candidates otherwise. *)
Definition min (xs : list Q) : py Q :=
  match xs with
  | [] => Raise
  | x :: rest => Ret (fold_left (fun m y => if ltb y m then y else m) rest x)
  end.

Definition max (xs : list Q) : py Q :=
  match xs with
  | [] => Raise
  | x :: rest => Ret (fold_left (fun m y => if ltb m y then y else m) rest x)
  end.

End Num.

(** ** Dates and times *)

Record datetime : Type := {
  date : Z;
  hour : Z;
  minute : Z;
  second : Z
}.

Definition replace (dt : datetime) (h m s : Z) : datetime :=
  {| date := date dt; hour := h; minute := m; second := s |}.

(** [dt + timedelta(days = n)] *)
Definition plus_days (dt : datetime) (n : Z) : datetime :=
  {| date := date dt + n; hour := hour dt; minute := minute dt; second := second dt |}.

(** Monday is 0; 1970-01-01 was a Thursday. *)
Definition weekday (dt : datetime) : Z := (date dt + 3) mod 7.

(** [dt.strftime("%H:%M Uhr")] *)
Definition strftime_HM_Uhr (dt : datetime) : string :=
  two_digits (hour dt) ++ ":" ++ two_digits (minute dt) ++ " Uhr".

(** ** The time range *)

Inductive scale : Type := currently | hourly | daily.

Definition scale_eqb (a b : scale) : bool :=
  match a, b with
  | currently, currently | hourly, hourly | daily, daily => true
  | _, _ => false
  end.

(** The tuple [(scale, tme_from, tme_to, prefix)]. *)
Record TimeRange : Type := {
  tr_scale : scale;
  tme_from : option Z;
  tme_to : option Z;
  prefix : string
}.

Definition weekdays : list string :=
  ["montag"; "dienstag"; "mittwoch"; "donnerstag"; "freitag"; "samstag"; "sonntag"].

Definition day_range_symbols : list string :=
  ["früh"; "vormittag"; "mittag"; "nachmittag"; "abend"; "nacht"].

(** [xs.index(x)]: [ValueError] when [x] is absent. *)
Fixpoint index (x : string) (xs : list string) : py nat :=
  match xs with
  | [] => Raise
  | y :: rest => if String.eqb y x then Ret 0%nat else i <- index x rest ;; Ret (S i)
  end.

Definition jetzt : TimeRange :=
  {| tr_scale := currently; tme_from := None; tme_to := None; prefix := "Jetzt" |}.

Section Resolver.

Variable utc_offset : Z.

Definition fromtimestamp (epoch : Z) : datetime :=
  let l := epoch + utc_offset in
  {| date := l / 86400;
     hour := (l mod 86400) / 3600;
     minute := (l mod 3600) / 60;
     second := l mod 60 |}.

Definition timestamp (dt : datetime) : Z :=
  date dt * 86400 + hour dt * 3600 + minute dt * 60 + second dt - utc_offset.

Definition get_day_range (epoch : Z) (pfx : string) : TimeRange :=
  let dt1 := replace (fromtimestamp epoch) 0 0 0 in
  let dt2 := replace (fromtimestamp epoch) 23 59 59 in
  {| tr_scale := daily; tme_from := Some (timestamp dt1);
     tme_to := Some (timestamp dt2); prefix := pfx |}.

Definition get_hour_range (epoch hours_from hours_to : Z) (pfx : string) : TimeRange :=
  let dt1 := replace (fromtimestamp epoch) hours_from 0 0 in
  let dt2 :=
    if hours_to =? -1
    then replace (fromtimestamp (epoch + 1 * 24 * 60 * 60)) 3 0 0
    else replace (fromtimestamp epoch) hours_to 0 0 in
  {| tr_scale := hourly; tme_from := Some (timestamp dt1);
     tme_to := Some (timestamp dt2); prefix := pfx |}.

(** The method ends without a [return] when no keyword is found: [None]. *)
Definition get_subrange (time_string : string) (epoch : Z) (pfx : string)
  : option TimeRange :=
  if contains "früh" time_string then
    Some (get_hour_range epoch 6 10 (pfx ++ " früh"))
  else if contains "vormittag" time_string then
    Some (get_hour_range epoch 9 12 (pfx ++ " vormittag"))
  else if contains "nachmittag" time_string then
    Some (get_hour_range epoch 14 17 (pfx ++ " nachmittag"))
  else if contains "mittag" time_string then
    Some (get_hour_range epoch 11 14 (pfx ++ " mittag"))
  else if contains "abend" time_string then
    Some (get_hour_range epoch 17 22 (pfx ++ " abend"))
  else if contains "nacht" time_string then
    Some (get_hour_range epoch 22 (-1) (pfx ++ " nacht"))
  else None.

Definition get_weekend_range (now : Z) : TimeRange :=
  let dt := replace (fromtimestamp now) 0 0 0 in
  let offset := 5 - weekday dt in
  let dt1 := plus_days dt offset in
  let dt2 := plus_days dt1 1 in
  {| tr_scale := daily; tme_from := Some (timestamp dt1);
     tme_to := Some (timestamp dt2); prefix := "Am Wochenende" |}.

Definition get_week_range (now : Z) (time_string : string) : TimeRange :=
  let dt := replace (fromtimestamp now) 0 0 0 in
  let monday := plus_days dt (0 - weekday dt) in
  let sunday := plus_days monday 6 in
  if contains "nächste" time_string then
    let dt1 := plus_days monday 7 in
    let dt2 := plus_days sunday 7 in
    {| tr_scale := daily; tme_from := Some (timestamp dt1);
       tme_to := Some (timestamp dt2); prefix := "Nächste Woche" |}
  else
    {| tr_scale := daily; tme_from := Some (timestamp monday);
       tme_to := Some (timestamp sunday); prefix := "Diese Woche" |}.

(** [self.weekdays[day]] raises [IndexError] past the end of the list. *)
Definition get_weekday (now : Z) (day : nat) : py TimeRange :=
  let dt1 := replace (fromtimestamp now) 0 0 0 in
  let offset := Z.of_nat day - weekday dt1 in
  let offset := if offset <=? 0 then offset + 7 else offset in
  let dt1 := plus_days dt1 offset in
  let dt2 := replace dt1 23 59 59 in
  name <- item (nth_error weekdays day) ;;
  Ret {| tr_scale := daily; tme_from := Some (timestamp dt1);
         tme_to := Some (timestamp dt2); prefix := "am " ++ capitalize name |}.

Definition contained_weekdays (time_string : string) : list string :=
  filter (fun day => contains day time_string) weekdays.

Definition contained_day_range_symbols (time_string : string) : list string :=
  filter (fun sym => contains sym time_string) day_range_symbols.

Definition get_timerange (now : Z) (time_string : option string)
  : py (option TimeRange) :=
  match time_string with
  | None => Ret (Some jetzt)
  | Some time_string =>
    if String.eqb time_string "" then Ret (Some jetzt) else
    match contained_weekdays time_string with
    | first :: _ =>
        day <- index first weekdays ;;
        r <- get_weekday now day ;;
        Ret (Some r)
    | [] =>
      if contains "wochenende" time_string
         || (contains "woche" time_string && contains "ende" time_string)
      then Ret (Some (get_weekend_range now))
      else if contains "woche" time_string
      then Ret (Some (get_week_range now time_string))
      else if String.eqb time_string "heute"
      then Ret (Some (get_day_range now "Heute"))
      else if String.eqb time_string "morgen"
      then Ret (Some (get_day_range (now + 1 * 24 * 60 * 60) "Morgen"))
      else if endswith time_string "bermorgen"
      then Ret (Some (get_day_range (now + 2 * 24 * 60 * 60) "Übermorgen"))
      else
        match contained_day_range_symbols time_string with
        | _ :: _ =>
          if contains "bermorgen" time_string
          then Ret (get_subrange time_string (now + 2 * 24 * 60 * 60) "Übermorgen")
          else if contains "morgen" time_string
          then Ret (get_subrange time_string (now + 1 * 24 * 60 * 60) "Morgen")
          else Ret (get_subrange time_string now "Heute")
        | [] => Ret (Some jetzt)
        end
    end
  end.

End Resolver.

(** ** Weather records *)

(** A [str] object: the code compares two of them with [is] as well as with
    [==], so the object's identity is part of the value. *)
Record pystr : Type := {
  obj_id : positive;
  text : string
}.

(** [a is b] *)
Definition py_is (a b : pystr) : bool := Pos.eqb (obj_id a) (obj_id b).

(** [a == b] *)
Definition py_eq (a b : pystr) : bool := String.eqb (text a) (text b).

(** The string constants of the module; equal constants of one module are
    one object. *)
Module Lit.
Definition rain : pystr := {| obj_id := 1; text := "rain" |}.
Definition snow : pystr := {| obj_id := 2; text := "snow" |}.
Definition sun : pystr := {| obj_id := 3; text := "sun" |}.
Definition cloudy : pystr := {| obj_id := 4; text := "cloudy" |}.
Definition clear_day : pystr := {| obj_id := 5; text := "clear-day" |}.
Definition partly_cloudy_day : pystr := {| obj_id := 6; text := "partly-cloudy-day" |}.
Definition hail : pystr := {| obj_id := 7; text := "hail" |}.
Definition thunderstorm : pystr := {| obj_id := 8; text := "thunderstorm" |}.
End Lit.

(** One entry of the forecast, a dict; an absent key is [None].  The record
    has the keys the program reads; a dict is taken to hold no other key. *)
Record wx : Type := {
  time : option Z;
  summary : option string;
  icon : option pystr;
  temperature : option Q;
  temperatureMin : option Q;
  temperatureMax : option Q;
  precipType : option pystr;
  precipProbability : option Q
}.

(** [not xs] for a list *)
Definition is_nil {A : Type} (xs : list A) : bool :=
  match xs with [] => true | _ :: _ => false end.

Definition is_some {A : Type} (o : option A) : bool :=
  match o with Some _ => true | None => false end.

(** [not w] for a dict: it has no key. *)
Definition wx_empty (w : wx) : bool :=
  negb (is_some (time w) || is_some (summary w) || is_some (icon w)
        || is_some (temperature w) || is_some (temperatureMin w)
        || is_some (temperatureMax w) || is_some (precipType w)
        || is_some (precipProbability w)).

(** The decoded response: [weather['currently']], [weather['hourly']['data']]
    and [weather['daily']['data']]. *)
Record payload : Type := {
  p_currently : option wx;
  p_hourly : option (list wx);
  p_daily : option (list wx)
}.

(** The pair [select_weather] returns: [(record, None)] or [(hours, days)]. *)
Inductive selection : Type :=
| Current (w : wx)
| Ranged (hours days : list wx).

(** A list comprehension whose condition may raise. *)
Fixpoint filter_py {A : Type} (cond : A -> py bool) (xs : list A) : py (list A) :=
  match xs with
  | [] => Ret []
  | x :: rest =>
      keep <- cond x ;;
      kept <- filter_py cond rest ;;
      Ret (if keep then x :: kept else kept)
  end.

(** [r['time'] >= tme_from and r['time'] <= tme_to]; comparing with [None]
    is a [TypeError]. *)
Definition in_range (lo hi : option Z) (r : wx) : py bool :=
  t <- item (time r) ;;
  l <- item lo ;;
  if l <=? t then
    t' <- item (time r) ;;
    h <- item hi ;;
    Ret (t' <=? h)
  else Ret false.

Definition select_weather (weather : payload) (sc : scale) (lo hi : option Z)
  : option selection :=
  let body :=
    if scale_eqb sc currently then
      c <- item (p_currently weather) ;;
      Ret (Current c)
    else
      hs <- item (p_hourly weather) ;;
      hours <- filter_py (in_range lo hi) hs ;;
      ds <- item (p_daily weather) ;;
      days <- filter_py (in_range lo hi) ds ;;
      Ret (Ranged hours days) in
  match body with
  | Ret res => Some res
  | Raise => None
  end.

(** ** The handlers *)

Definition nein : string := "Nein, ich denke nicht.".

Definition get_summary (wx_object : wx) (remove_dot : bool) : py string :=
  sum <- item (summary wx_object) ;;
  let sum := if negb remove_dot && negb (endswith sum ".") then sum ++ "." else sum in
  let sum := if remove_dot && endswith sum "."
             then substring 0 (String.length sum - 1) sum else sum in
  Ret sum.

Definition get_wx_on (what : string) (data : list string) : string :=
  match data with
  | [only] => " Vermutlich " ++ what ++ " am " ++ only ++ "."
  | [] => ""
  | _ => " Vermutlich " ++ what ++ " am " ++ join ", " (removelast data)
         ++ " und " ++ last data "" ++ "."
  end.

(** [[f(w) for w in xs]] with an [f] that may raise *)
Fixpoint map_py {A B : Type} (f : A -> py B) (xs : list A) : py (list B) :=
  match xs with
  | [] => Ret []
  | x :: rest => y <- f x ;; ys <- map_py f rest ;; Ret (y :: ys)
  end.

Section Handlers.

Variable utc_offset : Z.

(** [self.weekdays[datetime.fromtimestamp(t).weekday()]] *)
Definition weekday_name (t : Z) : py string :=
  item (nth_error weekdays (Z.to_nat (weekday (fromtimestamp utc_offset t)))).

(** The names of the days after the first whose icon is [name]. *)
Definition days_with_icon (name : string) (days : list wx) (first_time : Z)
  : py (list string) :=
  sel <- filter_py (fun w =>
           i <- item (icon w) ;;
           if String.eqb (text i) name
           then t <- item (time w) ;; Ret (negb (t =? first_time))
           else Ret false) days ;;
  map_py (fun w => t <- item (time w) ;; n <- weekday_name t ;; Ret (capitalize n)) sel.

Definition process_forecast (sc : scale) (weather_hours_and_days : selection)
    (pfx : string) : py (option string) :=
  match sc, weather_hours_and_days with
  | currently, Current w =>
      s <- get_summary w false ;;
      t <- item (temperature w) ;;
      Ret (Some ("Das Wetter ist aktuell " ++ s ++ " Temperatur liegt bei "
                 ++ str (Num.round t) ++ " Grad."))
  | currently, Ranged _ _ => Raise
  | daily, Current _ => Raise
  | daily, Ranged _ days =>
      temps_max <- map_py (fun w => item (temperatureMax w)) days ;;
      temps_min <- map_py (fun w => item (temperatureMin w)) days ;;
      match days with
      | [d] =>
          s <- get_summary d false ;;
          lo <- item (temperatureMin d) ;;
          hi <- item (temperatureMax d) ;;
          Ret (Some ("Wetter " ++ pfx ++ ": " ++ s ++ " Temperaturen zwischen "
                     ++ str (Num.round lo) ++ " und " ++ str (Num.round hi) ++ " Grad."))
      | [d0; d1] =>
          t0 <- item (time d0) ;;
          t1 <- item (time d1) ;;
          day1 <- weekday_name t0 ;;
          day2 <- weekday_name t1 ;;
          s0 <- item (summary d0) ;;
          s1 <- item (summary d1) ;;
          if String.eqb s0 s1 then
            sum0 <- get_summary d0 false ;;
            lo <- Num.min temps_min ;;
            hi <- Num.max temps_max ;;
            let res1 := "Wetter am " ++ capitalize day1 ++ " und " ++ capitalize day2
                        ++ ": " ++ sum0 ++ " " in
            let res2 := "" in
            let resTemp := " Die Temperaturen liegen zwischen " ++ str (Num.round lo)
                           ++ " und " ++ str (Num.round hi) ++ " Grad." in
            Ret (Some (res1 ++ res2 ++ resTemp))
          else
            sum0 <- get_summary d0 false ;;
            sum1 <- get_summary d1 false ;;
            lo <- Num.min temps_min ;;
            hi <- Num.max temps_max ;;
            let res1 := "Wetter am " ++ capitalize day1 ++ ": " ++ sum0 ++ " " in
            let res2 := capitalize day2 ++ " " ++ sum1 in
            let resTemp := " Die Temperaturen liegen zwischen " ++ str (Num.round lo)
                           ++ " und " ++ str (Num.round hi) ++ " Grad." in
            Ret (Some (res1 ++ res2 ++ resTemp))
      | _ =>
          d0 <- item (nth_error days 0) ;;
          t0 <- item (time d0) ;;
          day1 <- weekday_name t0 ;;
          rain_days <- days_with_icon "rain" days t0 ;;
          snow_days <- days_with_icon "snow" days t0 ;;
          thunder_days <- days_with_icon "thunderstorm" days t0 ;;
          let rain_on := get_wx_on "Regen" rain_days in
          let snow_on := get_wx_on "Schnee" snow_days in
          let thunder_on := get_wx_on "Gewitter" thunder_days in
          s <- get_summary d0 false ;;
          lo <- Num.min temps_min ;;
          hi <- Num.max temps_max ;;
          let res1 := "Wetter am " ++ capitalize day1 ++ ": " ++ s in
          let temp := " Temperaturen zwischen " ++ str (Num.round lo) ++ " und "
                      ++ str (Num.round hi) ++ " Grad." in
          Ret (Some (res1 ++ rain_on ++ snow_on ++ thunder_on ++ temp))
      end
  | hourly, Current _ => Raise
  | hourly, Ranged hours _ =>
      temps <- map_py (fun w => item (temperature w)) hours ;;
      h0 <- item (nth_error hours 0) ;;
      hN <- item (nth_error hours (List.length hours - 1)) ;;
      s0 <- item (summary h0) ;;
      sN <- item (summary hN) ;;
      if String.eqb s0 sN then
        s <- get_summary h0 false ;;
        lo <- Num.min temps ;;
        hi <- Num.max temps ;;
        Ret (Some ("Wetter " ++ pfx ++ ": " ++ s ++ " Temperaturen zwischen "
                   ++ str (Num.round lo) ++ " und " ++ str (Num.round hi) ++ " Grad."))
      else
        a <- get_summary h0 true ;;
        b <- get_summary hN false ;;
        lo <- Num.min temps ;;
        hi <- Num.max temps ;;
        Ret (Some ("Wetter " ++ pfx ++ ": " ++ a ++ " bis " ++ b
                   ++ " Temperaturen zwischen " ++ str (Num.round lo) ++ " und "
                   ++ str (Num.round hi) ++ " Grad."))
  end.

Definition process_temperature (sc : scale) (weather_hours_and_days : selection)
    (pfx : string) : py (option string) :=
  match weather_hours_and_days with
  | Current w =>
      match sc, temperature w with
      | currently, Some t =>
          Ret (Some ("Es sind gerade " ++ str (Num.round t) ++ " Grad."))
      | _, _ => Raise
      end
  | Ranged weather _ =>
      match weather with
      | [w] =>
          t <- item (temperature w) ;;
          Ret (Some (pfx ++ " wird es etwa " ++ str (Num.round t) ++ " Grad warm."))
      | _ =>
          temps <- map_py (fun w => item (temperature w)) weather ;;
          lo <- Num.min temps ;;
          hi <- Num.max temps ;;
          Ret (Some (pfx ++ " wird es zwischen " ++ str (Num.round lo) ++ " und "
                     ++ str (Num.round hi) ++ " Grad warm."))
      end
  end.

(** The condition of the three comprehensions of the rain and snow branch:
    [w['icon'] == name or ('precipType' in w and w['precipType'] == what and
    'precipProbability' in w and w['precipProbability'] > 0.3)]. *)
Definition precip_cond (name : pystr) (what : pystr) (w : wx) : py bool :=
  i <- item (icon w) ;;
  Ret (py_eq i name
       || match precipType w, precipProbability w with
          | Some ty, Some p => py_eq ty what && Num.ltb (3 # 10) p
          | _, _ => false
          end).

(** What will happen, by the first of the three lists that is not empty. *)
Definition precip_verb (hasRain hasHail : list wx) : string :=
  match hasRain with
  | _ :: _ => "regnen."
  | [] => match hasHail with _ :: _ => "hageln." | [] => "Gewitter geben." end
  end.

Definition sun_verb (hasSun : list wx) : string :=
  match hasSun with _ :: _ => "sonnig." | [] => "ein bisschen Sonne geben." end.

Definition process_has (what : pystr) (sc : scale)
    (weather_hours_and_days : selection) (pfx : string) : py (option string) :=
  match sc, weather_hours_and_days with
  | currently, Current weather =>
      if py_eq what Lit.sun then
        match icon weather with
        | Some i =>
            if py_eq i Lit.clear_day then Ret (Some "Ja, es ist gerade sonnig.")
            else if contains "cloudy" (text i) then
              Ret (Some ("Nein, ist ist gerade "
                         ++ (if negb (py_is i Lit.cloudy) then "eher " else "")
                         ++ "bewölkt."))
            else Ret (Some nein)
        | None => Ret (Some nein)
        end
      else
        let negative :=
          Ret (Some ("Ich denke nicht, dass es gerade "
                     ++ (if py_eq what Lit.rain then "regnet." else "schneit."))) in
        match precipType weather, precipProbability weather with
        | Some ty, Some p =>
            if negb (py_is ty what) || Num.ltb p (3 # 10) then negative
            else if Num.ltb p (75 # 100) then
              Ret (Some ("Ja, es "
                         ++ (if py_eq what Lit.rain then "regnet gerade" else "schneit gerade")
                         ++ " vermutlich."))
            else
              Ret (Some ("Ja, es "
                         ++ (if py_eq what Lit.rain then "regnet gerade." else "schneit gerade.")))
        | _, _ => negative
        end
  | currently, Ranged _ _ =>
      (* no key of a dict is found in a list *)
      if py_eq what Lit.sun then Ret (Some nein)
      else Ret (Some ("Ich denke nicht, dass es gerade "
                      ++ (if py_eq what Lit.rain then "regnet." else "schneit.")))
  | _, Current weather =>
      (* the comprehensions run over the keys of the dict *)
      if wx_empty weather then Ret (Some nein) else Raise
  | _, Ranged weather weather_days =>
      if py_eq what Lit.sun then
        hasSun <- filter_py (fun w => i <- item (icon w) ;; Ret (py_eq i Lit.clear_day)) weather ;;
        hasPartly <- filter_py (fun w => i <- item (icon w) ;; Ret (py_eq i Lit.partly_cloudy_day)) weather ;;
        if is_nil hasSun && is_nil hasPartly then Ret (Some nein) else
        w <- item (match hasSun with
                   | x :: _ => Some x
                   | [] => hd_error hasPartly
                   end) ;;
            t <- item (time w) ;;
            let dt := fromtimestamp utc_offset t in
            day <- weekday_name t ;;
            let when := strftime_HM_Uhr dt in
            if scale_eqb sc hourly then
              Ret (Some ("Gegen " ++ when ++ " wird es " ++ sun_verb hasSun))
            else if (List.length weather_days =? 1)%nat then
              Ret (Some (pfx ++ " wird es gegen " ++ when ++ " " ++ sun_verb hasSun))
            else
              Ret (Some ("Am " ++ capitalize day ++ " wird es gegen " ++ when ++ " "
                         ++ sun_verb hasSun))
      else
        hasRain <- filter_py (precip_cond Lit.rain what) weather ;;
        hasHail <- filter_py (precip_cond Lit.hail what) weather ;;
        hasThunder <- filter_py (precip_cond Lit.thunderstorm what) weather ;;
        if is_nil hasRain && is_nil hasHail && is_nil hasThunder then Ret (Some nein) else
        w <- item (match hasRain with
                   | x :: _ => Some x
                   | [] => match hasHail with
                           | x :: _ => Some x
                           | [] => hd_error hasThunder
                           end
                   end) ;;
            t <- item (time w) ;;
            let dt := fromtimestamp utc_offset t in
            day <- weekday_name t ;;
            let when := strftime_HM_Uhr dt in
            p <- item (precipProbability w) ;;
            if Num.ltb p (3 # 10) then Ret (Some nein) else
            let prob := if Num.ltb p (75 # 100) then " vermutlich" else "" in
            if scale_eqb sc hourly then
              Ret (Some ("Gegen " ++ when ++ " wird es " ++ precip_verb hasRain hasHail))
            else if (List.length weather_days =? 1)%nat then
              Ret (Some (pfx ++ " wird es " ++ precip_verb hasRain hasHail))
            else
              Ret (Some ("Am " ++ capitalize day ++ " wird es" ++ prob ++ " gegen "
                         ++ when ++ " " ++ precip_verb hasRain hasHail))
  end.

(** [not weather[0]] and [not weather[1]] *)
Definition first_slot_empty (s : selection) : bool :=
  match s with
  | Current w => wx_empty w
  | Ranged hours _ => is_nil hours
  end.

Definition second_slot_empty (s : selection) : bool :=
  match s with
  | Current _ => true
  | Ranged _ days => is_nil days
  end.

Definition process_response (now : Z) (intent_name : string)
    (response_content : payload) (time_string : option string)
  : py (option string) :=
  range <- get_timerange utc_offset now time_string ;;
  (* unpacking [None] into four names is a [TypeError] *)
  r <- item range ;;
  let sc := tr_scale r in
  match select_weather response_content sc (tme_from r) (tme_to r) with
  | None => Ret None
  | Some weather =>
      if first_slot_empty weather || (scale_eqb sc daily && second_slot_empty weather)
      then Ret None
      else if String.eqb intent_name "s710:getForecast" then
        process_forecast sc weather (prefix r)
      else if String.eqb intent_name "s710:getTemperature" then
        process_temperature sc weather (prefix r)
      else if String.eqb intent_name "s710:hasRain" then
        process_has Lit.rain sc weather (prefix r)
      else if String.eqb intent_name "s710:hasSun" then
        process_has Lit.sun sc weather (prefix r)
      else if String.eqb intent_name "s710:hasSnow" then
        process_has Lit.snow sc weather (prefix r)
      else Ret None
  end.

End Handlers.

(** ** The resolver in a zone whose offset changes *)

(** The definitions above take the local zone at one fixed offset.  Here the
    zone is a function from the instant to the offset in force; this is what
    [localtime] gives, and [datetime.fromtimestamp], [replace], [timedelta]
    and [timestamp] are the library's algorithms over it, the [fold] of a
    repeated local hour included. *)
Module Zoned.

(** A naive [datetime] with its [fold]. *)
Record zdatetime : Type := {
  naive : datetime;
  fold : bool
}.

(** The seconds from 1970-01-01 00:00:00 to the fields of a naive datetime. *)
Definition seconds (dt : datetime) : Z :=
  date dt * 86400 + hour dt * 3600 + minute dt * 60 + second dt.

Definition of_seconds (l : Z) : datetime :=
  {| date := l / 86400;
     hour := (l mod 86400) / 3600;
     minute := (l mod 3600) / 60;
     second := l mod 60 |}.

(** [dt.replace(hour = h, minute = m, second = s, microsecond = 0)] keeps the
    fold. *)
Definition zreplace (dt : zdatetime) (h m s : Z) : zdatetime :=
  {| naive := replace (naive dt) h m s; fold := fold dt |}.

(** [dt + timedelta(days = n)]: the sum has fold 0. *)
Definition zplus_days (dt : zdatetime) (n : Z) : zdatetime :=
  {| naive := plus_days (naive dt) n; fold := false |}.

Definition max_fold_seconds : Z := 24 * 3600.

Section Zone.

(** The offset of the local zone from UTC, in seconds, at an instant. *)
Variable offset : Z -> Z.

(** The local time at the instant [u], as seconds. *)
Definition local (u : Z) : Z := u + offset u.

(** [datetime.fromtimestamp(epoch)]: the local fields, and fold 1 when the
    local time is the second passage through a repeated hour. *)
Definition fromtimestamp (epoch : Z) : zdatetime :=
  let result_seconds := local epoch in
  let probe_seconds := local (epoch - max_fold_seconds) in
  let transition := result_seconds - probe_seconds - max_fold_seconds in
  {| naive := of_seconds result_seconds;
     fold := if transition <? 0
             then local (epoch + transition) =? result_seconds
             else false |}.

(** [dt.timestamp()] of a naive datetime: the instant [u] with [local u = t],
    the earlier or the later of two by the fold, and a value past the gap
    when there is none. *)
Definition timestamp (dt : zdatetime) : Z :=
  let t := seconds (naive dt) in
  let a := local t - t in
  let u1 := t - a in
  let t1 := local u1 in
  let finish (b : Z) : Z :=
    let u2 := t - b in
    let t2 := local u2 in
    if t2 =? t then u2
    else if t1 =? t then u1
    else if fold dt then Z.min u1 u2 else Z.max u1 u2 in
  if t1 =? t then
    let u2 := if fold dt then u1 + max_fold_seconds else u1 - max_fold_seconds in
    let b := local u2 - u2 in
    if a =? b then u1 else finish b
  else finish (t1 - u1).

Definition zweekday (dt : zdatetime) : Z := weekday (naive dt).

Definition get_day_range (epoch : Z) (pfx : string) : TimeRange :=
  let dt1 := zreplace (fromtimestamp epoch) 0 0 0 in
  let dt2 := zreplace (fromtimestamp epoch) 23 59 59 in
  {| tr_scale := daily; tme_from := Some (timestamp dt1);
     tme_to := Some (timestamp dt2); prefix := pfx |}.

Definition get_hour_range (epoch hours_from hours_to : Z) (pfx : string) : TimeRange :=
  let dt1 := zreplace (fromtimestamp epoch) hours_from 0 0 in
  let dt2 :=
    if hours_to =? -1
    then zreplace (fromtimestamp (epoch + 1 * 24 * 60 * 60)) 3 0 0
    else zreplace (fromtimestamp epoch) hours_to 0 0 in
  {| tr_scale := hourly; tme_from := Some (timestamp dt1);
     tme_to := Some (timestamp dt2); prefix := pfx |}.

Definition get_subrange (time_string : string) (epoch : Z) (pfx : string)
  : option TimeRange :=
  if contains "früh" time_string then
    Some (get_hour_range epoch 6 10 (pfx ++ " früh"))
  else if contains "vormittag" time_string then
    Some (get_hour_range epoch 9 12 (pfx ++ " vormittag"))
  else if contains "nachmittag" time_string then
    Some (get_hour_range epoch 14 17 (pfx ++ " nachmittag"))
  else if contains "mittag" time_string then
    Some (get_hour_range epoch 11 14 (pfx ++ " mittag"))
  else if contains "abend" time_string then
    Some (get_hour_range epoch 17 22 (pfx ++ " abend"))
  else if contains "nacht" time_string then
    Some (get_hour_range epoch 22 (-1) (pfx ++ " nacht"))
  else None.

Definition get_weekend_range (now : Z) : TimeRange :=
  let dt := zreplace (fromtimestamp now) 0 0 0 in
  let offset := 5 - zweekday dt in
  let dt1 := zplus_days dt offset in
  let dt2 := zplus_days dt1 1 in
  {| tr_scale := daily; tme_from := Some (timestamp dt1);
     tme_to := Some (timestamp dt2); prefix := "Am Wochenende" |}.

Definition get_week_range (now : Z) (time_string : string) : TimeRange :=
  let dt := zreplace (fromtimestamp now) 0 0 0 in
  let monday := zplus_days dt (0 - zweekday dt) in
  let sunday := zplus_days monday 6 in
  if contains "nächste" time_string then
    let dt1 := zplus_days monday 7 in
    let dt2 := zplus_days sunday 7 in
    {| tr_scale := daily; tme_from := Some (timestamp dt1);
       tme_to := Some (timestamp dt2); prefix := "Nächste Woche" |}
  else
    {| tr_scale := daily; tme_from := Some (timestamp monday);
       tme_to := Some (timestamp sunday); prefix := "Diese Woche" |}.

Definition get_weekday (now : Z) (day : nat) : py TimeRange :=
  let dt1 := zreplace (fromtimestamp now) 0 0 0 in
  let offset := Z.of_nat day - zweekday dt1 in
  let offset := if offset <=? 0 then offset + 7 else offset in
  let dt1 := zplus_days dt1 offset in
  let dt2 := zreplace dt1 23 59 59 in
  name <- item (nth_error weekdays day) ;;
  Ret {| tr_scale := daily; tme_from := Some (timestamp dt1);
         tme_to := Some (timestamp dt2); prefix := "am " ++ capitalize name |}.

Definition get_timerange (now : Z) (time_string : option string)
  : py (option TimeRange) :=
  match time_string with
  | None => Ret (Some jetzt)
  | Some time_string =>
    if String.eqb time_string "" then Ret (Some jetzt) else
    match contained_weekdays time_string with
    | first :: _ =>
        day <- index first weekdays ;;
        r <- get_weekday now day ;;
        Ret (Some r)
    | [] =>
      if contains "wochenende" time_string
         || (contains "woche" time_string && contains "ende" time_string)
      then Ret (Some (get_weekend_range now))
      else if contains "woche" time_string
      then Ret (Some (get_week_range now time_string))
      else if String.eqb time_string "heute"
      then Ret (Some (get_day_range now "Heute"))
      else if String.eqb time_string "morgen"
      then Ret (Some (get_day_range (now + 1 * 24 * 60 * 60) "Morgen"))
      else if endswith time_string "bermorgen"
      then Ret (Some (get_day_range (now + 2 * 24 * 60 * 60) "Übermorgen"))
      else
        match contained_day_range_symbols time_string with
        | _ :: _ =>
          if contains "bermorgen" time_string
          then Ret (get_subrange time_string (now + 2 * 24 * 60 * 60) "Übermorgen")
          else if contains "morgen" time_string
          then Ret (get_subrange time_string (now + 1 * 24 * 60 * 60) "Morgen")
          else Ret (get_subrange time_string now "Heute")
        | [] => Ret (Some jetzt)
        end
    end
  end.

End Zone.

(** Europe/Berlin around 2026: UTC+2 from 2026-03-29 01:00 UTC to 2026-10-25
    01:00 UTC, UTC+1 before and after (the zone's changes of 2025 and 2027
    are outside the readings used below). *)
Definition berlin_2026 (u : Z) : Z :=
  if (1774746000 <=? u) && (u <? 1792890000) then 7200 else 3600.

(** The offset is [c] at every instant from [lo] to [hi]. *)
Definition stable (offset : Z -> Z) (c lo hi : Z) : Prop :=
  forall u, lo <= u <= hi -> offset u = c.

End Zoned.

(** * The vocabulary of the statements *)

(** The local day a clock reading falls on, and the reading at which a local
    day starts. *)
Definition local_day (utc_offset now : Z) : Z := (now + utc_offset) / 86400.

Definition day_start (utc_offset day : Z) : Z := day * 86400 - utc_offset.

(** The data-model invariant of a time range. *)
Definition range_invariant (r : TimeRange) : Prop :=
  (tr_scale r = currently -> tme_from r = None /\ tme_to r = None)
  /\ (forall lo hi, tme_from r = Some lo -> tme_to r = Some hi -> lo <= hi).

(** A phrase no rule of the resolver recognises. *)
Definition matches_rule (time_string : string) : bool :=
  existsb (fun day => contains day time_string) weekdays
  || contains "wochenende" time_string
  || (contains "woche" time_string && contains "ende" time_string)
  || contains "woche" time_string
  || String.eqb time_string "heute"
  || String.eqb time_string "morgen"
  || endswith time_string "bermorgen"
  || existsb (fun sym => contains sym time_string) day_range_symbols.

Definition unrecognised (time_string : option string) : Prop :=
  match time_string with
  | None => True
  | Some phrase => phrase = "" \/ matches_rule phrase = false
  end.

(** The day offset [get_weekday] adds: the difference of the weekdays, a week
    later when it is not positive. *)
Definition next_offset (day wd : Z) : Z :=
  if day - wd <=? 0 then day - wd + 7 else day - wd.

(** The hours each keyword stands for in [get_subrange]; -1 is the code's
    mark for 03:00 of the next day. *)
Definition keyword_hours (sym : string) : option (Z * Z) :=
  if String.eqb sym "früh" then Some (6, 10)
  else if String.eqb sym "vormittag" then Some (9, 12)
  else if String.eqb sym "nachmittag" then Some (14, 17)
  else if String.eqb sym "mittag" then Some (11, 14)
  else if String.eqb sym "abend" then Some (17, 22)
  else if String.eqb sym "nacht" then Some (22, -1)
  else None.

(** The order in which [get_subrange] asks for the keywords. *)
Definition subrange_order : list string :=
  ["früh"; "vormittag"; "nachmittag"; "mittag"; "abend"; "nacht"].

(** The base day of rule 7: the day after tomorrow, tomorrow or today. *)
Definition base_day (time_string : string) : Z * string :=
  if contains "bermorgen" time_string then (2, "Übermorgen")
  else if contains "morgen" time_string then (1, "Morgen")
  else (0, "Heute").

(** A record that carries its time. *)
Definition timed (r : wx) : Prop := time r <> None.

(** [lo <= r.time <= hi] *)
Definition within (lo hi : Z) (r : wx) : bool :=
  match time r with
  | Some t => (lo <=? t) && (t <=? hi)
  | None => false
  end.

(** The series a scale is named after. *)
Definition respective_series (sc : scale) (weather : payload) : option (list wx) :=
  match sc with
  | daily => p_daily weather
  | _ => p_hourly weather
  end.

(** The selection made of the series of the scale and of the daily series. *)
Definition selects_respective (weather : payload) (sc : scale) (lo hi : Z) : Prop :=
  exists rs ds,
    respective_series sc weather = Some rs
    /\ p_daily weather = Some ds
    /\ select_weather weather sc (Some lo) (Some hi)
       = Some (Ranged (filter (within lo hi) rs) (filter (within lo hi) ds)).

(** The summary with its final dot. *)
Definition with_dot (text : string) : string :=
  if endswith text "." then text else text ++ ".".

(** The smaller and the larger of two numbers. *)
Definition lower (a b : Q) : Q := if Num.ltb b a then b else a.

Definition higher (a b : Q) : Q := if Num.ltb a b then b else a.

(** The sentence on the temperatures of two days. *)
Definition two_day_range (lo0 lo1 hi0 hi1 : Q) : string :=
  " Die Temperaturen liegen zwischen " ++ str (Num.round (lower lo0 lo1))
  ++ " und " ++ str (Num.round (higher hi0 hi1)) ++ " Grad.".

(** The answer that it does not rain or snow at the moment. *)
Definition negative_now (what : pystr) : string :=
  "Ich denke nicht, dass es gerade "
  ++ (if py_eq what Lit.rain then "regnet." else "schneit.").

(** The answer by the two thresholds. *)
Definition answer_now (what : pystr) (p : Q) : string :=
  if Num.ltb p (3 # 10) then negative_now what
  else if Num.ltb p (75 # 100) then
    "Ja, es " ++ (if py_eq what Lit.rain then "regnet gerade" else "schneit gerade")
    ++ " vermutlich."
  else
    "Ja, es " ++ (if py_eq what Lit.rain then "regnet gerade." else "schneit gerade.").

(** A record as [json.loads] builds it, with a rain probability of one half. *)
Definition decoded_rain : wx :=
  {| time := Some 0; summary := Some "Regen"; icon := None; temperature := Some (8 # 1);
     temperatureMin := None; temperatureMax := None;
     precipType := Some {| obj_id := 100; text := "rain" |};
     precipProbability := Some (1 # 2) |}.

(** [w['icon'] == name or (... w['precipType'] == what ... > 0.3)] on a record
    with an icon. *)
Definition precip_match (name what : pystr) (w : wx) : bool :=
  match icon w with Some i => py_eq i name | None => false end
  || match precipType w, precipProbability w with
     | Some ty, Some p => py_eq ty what && Num.ltb (3 # 10) p
     | _, _ => false
     end.

(** The record the answer is about: the first that matches with the rain
    icon, else the first with the hail icon, else the first with the
    thunderstorm icon. *)
Definition chosen (what : pystr) (hours : list wx) : option wx :=
  match find (precip_match Lit.rain what) hours with
  | Some w => Some w
  | None =>
      match find (precip_match Lit.hail what) hours with
      | Some w => Some w
      | None => find (precip_match Lit.thunderstorm what) hours
      end
  end.

Definition verb (what : pystr) (hours : list wx) : string :=
  if existsb (precip_match Lit.rain what) hours then "regnen."
  else if existsb (precip_match Lit.hail what) hours then "hageln."
  else "Gewitter geben.".

Definition qualifier (w : wx) : string :=
  match precipProbability w with
  | Some p => if Num.ltb p (75 # 100) then " vermutlich" else ""
  | None => ""
  end.

Module Sample.

Definition record (t : Z) (text : string) : wx :=
  {| time := Some t; summary := Some text; icon := None; temperature := Some (10 # 1);
     temperatureMin := Some (4 # 1); temperatureMax := Some (12 # 1);
     precipType := None; precipProbability := None |}.

(** One hour at 05:00 and the day that holds it, 1970-01-01. *)
Definition one_day : payload :=
  {| p_currently := Some (record 18000 "klar");
     p_hourly := Some [record 18000 "klar"];
     p_daily := Some [record 0 "heiter"] |}.

(** An hour with the rain icon and the probability [p] of rain. *)
Definition rainy (t : Z) (p : Q) : wx :=
  {| time := Some t; summary := Some "Regen"; icon := Some {| obj_id := 101; text := "rain" |};
     temperature := Some (8 # 1); temperatureMin := None; temperatureMax := None;
     precipType := Some {| obj_id := 102; text := "rain" |};
     precipProbability := Some p |}.

(** A day with every key the handlers read. *)
Definition day (t : Z) (text : string) : wx :=
  {| time := Some t; summary := Some text;
     icon := Some {| obj_id := 105; text := "rain" |}; temperature := None;
     temperatureMin := Some (4 # 1); temperatureMax := Some (12 # 1);
     precipType := None; precipProbability := Some (8 # 10) |}.

(** 1970-01-01 with two rainy hours in the afternoon. *)
Definition rainy_day : payload :=
  {| p_currently := Some (rainy 0 (8 # 10));
     p_hourly := Some [rainy 50400 (8 # 10); rainy 54000 (6 # 10)];
     p_daily := Some [day 0 "Regen"] |}.

(** Hours of 1970-01-01 and the Monday of the week after it. *)
Definition next_week : payload :=
  {| p_currently := Some (record 0 "klar");
     p_hourly := Some [record 0 "klar"; record 3600 "klar"];
     p_daily := Some [record 345600 "Regen"] |}.

End Sample.

Section Statements.

Variable utc_offset : Z.


(** The sub-range of the first keyword of [order] the phrase contains. *)
Definition subrange_by (order : list string) (time_string : string) (epoch : Z)
    (pfx : string) : option TimeRange :=
  match find (fun sym => contains sym time_string) order with
  | Some sym =>
      match keyword_hours sym with
      | Some (hf, ht) => Some (get_hour_range utc_offset epoch hf ht (pfx ++ " " ++ sym))
      | None => None
      end
  | None => None
  end.

(** What rule 7 promises for "nacht": an hourly range from 22:00 of the base
    day to 03:00 of the day after it. *)
Definition resolves_to_night (now : Z) (phrase : string) : Prop :=
  exists lo hi,
    get_timerange utc_offset now (Some phrase)
    = Ret (Some {| tr_scale := hourly; tme_from := Some lo; tme_to := Some hi;
                   prefix := snd (base_day phrase) ++ " nacht" |})
    /\ lo = day_start utc_offset (local_day utc_offset now + fst (base_day phrase))
            + 22 * 3600
    /\ hi = day_start utc_offset (local_day utc_offset now + fst (base_day phrase) + 1)
            + 3 * 3600
    /\ lo < hi
    /\ local_day utc_offset hi = local_day utc_offset lo + 1.

(** The name of the weekday a reading falls on. *)
Definition day_name (t : Z) : string :=
  nth (Z.to_nat (weekday (fromtimestamp utc_offset t))) weekdays "".

(** The time of day of a reading. *)
Definition time_of_day (t : Z) : string :=
  strftime_HM_Uhr (fromtimestamp utc_offset t).

(** The sentence on the record chosen. *)
Definition report (what : pystr) (sc : scale) (hours days : list wx) (pfx : string)
    (w : wx) (t : Z) : string :=
  match sc with
  | hourly => "Gegen " ++ time_of_day t ++ " wird es " ++ verb what hours
  | _ =>
      if (List.length days =? 1)%nat then pfx ++ " wird es " ++ verb what hours
      else "Am " ++ capitalize (day_name t) ++ " wird es" ++ qualifier w
           ++ " gegen " ++ time_of_day t ++ " " ++ verb what hours
  end.

(** A match is reported, no match is answered with "Nein, ich denke nicht.". *)
Definition reports_first_match (what : pystr) (sc : scale) (hours days : list wx)
    (pfx : string) : Prop :=
  match chosen what hours with
  | Some w =>
      exists t, time w = Some t
                /\ process_has utc_offset what sc (Ranged hours days) pfx
                   = Ret (Some (report what sc hours days pfx w t))
  | None => process_has utc_offset what sc (Ranged hours days) pfx = Ret (Some nein)
  end.

End Statements.

(** ** Further vocabulary: shapes of ranges, complete payloads, sun *)

(** The range moved by [delta] seconds. *)
Definition shift_range (delta : Z) (r : TimeRange) : TimeRange :=
  {| tr_scale := tr_scale r;
     tme_from := option_map (fun t => t + delta) (tme_from r);
     tme_to := option_map (fun t => t + delta) (tme_to r);
     prefix := prefix r |}.

(** The result of the resolver with its range moved by [delta] seconds. *)
Definition shift_result (delta : Z) (res : py (option TimeRange))
  : py (option TimeRange) :=
  match res with
  | Ret (Some r) => Ret (Some (shift_range delta r))
  | other => other
  end.

Section Shapes.

Variable utc_offset : Z.

(** A daily range that starts with the local day [d] and is [len] seconds long. *)
Definition daily_range (r : TimeRange) (d len : Z) : Prop :=
  tr_scale r = daily
  /\ tme_from r = Some (day_start utc_offset d)
  /\ tme_to r = Some (day_start utc_offset d + len).

(** An hourly range that starts at the hour [hf] of the local day [d]. *)
Definition hourly_range (r : TimeRange) (d hf len : Z) : Prop :=
  tr_scale r = hourly
  /\ tme_from r = Some (day_start utc_offset d + hf * 3600)
  /\ tme_to r = Some (day_start utc_offset d + hf * 3600 + len).

End Shapes.

(** [w['icon'] == name] on a record with an icon. *)
Definition icon_is (name : pystr) (w : wx) : bool :=
  match icon w with Some i => py_eq i name | None => false end.

(** The record the answer on the sun is about: the first clear one, else the
    first partly cloudy one. *)
Definition chosen_sun (hours : list wx) : option wx :=
  match find (icon_is Lit.clear_day) hours with
  | Some w => Some w
  | None => find (icon_is Lit.partly_cloudy_day) hours
  end.

Definition sun_words (hours : list wx) : string :=
  if existsb (icon_is Lit.clear_day) hours then "sonnig."
  else "ein bisschen Sonne geben.".

(** The temperature of a record, 0 when it has none. *)
Definition temp_of (w : wx) : Q :=
  match temperature w with Some t => t | None => 0%Q end.

(** The keys the handlers read in the current record, in an hour and in a day. *)
Definition complete_now (w : wx) : Prop :=
  summary w <> None /\ temperature w <> None.

Definition complete_hour (w : wx) : Prop :=
  time w <> None /\ summary w <> None /\ icon w <> None
  /\ temperature w <> None /\ precipProbability w <> None.

Definition complete_day (w : wx) : Prop :=
  time w <> None /\ summary w <> None /\ icon w <> None
  /\ temperatureMin w <> None /\ temperatureMax w <> None.

(** A payload with the current record and both series, no key missing. *)
Definition complete (weather : payload) : Prop :=
  exists c hs ds,
    p_currently weather = Some c /\ complete_now c
    /\ p_hourly weather = Some hs /\ Forall complete_hour hs
    /\ p_daily weather = Some ds /\ Forall complete_day ds.

(** The five intents the program answers. *)
Definition known_intents : list string :=
  ["s710:getForecast"; "s710:getTemperature"; "s710:hasRain"; "s710:hasSun";
   "s710:hasSnow"].

Section SunStatements.

Variable utc_offset : Z.

(** The sentence on the sun at the reading [t]. *)
Definition report_sun (sc : scale) (hours days : list wx) (pfx : string) (t : Z)
  : string :=
  match sc with
  | hourly => "Gegen " ++ time_of_day utc_offset t ++ " wird es " ++ sun_words hours
  | _ =>
      if (List.length days =? 1)%nat then
        pfx ++ " wird es gegen " ++ time_of_day utc_offset t ++ " " ++ sun_words hours
      else
        "Am " ++ capitalize (day_name utc_offset t) ++ " wird es gegen "
        ++ time_of_day utc_offset t ++ " " ++ sun_words hours
  end.

(** The first sunny record is reported, none is answered with "Nein, ich
    denke nicht.". *)
Definition reports_first_sun (what : pystr) (sc : scale) (hours days : list wx)
    (pfx : string) : Prop :=
  match chosen_sun hours with
  | Some w =>
      exists t, time w = Some t
                /\ process_has utc_offset what sc (Ranged hours days) pfx
                   = Ret (Some (report_sun sc hours days pfx t))
  | None => process_has utc_offset what sc (Ranged hours days) pfx = Ret (Some nein)
  end.

End SunStatements.

(** ** Further vocabulary: a zone whose offset changes *)

(** What rule 7 gives in a zone whose offset is [c] around the reading: an
    hourly range that starts on the base day; with "nacht" as the only
    keyword it runs from 22:00 to 03:00 of the day after, with another
    keyword it stays within the day. *)
Definition resolves_keyword (offset : Z -> Z) (c now : Z) (phrase : string) : Prop :=
  exists r lo hi,
    Zoned.get_timerange offset now (Some phrase) = Ret (Some r)
    /\ tr_scale r = hourly
    /\ tme_from r = Some lo
    /\ tme_to r = Some hi
    /\ lo < hi
    /\ local_day c lo = local_day c now + fst (base_day phrase)
    /\ (contained_day_range_symbols phrase = ["nacht"] ->
        prefix r = snd (base_day phrase) ++ " nacht"
        /\ lo = day_start c (local_day c lo) + 22 * 3600
        /\ hi = day_start c (local_day c lo + 1) + 3 * 3600
        /\ local_day c hi = local_day c lo + 1)
    /\ (contained_day_range_symbols phrase <> ["nacht"] ->
        local_day c hi = local_day c lo).

(** Midsummer 2026 in Europe/Berlin: Wednesday 2026-07-01, 12:00 (UTC+2). *)
Definition summer_noon : Z := 1782900000.

(** The night of the change in Europe/Berlin: Sunday 2026-10-25, 00:30 (UTC+2),
    two and a half hours before the clocks go back. *)
Definition change_night : Z := 1792881000.

(** * Properties *)

(** ** The monad and the list helpers *)

Lemma filter_py_total {A : Type} (cond : A -> py bool) (f : A -> bool) (xs : list A) :
  Forall (fun x => cond x = Ret (f x)) xs ->
  filter_py cond xs = Ret (filter f xs).
Proof.
  induction 1 as [|x rest Hx _ IH]; simpl.
  - reflexivity.
  - rewrite Hx, IH. simpl. reflexivity.
Qed.

Lemma map_py_total {A B : Type} (g : A -> py B) (f : A -> B) (xs : list A) :
  Forall (fun x => g x = Ret (f x)) xs ->
  map_py g xs = Ret (map f xs).
Proof.
  induction 1 as [|x rest Hx _ IH]; simpl.
  - reflexivity.
  - rewrite Hx, IH. reflexivity.
Qed.

Lemma filter_nil_existsb {A : Type} (f : A -> bool) (xs : list A) :
  existsb f xs = false -> filter f xs = [].
Proof.
  induction xs as [|x rest IH]; simpl; intros H.
  - reflexivity.
  - apply orb_false_iff in H. destruct H as [Hx Hrest].
    rewrite Hx. auto.
Qed.

Lemma filter_head_In {A : Type} (f : A -> bool) (xs : list A) x rest :
  filter f xs = x :: rest -> In x xs /\ f x = true.
Proof.
  intros H. apply filter_In. rewrite H. left. reflexivity.
Qed.

Lemma index_found (x : string) (xs : list string) :
  In x xs -> exists i, index x xs = Ret i /\ nth_error xs i = Some x.
Proof.
  induction xs as [|y rest IH]; simpl; intros Hin.
  - contradiction.
  - destruct (String.eqb_spec y x) as [->|Hne].
    + exists 0%nat. split; reflexivity.
    + destruct Hin as [Heq|Hin]; [congruence|].
      destruct (IH Hin) as (i & Hi & Hn).
      exists (S i). rewrite Hi. split; [reflexivity|exact Hn].
Qed.



Lemma find_hd_filter {A : Type} (f : A -> bool) (xs : list A) :
  find f xs = hd_error (filter f xs).
Proof.
  induction xs as [|x rest IH]; simpl; [reflexivity|].
  destruct (f x); [reflexivity|exact IH].
Qed.

Lemma existsb_filter {A : Type} (f : A -> bool) (xs : list A) :
  existsb f xs = negb (is_nil (filter f xs)).
Proof.
  induction xs as [|x rest IH]; simpl; [reflexivity|].
  destruct (f x); [reflexivity|exact IH].
Qed.

Lemma prefix_trans (a b s : string) :
  String.prefix a b = true -> String.prefix b s = true -> String.prefix a s = true.
Proof.
  revert b s. induction a as [|c a IH]; intros b s Hab Hbs;
    [destruct s; reflexivity|].
  destruct b as [|c' b]; [discriminate|].
  destruct s as [|c'' s]; [discriminate|].
  simpl in *.
  destruct (ascii_dec c c') as [->|]; [|discriminate].
  destruct (ascii_dec c' c'') as [->|]; [|discriminate].
  destruct (ascii_dec c'' c'') as [_|Hne]; [|contradiction].
  eapply IH; eassumption.
Qed.

(** A phrase that contains a word contains the beginning of the word. *)
Lemma contains_prefix (a b s : string) :
  String.prefix a b = true -> contains b s = true -> contains a s = true.
Proof.
  intros Hab. induction s as [|c s IH]; cbn [contains]; intros H.
  - rewrite orb_false_r in *. eapply prefix_trans; eassumption.
  - apply orb_true_iff in H. apply orb_true_iff. destruct H as [H|H].
    + left. eapply prefix_trans; eassumption.
    + right. apply IH. exact H.
Qed.


(** ** Calendar arithmetic *)

Section Calendar.

Variable utc_offset : Z.

Lemma timestamp_replace (epoch h m s : Z) :
  timestamp utc_offset (replace (fromtimestamp utc_offset epoch) h m s)
  = day_start utc_offset (local_day utc_offset epoch) + h * 3600 + m * 60 + s.
Proof.
  unfold timestamp, replace, fromtimestamp, day_start, local_day.
  cbn [date hour minute second]. lia.
Qed.

Lemma timestamp_plus_days (dt : datetime) (n : Z) :
  timestamp utc_offset (plus_days dt n) = timestamp utc_offset dt + n * 86400.
Proof.
  unfold timestamp, plus_days. cbn [date hour minute second]. lia.
Qed.

Lemma local_day_next (epoch k : Z) :
  local_day utc_offset (epoch + k * 86400) = local_day utc_offset epoch + k.
Proof.
  unfold local_day.
  replace (epoch + k * 86400 + utc_offset) with (epoch + utc_offset + k * 86400) by lia.
  apply Z.div_add. lia.
Qed.

Lemma local_day_of_day_start (day s : Z) :
  0 <= s < 86400 -> local_day utc_offset (day_start utc_offset day + s) = day.
Proof.
  intros Hs. unfold local_day, day_start.
  replace (day * 86400 - utc_offset + s + utc_offset) with (s + day * 86400) by lia.
  rewrite Z.div_add by lia. rewrite Z.div_small by lia. lia.
Qed.

Lemma weekday_range_ok (dt : datetime) : 0 <= weekday dt < 7.
Proof. unfold weekday. apply Z.mod_pos_bound. lia. Qed.

End Calendar.

(** ** The resolver *)

Ltac split_orb :=
  repeat match goal with
         | H : (_ || _)%bool = false |- _ =>
             apply orb_false_iff in H; destruct H
         end.

Section ResolverFacts.

Variable utc_offset : Z.

Lemma get_day_range_eq (epoch : Z) (pfx : string) :
  get_day_range utc_offset epoch pfx
  = {| tr_scale := daily;
       tme_from := Some (day_start utc_offset (local_day utc_offset epoch));
       tme_to := Some (day_start utc_offset (local_day utc_offset epoch) + 86399);
       prefix := pfx |}.
Proof.
  unfold get_day_range. rewrite !timestamp_replace. f_equal; f_equal; lia.
Qed.

Lemma get_hour_range_eq (epoch hf ht : Z) (pfx : string) :
  ht <> -1 ->
  get_hour_range utc_offset epoch hf ht pfx
  = {| tr_scale := hourly;
       tme_from := Some (day_start utc_offset (local_day utc_offset epoch) + hf * 3600);
       tme_to := Some (day_start utc_offset (local_day utc_offset epoch) + ht * 3600);
       prefix := pfx |}.
Proof.
  intros Hne. unfold get_hour_range.
  destruct (Z.eqb_spec ht (-1)) as [|_]; [contradiction|].
  rewrite !timestamp_replace. f_equal; f_equal; lia.
Qed.

Lemma get_hour_range_night (epoch hf : Z) (pfx : string) :
  get_hour_range utc_offset epoch hf (-1) pfx
  = {| tr_scale := hourly;
       tme_from := Some (day_start utc_offset (local_day utc_offset epoch) + hf * 3600);
       tme_to := Some (day_start utc_offset (local_day utc_offset epoch + 1) + 3 * 3600);
       prefix := pfx |}.
Proof.
  unfold get_hour_range. simpl (-1 =? -1).
  rewrite !timestamp_replace.
  replace (epoch + 1 * 24 * 60 * 60) with (epoch + 1 * 86400) by lia.
  rewrite local_day_next. f_equal; f_equal; lia.
Qed.

Lemma get_weekend_range_eq (now : Z) :
  get_weekend_range utc_offset now
  = let sat := local_day utc_offset now + (5 - (local_day utc_offset now + 3) mod 7) in
    {| tr_scale := daily;
       tme_from := Some (day_start utc_offset sat);
       tme_to := Some (day_start utc_offset (sat + 1));
       prefix := "Am Wochenende" |}.
Proof.
  unfold get_weekend_range. cbv zeta.
  rewrite !timestamp_plus_days, timestamp_replace.
  unfold weekday, replace, fromtimestamp, day_start, local_day. cbn [date].
  f_equal; f_equal; lia.
Qed.

Lemma get_week_range_eq (now : Z) (time_string : string) :
  get_week_range utc_offset now time_string
  = let monday := local_day utc_offset now - (local_day utc_offset now + 3) mod 7 in
    if contains "nächste" time_string then
      {| tr_scale := daily;
         tme_from := Some (day_start utc_offset (monday + 7));
         tme_to := Some (day_start utc_offset (monday + 13));
         prefix := "Nächste Woche" |}
    else
      {| tr_scale := daily;
         tme_from := Some (day_start utc_offset monday);
         tme_to := Some (day_start utc_offset (monday + 6));
         prefix := "Diese Woche" |}.
Proof.
  unfold get_week_range. cbv zeta.
  rewrite !timestamp_plus_days, timestamp_replace.
  unfold weekday, replace, fromtimestamp, day_start, local_day. cbn [date].
  destruct (contains "nächste" time_string); f_equal; f_equal; lia.
Qed.

Lemma next_offset_spec (day wd : Z) :
  0 <= day < 7 -> 0 <= wd < 7 ->
  1 <= next_offset day wd <= 7
  /\ (wd + next_offset day wd) mod 7 = day
  /\ (day = wd -> next_offset day wd = 7).
Proof.
  intros Hd Hw. unfold next_offset.
  destruct (Z.leb_spec (day - wd) 0) as [Hle|Hgt].
  - repeat split; try lia.
    replace (wd + (day - wd + 7)) with (day + 1 * 7) by lia.
    rewrite Z.mod_add by lia. apply Z.mod_small. lia.
  - repeat split; try lia.
    replace (wd + (day - wd)) with day by lia. apply Z.mod_small. lia.
Qed.

Lemma get_weekday_eq (now : Z) (day : nat) (name : string) :
  nth_error weekdays day = Some name ->
  get_weekday utc_offset now day
  = let target := local_day utc_offset now
                  + next_offset (Z.of_nat day) ((local_day utc_offset now + 3) mod 7) in
    Ret {| tr_scale := daily;
           tme_from := Some (day_start utc_offset target);
           tme_to := Some (day_start utc_offset target + 86399);
           prefix := "am " ++ capitalize name |}.
Proof.
  intros Hname. unfold get_weekday. cbv zeta. rewrite Hname.
  cbn [item bind].
  unfold timestamp, weekday, next_offset, day_start, local_day, plus_days,
    replace, fromtimestamp.
  cbn [date hour minute second].
  destruct (Z.of_nat day - ((now + utc_offset) / 86400 + 3) mod 7 <=? 0);
    do 2 f_equal; f_equal; lia.
Qed.

Lemma nth_error_weekdays_lt (day : nat) (name : string) :
  nth_error weekdays day = Some name -> 0 <= Z.of_nat day < 7.
Proof.
  intros H. assert (day < List.length weekdays)%nat by (apply nth_error_Some; congruence).
  simpl in H0. lia.
Qed.

(** Some keyword is found by [get_subrange] exactly when the list comprehension
    of [get_timerange] found one. *)
Lemma get_subrange_cases (time_string : string) (epoch : Z) (pfx : string) :
  contained_day_range_symbols time_string <> [] ->
  exists hf ht sfx,
    get_subrange utc_offset time_string epoch pfx
    = Some (get_hour_range utc_offset epoch hf ht (pfx ++ sfx))
    /\ (0 <= hf <= ht /\ ht <> -1 \/ hf = 22 /\ ht = -1).
Proof.
  intros Hne. unfold get_subrange.
  unfold contained_day_range_symbols, day_range_symbols in Hne. simpl in Hne.
  destruct (contains "früh" time_string);
    [exists 6, 10, " früh"; split; [reflexivity|lia]|].
  destruct (contains "vormittag" time_string);
    [exists 9, 12, " vormittag"; split; [reflexivity|lia]|].
  destruct (contains "nachmittag" time_string) eqn:Hnm;
    [exists 14, 17, " nachmittag"; split; [reflexivity|lia]|].
  destruct (contains "mittag" time_string);
    [exists 11, 14, " mittag"; split; [reflexivity|lia]|].
  destruct (contains "abend" time_string);
    [exists 17, 22, " abend"; split; [reflexivity|lia]|].
  destruct (contains "nacht" time_string);
    [exists 22, (-1), " nacht"; split; [reflexivity|lia]|].
  contradiction.
Qed.

Lemma get_hour_range_invariant (epoch hf ht : Z) (pfx : string) :
  0 <= hf <= ht /\ ht <> -1 \/ hf = 22 /\ ht = -1 ->
  range_invariant (get_hour_range utc_offset epoch hf ht pfx).
Proof.
  intros [[Hle Hne]|[-> ->]].
  - rewrite get_hour_range_eq by exact Hne.
    split; simpl; [discriminate|]. intros lo hi [= <-] [= <-]. lia.
  - rewrite get_hour_range_night.
    split; simpl; [discriminate|]. intros lo hi [= <-] [= <-].
    unfold day_start. lia.
Qed.

Lemma get_day_range_invariant (epoch : Z) (pfx : string) :
  range_invariant (get_day_range utc_offset epoch pfx).
Proof.
  rewrite get_day_range_eq.
  split; simpl; [discriminate|]. intros lo hi [= <-] [= <-]. lia.
Qed.

Lemma jetzt_invariant : range_invariant jetzt.
Proof. split; simpl; [auto|discriminate]. Qed.


(** At a fixed offset: whatever the phrase and the clock, the resolver
    returns a time range, and the range satisfies the invariant of the data
    model: scale [currently] has no bounds, and a lower and an upper bound
    that are both present are in order. *)
Theorem get_timerange_invariant (now : Z) (time_string : option string) :
  exists r, get_timerange utc_offset now time_string = Ret (Some r)
            /\ range_invariant r.
Proof.
  destruct time_string as [phrase|]; unfold get_timerange;
    [|exists jetzt; split; [reflexivity|apply jetzt_invariant]].
  destruct (String.eqb phrase "");
    [exists jetzt; split; [reflexivity|apply jetzt_invariant]|].
  destruct (contained_weekdays phrase) as [|first rest] eqn:Hdays.
  - destruct (contains "wochenende" phrase
              || contains "woche" phrase && contains "ende" phrase).
    { eexists. split; [reflexivity|]. rewrite get_weekend_range_eq.
      split; simpl; [discriminate|]. intros lo hi [= <-] [= <-].
      unfold day_start. lia. }
    destruct (contains "woche" phrase).
    { eexists. split; [reflexivity|]. rewrite get_week_range_eq. simpl.
      destruct (contains "nächste" phrase);
        (split; simpl; [discriminate|]; intros lo hi [= <-] [= <-];
         unfold day_start; lia). }
    destruct (String.eqb phrase "heute").
    { eexists. split; [reflexivity|apply get_day_range_invariant]. }
    destruct (String.eqb phrase "morgen").
    { eexists. split; [reflexivity|apply get_day_range_invariant]. }
    destruct (endswith phrase "bermorgen").
    { eexists. split; [reflexivity|apply get_day_range_invariant]. }
    destruct (contained_day_range_symbols phrase) as [|sym syms] eqn:Hsyms.
    { exists jetzt. split; [reflexivity|apply jetzt_invariant]. }
    assert (Hne : contained_day_range_symbols phrase <> []) by (rewrite Hsyms; discriminate).
    destruct (contains "bermorgen" phrase); [|destruct (contains "morgen" phrase)];
      match goal with
      | |- context [get_subrange _ _ ?e ?p] =>
          destruct (get_subrange_cases phrase e p Hne) as (hf & ht & sfx & -> & Hh)
      end;
      (eexists; split; [reflexivity|apply get_hour_range_invariant; exact Hh]).
  - apply filter_head_In in Hdays. destruct Hdays as [Hin _].
    destruct (index_found first weekdays Hin) as (i & -> & Hnth).
    cbn [bind]. rewrite (get_weekday_eq now i first Hnth). cbn [bind]. cbv zeta.
    eexists. split; [reflexivity|].
    split; simpl; [discriminate|]. intros lo hi [= <-] [= <-]. lia.
Qed.


(** C3, amended. The keyword that picks the hours is the first one the phrase
    contains in the order früh, vormittag, nachmittag, mittag, abend, nacht:
    "nachmittag" is asked for before "mittag". *)
Theorem get_subrange_first_keyword (time_string : string) (epoch : Z) (pfx : string) :
  get_subrange utc_offset time_string epoch pfx
  = subrange_by utc_offset subrange_order time_string epoch pfx.
Proof.
  unfold get_subrange, subrange_by, subrange_order. cbn [find].
  repeat (match goal with
          | |- context [contains ?k time_string] => destruct (contains k time_string)
          end; [reflexivity|]).
  reflexivity.
Qed.

(** The two orders pick the same keyword unless "nachmittag" is in the phrase. *)
Lemma subrange_orders_agree (time_string : string) (epoch : Z) (pfx : string) :
  contains "nachmittag" time_string = false ->
  subrange_by utc_offset subrange_order time_string epoch pfx
  = subrange_by utc_offset day_range_symbols time_string epoch pfx.
Proof.
  intros H. unfold subrange_by, subrange_order, day_range_symbols. cbn [find].
  rewrite H. reflexivity.
Qed.

Lemma no_woche_no_wochenende (phrase : string) :
  contains "woche" phrase = false -> contains "wochenende" phrase = false.
Proof.
  intros H. destruct (contains "wochenende" phrase) eqn:Hw; [|reflexivity].
  rewrite (contains_prefix "woche" "wochenende" phrase eq_refl Hw) in H.
  discriminate.
Qed.

(** At a fixed offset: when "nacht" is the only day-range keyword of the
    phrase and no earlier rule takes the phrase (no weekday name, no "woche",
    no "bermorgen" at its end), the resolver returns the scale [hourly] from
    22:00 of the base day to 03:00 of the following day. *)
Theorem get_timerange_night (now : Z) (phrase : string) :
  contained_day_range_symbols phrase = ["nacht"] ->
  contained_weekdays phrase = [] ->
  contains "woche" phrase = false ->
  endswith phrase "bermorgen" = false ->
  resolves_to_night utc_offset now phrase.
Proof.
  intros Hsyms Hdays Hwoche Hends.
  set (base := fst (base_day phrase)).
  exists (day_start utc_offset (local_day utc_offset now + base) + 22 * 3600),
         (day_start utc_offset (local_day utc_offset now + base + 1) + 3 * 3600).
  split; [|split; [reflexivity|split; [reflexivity|split]]].
  - unfold get_timerange.
    destruct (String.eqb_spec phrase "") as [->|_]; [discriminate Hsyms|].
    rewrite Hdays, (no_woche_no_wochenende phrase Hwoche), Hwoche.
    cbn [orb andb].
    destruct (String.eqb_spec phrase "heute") as [->|_]; [discriminate Hsyms|].
    destruct (String.eqb_spec phrase "morgen") as [->|_]; [discriminate Hsyms|].
    rewrite Hends, Hsyms.
    assert (Hsub : forall epoch pfx,
               get_subrange utc_offset phrase epoch pfx
               = Some (get_hour_range utc_offset epoch 22 (-1) (pfx ++ " nacht"))).
    { intros epoch pfx. unfold get_subrange.
      unfold contained_day_range_symbols, day_range_symbols in Hsyms.
      cbn [filter] in Hsyms.
      repeat match type of Hsyms with
             | context [contains ?k phrase] =>
                 destruct (contains k phrase); try discriminate Hsyms
             end.
      reflexivity. }
    subst base. unfold base_day.
    destruct (contains "bermorgen" phrase); [|destruct (contains "morgen" phrase)];
      rewrite Hsub, get_hour_range_night; cbn [fst snd];
      repeat match goal with
             | |- context [local_day utc_offset (now + ?k * 24 * 60 * 60)] =>
                 replace (now + k * 24 * 60 * 60) with (now + k * 86400) by lia;
                 rewrite local_day_next
             end;
      do 3 f_equal; f_equal; unfold day_start; lia.
  - unfold day_start. lia.
  - rewrite !local_day_of_day_start by lia. reflexivity.
Qed.

(** The converse of C5: a phrase some rule recognises never falls back to
    [currently]. *)
Lemma get_timerange_recognised (now : Z) (phrase : string) :
  phrase <> "" ->
  matches_rule phrase = true ->
  exists r, get_timerange utc_offset now (Some phrase) = Ret (Some r)
            /\ tr_scale r <> currently.
Proof.
  intros Hne Hrule. unfold get_timerange.
  destruct (String.eqb_spec phrase "") as [|_]; [contradiction|].
  unfold matches_rule in Hrule. rewrite !existsb_filter in Hrule.
  fold (contained_weekdays phrase) in Hrule.
  fold (contained_day_range_symbols phrase) in Hrule.
  destruct (contained_weekdays phrase) as [|first rest] eqn:Hdays.
  - cbn [is_nil negb orb] in Hrule.
    destruct (contains "wochenende" phrase
              || contains "woche" phrase && contains "ende" phrase) eqn:Hwe.
    { eexists. split; [reflexivity|]. rewrite get_weekend_range_eq. discriminate. }
    destruct (contains "woche" phrase).
    { eexists. split; [reflexivity|]. rewrite get_week_range_eq. cbv zeta.
      destruct (contains "nächste" phrase); discriminate. }
    destruct (String.eqb phrase "heute").
    { eexists. split; [reflexivity|]. rewrite get_day_range_eq. discriminate. }
    destruct (String.eqb phrase "morgen").
    { eexists. split; [reflexivity|]. rewrite get_day_range_eq. discriminate. }
    destruct (endswith phrase "bermorgen").
    { eexists. split; [reflexivity|]. rewrite get_day_range_eq. discriminate. }
    cbn [orb] in Hrule.
    destruct (contained_day_range_symbols phrase) as [|sym syms] eqn:Hsyms;
      [discriminate Hrule|].
    assert (Hsome : contained_day_range_symbols phrase <> [])
      by (rewrite Hsyms; discriminate).
    destruct (contains "bermorgen" phrase); [|destruct (contains "morgen" phrase)];
      match goal with
      | |- context [get_subrange _ _ ?e ?p] =>
          destruct (get_subrange_cases phrase e p Hsome) as (hf & ht & sfx & -> & _)
      end;
      (eexists; split; [reflexivity|unfold get_hour_range; discriminate]).
  - apply filter_head_In in Hdays. destruct Hdays as [Hin _].
    destruct (index_found first weekdays Hin) as (i & -> & Hnth).
    cbn [bind]. rewrite (get_weekday_eq now i first Hnth). cbn [bind]. cbv zeta.
    eexists. split; [reflexivity|discriminate].
Qed.

Lemma unrecognised_absent : unrecognised None.
Proof. exact I. Qed.

Lemma unrecognised_empty : unrecognised (Some "").
Proof. left. reflexivity. Qed.

(** C5. A phrase that is absent, empty or recognised by no rule is resolved,
    without an exception, to the range [currently] with no bounds and the
    prefix "Jetzt". *)
Theorem get_timerange_unrecognised (now : Z) (time_string : option string) :
  unrecognised time_string ->
  get_timerange utc_offset now time_string = Ret (Some jetzt).
Proof.
  destruct time_string as [phrase|]; unfold get_timerange, unrecognised;
    [|reflexivity].
  intros [->|Hno]; [reflexivity|].
  destruct (String.eqb phrase ""); [reflexivity|].
  unfold matches_rule in Hno. split_orb.
  unfold contained_weekdays, contained_day_range_symbols.
  rewrite filter_nil_existsb by assumption.
  rewrite filter_nil_existsb by assumption.
  repeat match goal with H : _ = false |- _ => rewrite H; clear H end.
  reflexivity.
Qed.

End ResolverFacts.



(** C3 as stated fails at "nachmittag": the first keyword of the canonical
    list it contains is "mittag", and the hours are those of "nachmittag". *)
Lemma get_subrange_canonical_order_counterexample :
  contained_day_range_symbols "nachmittag" = ["mittag"; "nachmittag"]
  /\ get_timerange 0 0 (Some "nachmittag")
     = Ret (Some {| tr_scale := hourly; tme_from := Some 50400;
                    tme_to := Some 61200; prefix := "Heute nachmittag" |})
  /\ subrange_by 0 day_range_symbols "nachmittag" 0 "Heute"
     = Some {| tr_scale := hourly; tme_from := Some 39600;
               tme_to := Some 50400; prefix := "Heute mittag" |}
  /\ get_subrange 0 "nachmittag" 0 "Heute"
     <> subrange_by 0 day_range_symbols "nachmittag" 0 "Heute".
Proof.
  split; [reflexivity|]. split; [reflexivity|]. split; [reflexivity|].
  vm_compute. discriminate.
Qed.

(** C4 as stated fails at "montag nacht": rule 1 takes the phrase. *)
Lemma get_timerange_night_counterexample :
  contains "nacht" "montag nacht" = true
  /\ get_timerange 0 0 (Some "montag nacht")
     = Ret (Some {| tr_scale := daily; tme_from := Some 345600;
                    tme_to := Some 431999; prefix := "am Montag" |})
  /\ ~ resolves_to_night 0 0 "montag nacht".
Proof.
  split; [reflexivity|]. split; [reflexivity|].
  intros (lo & hi & H & _).
  vm_compute in H. discriminate H.
Qed.

(** "morgen nacht", asked on Thursday 1970-01-01, 10:00 UTC+1. *)
Lemma get_timerange_night_witness : resolves_to_night 3600 32400 "morgen nacht".
Proof.
  apply (get_timerange_night 3600 32400 "morgen nacht"); reflexivity.
Defined.

(** C5 at the phrase "jetzt". *)
Lemma get_timerange_unrecognised_witness :
  unrecognised (Some "jetzt")
  /\ get_timerange 3600 1000000 (Some "jetzt") = Ret (Some jetzt).
Proof.
  assert (H : unrecognised (Some "jetzt")) by (right; reflexivity).
  split; [exact H|].
  exact (get_timerange_unrecognised 3600 1000000 (Some "jetzt") H).
Defined.

(** ** The selector *)

Lemma in_range_timed (lo hi : Z) (r : wx) :
  timed r -> in_range (Some lo) (Some hi) r = Ret (within lo hi r).
Proof.
  unfold timed, in_range, within. destruct (time r) as [t|]; [|contradiction].
  intros _. cbn [item bind]. destruct (lo <=? t); reflexivity.
Qed.

Lemma filter_py_in_range (lo hi : Z) (rs : list wx) :
  Forall timed rs ->
  filter_py (in_range (Some lo) (Some hi)) rs = Ret (filter (within lo hi) rs).
Proof.
  intros H. apply filter_py_total.
  eapply Forall_impl; [|exact H]. intros r. apply in_range_timed.
Qed.

(** A comprehension keeps the order of its source: a series in ascending
    time stays so. *)
Lemma filter_keeps_order {A : Type} (R : A -> A -> Prop) (f : A -> bool) (xs : list A) :
  StronglySorted R xs -> StronglySorted R (filter f xs).
Proof.
  induction 1 as [|x rest Hsorted IH Hall]; simpl.
  - constructor.
  - destruct (f x); [|exact IH].
    constructor; [exact IH|].
    apply Forall_forall. intros y Hy. apply filter_In in Hy.
    rewrite Forall_forall in Hall. apply Hall. tauto.
Qed.

(** C6, amended. For scale [currently] the selection is the current record
    with no second slot. For the scales [hourly] and [daily] alike the first
    slot is the hourly series and the second slot the daily series, each
    reduced to the records with [lo <= time <= hi], in the order of the
    source. *)
Theorem select_weather_slots (weather : payload) (c : wx) (hs ds : list wx) :
  p_currently weather = Some c ->
  p_hourly weather = Some hs ->
  p_daily weather = Some ds ->
  Forall timed hs ->
  Forall timed ds ->
  (forall lo hi, select_weather weather currently lo hi = Some (Current c))
  /\ (forall sc lo hi,
         sc <> currently ->
         select_weather weather sc (Some lo) (Some hi)
         = Some (Ranged (filter (within lo hi) hs) (filter (within lo hi) ds))).
Proof.
  intros Hc Hh Hd Hhs Hds. split.
  - intros lo hi. unfold select_weather. cbn [scale_eqb]. rewrite Hc. reflexivity.
  - intros sc lo hi Hsc. unfold select_weather.
    assert (Hne : scale_eqb sc currently = false) by (destruct sc; [contradiction| |]; reflexivity).
    rewrite Hne, Hh, Hd. cbn [item bind].
    rewrite (filter_py_in_range lo hi hs Hhs). cbn [bind].
    rewrite (filter_py_in_range lo hi ds Hds). reflexivity.
Qed.

(** C6 as stated fails for the scale [daily]: the first slot holds the hours
    of the day, not its daily record. *)
Lemma select_weather_daily_counterexample :
  select_weather Sample.one_day daily (Some 0) (Some 86399)
  = Some (Ranged [Sample.record 18000 "klar"] [Sample.record 0 "heiter"])
  /\ ~ selects_respective Sample.one_day daily 0 86399.
Proof.
  split; [reflexivity|].
  intros (rs & ds & Hrs & Hds & H).
  cbn in Hrs, Hds. injection Hrs as <-. injection Hds as <-.
  vm_compute in H. discriminate H.
Qed.

(** C6 on the sample payload. *)
Lemma select_weather_slots_witness :
  (forall lo hi, select_weather Sample.one_day currently lo hi
                 = Some (Current (Sample.record 18000 "klar")))
  /\ (forall sc lo hi,
         sc <> currently ->
         select_weather Sample.one_day sc (Some lo) (Some hi)
         = Some (Ranged (filter (within lo hi) [Sample.record 18000 "klar"])
                        (filter (within lo hi) [Sample.record 0 "heiter"]))).
Proof.
  apply (select_weather_slots Sample.one_day (Sample.record 18000 "klar")
           [Sample.record 18000 "klar"] [Sample.record 0 "heiter"]).
  - reflexivity.
  - reflexivity.
  - reflexivity.
  - repeat constructor; discriminate.
  - repeat constructor; discriminate.
Defined.

(** ** The pipeline *)

Section Pipeline.

Variable utc_offset : Z.

(** C10. When the range is not [currently] and no hourly record lies in it,
    [process_response] gives no answer, whatever the intent and whatever the
    daily series holds. *)
Theorem process_response_no_hours (now : Z) (intent_name : string)
    (weather : payload) (time_string : option string) (r : TimeRange)
    (lo hi : Z) (hs : list wx) :
  get_timerange utc_offset now time_string = Ret (Some r) ->
  tr_scale r <> currently ->
  tme_from r = Some lo ->
  tme_to r = Some hi ->
  p_hourly weather = Some hs ->
  Forall timed hs ->
  filter (within lo hi) hs = [] ->
  process_response utc_offset now intent_name weather time_string = Ret None.
Proof.
  intros Hr Hsc Hlo Hhi Hh Hhs Hnone.
  unfold process_response. rewrite Hr. cbn [bind item].
  unfold select_weather.
  assert (Hne : scale_eqb (tr_scale r) currently = false)
    by (destruct (tr_scale r); [contradiction| |]; reflexivity).
  rewrite Hne, Hlo, Hhi, Hh. cbn [item bind].
  rewrite (filter_py_in_range lo hi hs Hhs), Hnone. cbn [bind].
  destruct (p_daily weather) as [ds|]; cbn [item bind]; [|reflexivity].
  destruct (filter_py (in_range (Some lo) (Some hi)) ds); reflexivity.
Qed.

End Pipeline.

(** C10 at "nächste woche": the week starts on Monday 1970-01-05, the hourly
    series ends before it, the daily series has that Monday. *)
Lemma process_response_no_hours_witness :
  filter (within 345600 864000) [Sample.record 345600 "Regen"]
  = [Sample.record 345600 "Regen"]
  /\ process_response 0 0 "s710:getForecast" Sample.next_week (Some "nächste woche")
     = Ret None.
Proof.
  split; [reflexivity|].
  apply (process_response_no_hours 0 0 "s710:getForecast" Sample.next_week
           (Some "nächste woche")
           {| tr_scale := daily; tme_from := Some 345600; tme_to := Some 864000;
              prefix := "Nächste Woche" |}
           345600 864000 [Sample.record 0 "klar"; Sample.record 3600 "klar"]).
  - reflexivity.
  - discriminate.
  - reflexivity.
  - reflexivity.
  - reflexivity.
  - repeat constructor; discriminate.
  - reflexivity.
Defined.

(** ** The forecast of two days *)

Lemma ltb_lt (a b : Q) : Num.ltb a b = true <-> (a < b)%Q.
Proof.
  unfold Num.ltb. rewrite negb_true_iff. split.
  - intros H. apply Qnot_le_lt. intros Hle.
    apply Qle_bool_iff in Hle. congruence.
  - intros H. destruct (Qle_bool b a) eqn:Hle; [|reflexivity].
    apply Qle_bool_iff in Hle. exfalso. exact (Qlt_not_le _ _ H Hle).
Qed.

Lemma ltb_ge (a b : Q) : Num.ltb a b = false <-> (b <= a)%Q.
Proof.
  unfold Num.ltb. rewrite negb_false_iff. apply Qle_bool_iff.
Qed.

Lemma lower_is_min (a b : Q) :
  (lower a b <= a)%Q /\ (lower a b <= b)%Q /\ (lower a b = a \/ lower a b = b).
Proof.
  unfold lower. destruct (Num.ltb b a) eqn:H.
  - apply ltb_lt in H. repeat split; [apply Qlt_le_weak; exact H|apply Qle_refl|auto].
  - apply ltb_ge in H. repeat split; [apply Qle_refl|exact H|auto].
Qed.

Lemma higher_is_max (a b : Q) :
  (a <= higher a b)%Q /\ (b <= higher a b)%Q /\ (higher a b = a \/ higher a b = b).
Proof.
  unfold higher. destruct (Num.ltb a b) eqn:H.
  - apply ltb_lt in H. repeat split; [apply Qlt_le_weak; exact H|apply Qle_refl|auto].
  - apply ltb_ge in H. repeat split; [apply Qle_refl|exact H|auto].
Qed.

Lemma get_summary_with_dot (w : wx) (text : string) :
  summary w = Some text -> get_summary w false = Ret (with_dot text).
Proof.
  intros H. unfold get_summary, with_dot. rewrite H. cbn [item bind negb andb].
  destruct (endswith text "."); reflexivity.
Qed.

Section Forecast.

Variable utc_offset : Z.

Lemma weekday_name_eq (t : Z) : weekday_name utc_offset t = Ret (day_name utc_offset t).
Proof.
  unfold weekday_name, day_name.
  pose proof (weekday_range_ok (fromtimestamp utc_offset t)) as Hwd.
  assert (Hn : (Z.to_nat (weekday (fromtimestamp utc_offset t)) < 7)%nat) by lia.
  destruct (Z.to_nat (weekday (fromtimestamp utc_offset t)))
    as [|[|[|[|[|[|[|n]]]]]]]; try reflexivity.
  lia.
Qed.

(** C7. The forecast for two daily records: with equal summaries one clause
    that names both weekdays, with different summaries one clause per day,
    each under its weekday; then one range from the smaller of the two
    minima to the larger of the two maxima. *)
Theorem process_forecast_two_days (hours : list wx) (d0 d1 : wx) (pfx : string)
    (t0 t1 : Z) (s0 s1 : string) (lo0 lo1 hi0 hi1 : Q) :
  time d0 = Some t0 -> time d1 = Some t1 ->
  summary d0 = Some s0 -> summary d1 = Some s1 ->
  temperatureMin d0 = Some lo0 -> temperatureMin d1 = Some lo1 ->
  temperatureMax d0 = Some hi0 -> temperatureMax d1 = Some hi1 ->
  process_forecast utc_offset daily (Ranged hours [d0; d1]) pfx
  = Ret (Some
      (if String.eqb s0 s1 then
         ("Wetter am " ++ capitalize (day_name utc_offset t0) ++ " und "
          ++ capitalize (day_name utc_offset t1) ++ ": " ++ with_dot s0 ++ " ")
         ++ "" ++ two_day_range lo0 lo1 hi0 hi1
       else
         ("Wetter am " ++ capitalize (day_name utc_offset t0) ++ ": " ++ with_dot s0 ++ " ")
         ++ (capitalize (day_name utc_offset t1) ++ " " ++ with_dot s1)
         ++ two_day_range lo0 lo1 hi0 hi1)).
Proof.
  intros Ht0 Ht1 Hs0 Hs1 Hlo0 Hlo1 Hhi0 Hhi1.
  unfold process_forecast. cbn [map_py].
  rewrite Hhi0, Hhi1, Hlo0, Hlo1, Ht0, Ht1, Hs0, Hs1. cbn [item bind].
  rewrite !weekday_name_eq. cbn [bind].
  rewrite (get_summary_with_dot d0 s0 Hs0), (get_summary_with_dot d1 s1 Hs1).
  unfold Num.min, Num.max. cbn [fold_left bind].
  destruct (String.eqb s0 s1); reflexivity.
Qed.

End Forecast.

(** C7 on Thursday and Friday, 1970-01-01 and 1970-01-02, with one summary. *)
Lemma process_forecast_two_days_witness :
  process_forecast 0 daily
    (Ranged [] [Sample.record 0 "Leicht bewölkt"; Sample.record 86400 "Leicht bewölkt"])
    "Morgen"
  = Ret (Some "Wetter am Donnerstag und Freitag: Leicht bewölkt.  Die Temperaturen liegen zwischen 4 und 12 Grad.").
Proof.
  exact (process_forecast_two_days 0 []
           (Sample.record 0 "Leicht bewölkt") (Sample.record 86400 "Leicht bewölkt")
           "Morgen" 0 86400 "Leicht bewölkt" "Leicht bewölkt"
           (4 # 1) (4 # 1) (12 # 1) (12 # 1)
           eq_refl eq_refl eq_refl eq_refl eq_refl eq_refl eq_refl eq_refl).
Defined.

Example forecast_of_two_different_days :
  process_forecast 0 daily
    (Ranged [] [Sample.record 0 "Klar"; Sample.record 86400 "Regen."]) "Morgen"
  = Ret (Some "Wetter am Donnerstag: Klar. Freitag Regen. Die Temperaturen liegen zwischen 4 und 12 Grad.").
Proof. reflexivity. Qed.

(** ** Rain and snow *)

Lemma precip_cond_match (name what : pystr) (w : wx) :
  icon w <> None -> precip_cond name what w = Ret (precip_match name what w).
Proof.
  unfold precip_cond, precip_match. destruct (icon w); [|contradiction].
  reflexivity.
Qed.

Section Precipitation.

Variable utc_offset : Z.

(** C2, for the object [what] itself as the type of precipitation. *)
Lemma process_has_now_same_object (what : pystr) (w : wx) (pfx : string) (p : Q) :
  py_eq what Lit.sun = false ->
  precipType w = Some what ->
  precipProbability w = Some p ->
  process_has utc_offset what currently (Current w) pfx
  = Ret (Some (answer_now what p)).
Proof.
  intros Hsun Hty Hp. unfold process_has, answer_now, negative_now.
  rewrite Hsun, Hty, Hp. unfold py_is. rewrite Pos.eqb_refl. cbn [negb orb].
  destruct (Num.ltb p (3 # 10)); [reflexivity|].
  destruct (Num.ltb p (75 # 100)); reflexivity.
Qed.

(** For any other object the answer is the negative one, whatever the text of
    the object and the probability. *)
Lemma process_has_now_other_object (what ty : pystr) (w : wx) (pfx : string) :
  py_eq what Lit.sun = false ->
  precipType w = Some ty ->
  py_is ty what = false ->
  process_has utc_offset what currently (Current w) pfx
  = Ret (Some (negative_now what)).
Proof.
  intros Hsun Hty His. unfold process_has, negative_now.
  rewrite Hsun, Hty, His. cbn [negb orb].
  destruct (precipProbability w); reflexivity.
Qed.

Lemma process_has_ranged_eq (what : pystr) (sc : scale) (hours days : list wx)
    (pfx : string) :
  py_eq what Lit.sun = false ->
  sc <> currently ->
  Forall (fun w => icon w <> None) hours ->
  process_has utc_offset what sc (Ranged hours days) pfx
  = match chosen what hours with
    | None => Ret (Some nein)
    | Some w =>
        t <- item (time w) ;;
        p <- item (precipProbability w) ;;
        if Num.ltb p (3 # 10) then Ret (Some nein)
        else Ret (Some (report utc_offset what sc hours days pfx w t))
    end.
Proof.
  intros Hsun Hsc Hicons.
  assert (Hf : forall name,
             filter_py (precip_cond name what) hours
             = Ret (filter (precip_match name what) hours)).
  { intros name. apply filter_py_total.
    eapply Forall_impl; [|exact Hicons]. intros w. apply precip_cond_match. }
  unfold chosen, report, verb, qualifier.
  rewrite !find_hd_filter, !existsb_filter.
  assert (Hbody : process_has utc_offset what sc (Ranged hours days) pfx
    = (hasRain <- filter_py (precip_cond Lit.rain what) hours ;;
       hasHail <- filter_py (precip_cond Lit.hail what) hours ;;
       hasThunder <- filter_py (precip_cond Lit.thunderstorm what) hours ;;
       if is_nil hasRain && is_nil hasHail && is_nil hasThunder then Ret (Some nein) else
       w <- item (match hasRain with
                  | x :: _ => Some x
                  | [] => match hasHail with
                          | x :: _ => Some x
                          | [] => hd_error hasThunder
                          end
                  end) ;;
       t <- item (time w) ;;
       let dt := fromtimestamp utc_offset t in
       day <- weekday_name utc_offset t ;;
       let when := strftime_HM_Uhr dt in
       p <- item (precipProbability w) ;;
       if Num.ltb p (3 # 10) then Ret (Some nein) else
       let prob := if Num.ltb p (75 # 100) then " vermutlich" else "" in
       if scale_eqb sc hourly then
         Ret (Some ("Gegen " ++ when ++ " wird es " ++ precip_verb hasRain hasHail))
       else if (List.length days =? 1)%nat then
         Ret (Some (pfx ++ " wird es " ++ precip_verb hasRain hasHail))
       else
         Ret (Some ("Am " ++ capitalize day ++ " wird es" ++ prob ++ " gegen "
                    ++ when ++ " " ++ precip_verb hasRain hasHail)))).
  { unfold process_has. destruct sc; [contradiction| |]; rewrite Hsun; reflexivity. }
  rewrite Hbody. clear Hbody. rewrite !Hf. cbn [bind]. cbv zeta.
  assert (Hreport : forall (w : wx) (x : list wx) (y : list wx),
    (t <- item (time w) ;;
     day <- weekday_name utc_offset t ;;
     p <- item (precipProbability w) ;;
     if Num.ltb p (3 # 10) then Ret (Some nein) else
     if scale_eqb sc hourly then
       Ret (Some ("Gegen " ++ strftime_HM_Uhr (fromtimestamp utc_offset t)
                  ++ " wird es " ++ precip_verb x y))
     else if (List.length days =? 1)%nat then
       Ret (Some (pfx ++ " wird es " ++ precip_verb x y))
     else
       Ret (Some ("Am " ++ capitalize day ++ " wird es"
                  ++ (if Num.ltb p (75 # 100) then " vermutlich" else "") ++ " gegen "
                  ++ strftime_HM_Uhr (fromtimestamp utc_offset t) ++ " "
                  ++ precip_verb x y)))
    = (t <- item (time w) ;;
       p <- item (precipProbability w) ;;
       if Num.ltb p (3 # 10) then Ret (Some nein) else
       Ret (Some
         match sc with
         | hourly => "Gegen " ++ time_of_day utc_offset t ++ " wird es " ++ precip_verb x y
         | _ =>
             if (List.length days =? 1)%nat then pfx ++ " wird es " ++ precip_verb x y
             else "Am " ++ capitalize (day_name utc_offset t) ++ " wird es"
                  ++ match precipProbability w with
                     | Some p => if Num.ltb p (75 # 100) then " vermutlich" else ""
                     | None => ""
                     end
                  ++ " gegen " ++ time_of_day utc_offset t ++ " " ++ precip_verb x y
         end))).
  { intros w x y. destruct (time w) as [t|]; cbn [item bind]; [|reflexivity].
    rewrite weekday_name_eq. cbn [bind].
    destruct (precipProbability w) as [p|]; cbn [item bind]; [|reflexivity].
    destruct (Num.ltb p (3 # 10)); [reflexivity|].
    unfold time_of_day.
    destruct sc; [contradiction| |]; cbn [scale_eqb];
      [reflexivity|destruct (List.length days =? 1)%nat; reflexivity]. }
  assert (Hverb : forall x y : list wx,
             (if negb (is_nil x) then "regnen."
              else if negb (is_nil y) then "hageln." else "Gewitter geben.")
             = precip_verb x y)
    by (intros [|? ?] [|? ?]; reflexivity).
  rewrite Hverb.
  destruct (filter (precip_match Lit.rain what) hours) as [|r rs];
    [destruct (filter (precip_match Lit.hail what) hours) as [|h hs];
     [destruct (filter (precip_match Lit.thunderstorm what) hours) as [|th ths]|]|];
    cbn [is_nil andb hd_error];
    try reflexivity; apply Hreport.
Qed.

(** C8, amended. For the scales [hourly] and [daily], over records that carry
    icon and time: the record chosen is the first that matches with the rain
    icon, else with the hail icon, else with the thunderstorm icon; when its
    probability is present and not below 0.3 it is reported with its time of
    day for [hourly], with the prefix for [daily] with one day, with its
    weekday otherwise; when no record matches the answer is "Nein, ich denke
    nicht.". *)
Theorem process_has_reports_first_match (what : pystr) (sc : scale)
    (hours days : list wx) (pfx : string) :
  py_eq what Lit.sun = false ->
  sc <> currently ->
  Forall (fun w => icon w <> None /\ timed w) hours ->
  (forall w, chosen what hours = Some w ->
             exists p, precipProbability w = Some p /\ Num.ltb p (3 # 10) = false) ->
  reports_first_match utc_offset what sc hours days pfx.
Proof.
  intros Hsun Hsc Hwf Hprob. unfold reports_first_match.
  rewrite (process_has_ranged_eq what sc hours days pfx Hsun Hsc)
    by (eapply Forall_impl; [|exact Hwf]; intros w [Hi _]; exact Hi).
  destruct (chosen what hours) as [w|] eqn:Hch; [|reflexivity].
  destruct (Hprob w eq_refl) as (p & Hp & Hge).
  assert (Hin : In w hours).
  { unfold chosen in Hch.
    destruct (find (precip_match Lit.rain what) hours) eqn:H1;
      [injection Hch as <-; exact (proj1 (find_some _ _ H1))|].
    destruct (find (precip_match Lit.hail what) hours) eqn:H2;
      [injection Hch as <-; exact (proj1 (find_some _ _ H2))|].
    exact (proj1 (find_some _ _ Hch)). }
  rewrite Forall_forall in Hwf. destruct (Hwf w Hin) as [_ Htimed].
  unfold timed in Htimed. destruct (time w) as [t|] eqn:Ht; [|contradiction].
  exists t. split; [reflexivity|].
  cbn [item bind]. rewrite Hp. cbn [item bind]. rewrite Hge. reflexivity.
Qed.

(** The guard: a chosen record whose probability is below 0.3 is answered
    with "Nein, ich denke nicht.". *)
Lemma process_has_chosen_below_threshold (what : pystr) (sc : scale)
    (hours days : list wx) (pfx : string) (w : wx) (t : Z) (p : Q) :
  py_eq what Lit.sun = false ->
  sc <> currently ->
  Forall (fun w => icon w <> None) hours ->
  chosen what hours = Some w ->
  time w = Some t ->
  precipProbability w = Some p ->
  Num.ltb p (3 # 10) = true ->
  process_has utc_offset what sc (Ranged hours days) pfx = Ret (Some nein).
Proof.
  intros Hsun Hsc Hicons Hch Ht Hp Hlt.
  rewrite (process_has_ranged_eq what sc hours days pfx Hsun Hsc Hicons).
  rewrite Hch, Ht. cbn [item bind]. rewrite Hp. cbn [item bind]. rewrite Hlt.
  reflexivity.
Qed.

End Precipitation.

(** C2 fails on a decoded record: its "rain" is an object of its own, equal to
    the constant of the module and not identical with it, and the answer is
    the negative one at a probability of one half. *)
Theorem process_has_now_decoded_rain :
  py_eq {| obj_id := 100; text := "rain" |} Lit.rain = true
  /\ py_is {| obj_id := 100; text := "rain" |} Lit.rain = false
  /\ answer_now Lit.rain (1 # 2) = "Ja, es regnet gerade vermutlich."
  /\ process_has 0 Lit.rain currently (Current decoded_rain) "Jetzt"
     = Ret (Some "Ich denke nicht, dass es gerade regnet.")
  /\ process_response 0 0 "s710:hasRain"
       {| p_currently := Some decoded_rain; p_hourly := Some []; p_daily := Some [] |}
       None
     = Ret (Some "Ich denke nicht, dass es gerade regnet.").
Proof. repeat split. Qed.

(** C8 as stated fails for a match below the threshold: the hour has the rain
    icon and a probability of one tenth, and the answer is "Nein, ich denke
    nicht.". *)
Lemma process_has_low_probability_counterexample :
  chosen Lit.rain [Sample.rainy 50400 (1 # 10)] = Some (Sample.rainy 50400 (1 # 10))
  /\ process_has 0 Lit.rain hourly (Ranged [Sample.rainy 50400 (1 # 10)] []) "Heute mittag"
     = Ret (Some "Nein, ich denke nicht.")
  /\ ~ reports_first_match 0 Lit.rain hourly [Sample.rainy 50400 (1 # 10)] [] "Heute mittag".
Proof.
  split; [reflexivity|]. split; [reflexivity|].
  unfold reports_first_match.
  change (chosen Lit.rain [Sample.rainy 50400 (1 # 10)])
    with (Some (Sample.rainy 50400 (1 # 10))).
  intros (t & Ht & H). injection Ht as <-.
  vm_compute in H. discriminate H.
Qed.

(** C8 for an hour at 14:00 with the rain icon and a probability of 0.8. *)
Lemma process_has_reports_first_match_witness :
  process_has 0 Lit.rain hourly (Ranged [Sample.rainy 50400 (8 # 10)] []) "Heute mittag"
  = Ret (Some "Gegen 14:00 Uhr wird es regnen.").
Proof.
  assert (H : reports_first_match 0 Lit.rain hourly [Sample.rainy 50400 (8 # 10)] []
                "Heute mittag").
  { apply (process_has_reports_first_match 0 Lit.rain hourly
             [Sample.rainy 50400 (8 # 10)] [] "Heute mittag").
    - reflexivity.
    - discriminate.
    - repeat constructor; discriminate.
    - intros w Hw. injection Hw as <-. exists (8 # 10). split; reflexivity. }
  destruct H as (t & Ht & H). injection Ht as <-. exact H.
Defined.

Example process_has_daily_several_days :
  process_has 0 Lit.rain daily
    (Ranged [Sample.rainy 136800 (1 # 2)]
            [Sample.record 0 "klar"; Sample.record 86400 "Regen"]) "Diese Woche"
  = Ret (Some "Am Freitag wird es vermutlich gegen 14:00 Uhr regnen.").
Proof. reflexivity. Qed.

(** ** The examples of the specification *)

(** Monday 1970-01-05 at 10:00, UTC: "nacht" runs from 22:00 of that Monday
    to 03:00 of the Tuesday. *)
Example night_of_a_monday :
  weekday (fromtimestamp 0 381600) = 0
  /\ get_timerange 0 381600 (Some "nacht")
     = Ret (Some {| tr_scale := hourly; tme_from := Some 424800;
                    tme_to := Some 442800; prefix := "Heute nacht" |})
  /\ fromtimestamp 0 424800 = {| date := 4; hour := 22; minute := 0; second := 0 |}
  /\ fromtimestamp 0 442800 = {| date := 5; hour := 3; minute := 0; second := 0 |}.
Proof. repeat split. Qed.

(** On that Monday "montag" is the Monday a week later. *)
Example monday_on_a_monday :
  get_timerange 0 381600 (Some "montag")
  = Ret (Some {| tr_scale := daily; tme_from := Some (11 * 86400);
                 tme_to := Some (11 * 86400 + 86399); prefix := "am Montag" |}).
Proof. reflexivity. Qed.

Example temperature_now :
  process_response 0 0 "s710:getTemperature"
    {| p_currently :=
         Some {| time := None; summary := Some "bewölkt"; icon := None;
                 temperature := Some (124 # 10); temperatureMin := None;
                 temperatureMax := None; precipType := None;
                 precipProbability := None |};
       p_hourly := None; p_daily := None |}
    None
  = Ret (Some "Es sind gerade 12 Grad.").
Proof. reflexivity. Qed.

(** "übermorgen mittag" asked on 1970-01-01: the hours 11:00 to 14:00 of
    1970-01-03. *)
Example forecast_of_a_noon :
  let hour_at t temp :=
    {| time := Some t; summary := Some "klar"; icon := None;
       temperature := Some temp; temperatureMin := None; temperatureMax := None;
       precipType := None; precipProbability := None |} in
  process_response 0 0 "s710:getForecast"
    {| p_currently := None;
       p_hourly := Some [hour_at 208800 (9 # 1); hour_at 212400 (9 # 1);
                         hour_at 216000 (11 # 1); hour_at 219600 (10 # 1);
                         hour_at 223200 (10 # 1); hour_at 226800 (12 # 1)];
       p_daily := Some [] |}
    (Some "übermorgen mittag")
  = Ret (Some "Wetter Übermorgen mittag: klar. Temperaturen zwischen 9 und 11 Grad.").
Proof. reflexivity. Qed.

(** * Further properties of the resolver *)

Section ResolverShapes.

Variable utc_offset : Z.

Lemma day_start_le (epoch : Z) :
  day_start utc_offset (local_day utc_offset epoch) <= epoch
  < day_start utc_offset (local_day utc_offset epoch) + 86400.
Proof.
  unfold day_start, local_day.
  pose proof (Z.div_mod (epoch + utc_offset) 86400 ltac:(lia)) as Hdm.
  pose proof (Z.mod_pos_bound (epoch + utc_offset) 86400 ltac:(lia)) as Hb.
  lia.
Qed.

Lemma day_start_midnight (d : Z) : (day_start utc_offset d + utc_offset) mod 86400 = 0.
Proof.
  unfold day_start. replace (d * 86400 - utc_offset + utc_offset) with (d * 86400) by lia.
  apply Z.mod_mul. lia.
Qed.

(** The keyword [get_subrange] finds, with its hours. *)
Lemma get_subrange_keyword (time_string : string) (epoch : Z) (pfx : string) :
  contained_day_range_symbols time_string <> [] ->
  exists sym hf ht,
    In sym day_range_symbols
    /\ contains sym time_string = true
    /\ get_subrange utc_offset time_string epoch pfx
       = Some (get_hour_range utc_offset epoch hf ht (pfx ++ " " ++ sym))
    /\ 6 <= hf <= 22
    /\ (ht <> -1 /\ 3 <= ht - hf <= 5 \/ hf = 22 /\ ht = -1).
Proof.
  intros Hne. unfold get_subrange.
  unfold contained_day_range_symbols, day_range_symbols in Hne. cbn [filter] in Hne.
  unfold day_range_symbols.
  destruct (contains "früh" time_string) eqn:H1;
    [exists "früh", 6, 10; cbn [In]; intuition lia|].
  destruct (contains "vormittag" time_string) eqn:H2;
    [exists "vormittag", 9, 12; cbn [In]; intuition lia|].
  destruct (contains "nachmittag" time_string) eqn:H3;
    [exists "nachmittag", 14, 17; cbn [In]; intuition lia|].
  destruct (contains "mittag" time_string) eqn:H4;
    [exists "mittag", 11, 14; cbn [In]; intuition lia|].
  destruct (contains "abend" time_string) eqn:H5;
    [exists "abend", 17, 22; cbn [In]; intuition lia|].
  destruct (contains "nacht" time_string) eqn:H6;
    [exists "nacht", 22, (-1); cbn [In]; intuition lia|].
  contradiction.
Qed.

Lemma get_hour_range_shape (epoch hf ht : Z) (pfx : string) :
  ht <> -1 /\ 3 <= ht - hf <= 5 \/ hf = 22 /\ ht = -1 ->
  exists len,
    hourly_range utc_offset (get_hour_range utc_offset epoch hf ht pfx)
      (local_day utc_offset epoch) hf len
    /\ 10800 <= len <= 18000
    /\ prefix (get_hour_range utc_offset epoch hf ht pfx) = pfx.
Proof.
  intros [[Hne Hlen]|[-> ->]].
  - rewrite get_hour_range_eq by exact Hne.
    exists ((ht - hf) * 3600). unfold hourly_range. cbn [tr_scale tme_from tme_to prefix].
    repeat split; try lia. f_equal. lia.
  - rewrite get_hour_range_night.
    exists 18000. unfold hourly_range. cbn [tr_scale tme_from tme_to prefix].
    repeat split; try lia. f_equal. unfold day_start. lia.
Qed.

Lemma get_day_range_shape (epoch : Z) (pfx : string) :
  daily_range utc_offset (get_day_range utc_offset epoch pfx)
    (local_day utc_offset epoch) 86399.
Proof.
  rewrite get_day_range_eq. unfold daily_range. cbn [tr_scale tme_from tme_to].
  repeat split.
Qed.

Lemma local_day_shift (now k : Z) :
  local_day utc_offset (now + k * 24 * 60 * 60) = local_day utc_offset now + k.
Proof.
  replace (now + k * 24 * 60 * 60) with (now + k * 86400) by lia.
  apply local_day_next.
Qed.

(** Every result of the resolver is the fallback, a daily range that starts
    at a local midnight at most six days back and a week ahead, or an hourly
    range of three to five hours on the base day. *)
Lemma get_timerange_forms (now : Z) (time_string : option string) :
  exists r,
    get_timerange utc_offset now time_string = Ret (Some r)
    /\ (r = jetzt
        \/ (exists d len,
              daily_range utc_offset r d len
              /\ local_day utc_offset now - 6 <= d <= local_day utc_offset now + 7
              /\ (len = 86399 \/ len = 86400 \/ len = 518400))
        \/ (exists phrase sym hf len,
              time_string = Some phrase
              /\ In sym day_range_symbols
              /\ contains sym phrase = true
              /\ hourly_range utc_offset r
                   (local_day utc_offset now + fst (base_day phrase)) hf len
              /\ 6 <= hf <= 22
              /\ 10800 <= len <= 18000
              /\ prefix r = snd (base_day phrase) ++ " " ++ sym)).
Proof.
  pose proof (Z.mod_pos_bound (local_day utc_offset now + 3) 7 ltac:(lia)) as Hwd.
  destruct time_string as [phrase|]; unfold get_timerange;
    [|exists jetzt; split; [reflexivity|left; reflexivity]].
  destruct (String.eqb phrase "");
    [exists jetzt; split; [reflexivity|left; reflexivity]|].
  destruct (contained_weekdays phrase) as [|first rest] eqn:Hdays.
  - destruct (contains "wochenende" phrase
              || contains "woche" phrase && contains "ende" phrase).
    { eexists. split; [reflexivity|]. right. left.
      rewrite get_weekend_range_eq. cbv zeta.
      eexists _, 86400. unfold daily_range. cbn [tr_scale tme_from tme_to].
      split; [split; [reflexivity|split; [reflexivity|]]|split; [lia|auto]].
      f_equal. unfold day_start. lia. }
    destruct (contains "woche" phrase).
    { eexists. split; [reflexivity|]. right. left.
      rewrite get_week_range_eq. cbv zeta.
      destruct (contains "nächste" phrase);
        (eexists _, 518400; unfold daily_range; cbn [tr_scale tme_from tme_to];
         split; [split; [reflexivity|split; [reflexivity|]]|split; [lia|auto]];
         f_equal; unfold day_start; lia). }
    destruct (String.eqb phrase "heute").
    { eexists. split; [reflexivity|]. right. left.
      exists (local_day utc_offset now), 86399.
      split; [apply get_day_range_shape|]. split; [lia|auto]. }
    destruct (String.eqb phrase "morgen").
    { eexists. split; [reflexivity|]. right. left.
      exists (local_day utc_offset (now + 1 * 24 * 60 * 60)), 86399.
      split; [apply get_day_range_shape|]. rewrite local_day_shift. split; [lia|auto]. }
    destruct (endswith phrase "bermorgen").
    { eexists. split; [reflexivity|]. right. left.
      exists (local_day utc_offset (now + 2 * 24 * 60 * 60)), 86399.
      split; [apply get_day_range_shape|]. rewrite local_day_shift. split; [lia|auto]. }
    destruct (contained_day_range_symbols phrase) as [|sym0 syms] eqn:Hsyms.
    { exists jetzt. split; [reflexivity|left; reflexivity]. }
    assert (Hne : contained_day_range_symbols phrase <> []) by (rewrite Hsyms; discriminate).
    destruct (contains "bermorgen" phrase) eqn:Hb;
      [|destruct (contains "morgen" phrase) eqn:Hm];
      match goal with
      | |- context [get_subrange _ _ ?e ?p] =>
          destruct (get_subrange_keyword phrase e p Hne)
            as (sym & hf & ht & Hin & Hsym & -> & Hhf & Hh);
          destruct (get_hour_range_shape e hf ht (p ++ " " ++ sym) Hh)
            as (len & Hshape & Hlen & Hpfx)
      end;
      try rewrite local_day_shift in Hshape;
      (eexists; split; [reflexivity|]; right; right;
       exists phrase, sym, hf, len; unfold base_day; rewrite Hb, ?Hm; cbn [fst snd];
       try rewrite Z.add_0_r;
       split; [reflexivity|]; split; [exact Hin|]; split; [exact Hsym|];
       split; [exact Hshape|]; split; [exact Hhf|]; split; [exact Hlen|exact Hpfx]).
  - apply filter_head_In in Hdays. destruct Hdays as [Hin _].
    destruct (index_found first weekdays Hin) as (i & -> & Hnth).
    cbn [bind]. rewrite (get_weekday_eq utc_offset now i first Hnth). cbn [bind]. cbv zeta.
    pose proof (nth_error_weekdays_lt i first Hnth) as Hi.
    destruct (next_offset_spec (Z.of_nat i) ((local_day utc_offset now + 3) mod 7) Hi Hwd)
      as (Hoff & _ & _).
    eexists. split; [reflexivity|]. right. left.
    eexists _, 86399. unfold daily_range. cbn [tr_scale tme_from tme_to].
    split; [split; [reflexivity|split; reflexivity]|split; [lia|auto]].
Qed.

Lemma replace_same_day (e e' h m s : Z) :
  local_day utc_offset e = local_day utc_offset e' ->
  replace (fromtimestamp utc_offset e) h m s
  = replace (fromtimestamp utc_offset e') h m s.
Proof.
  unfold local_day, replace, fromtimestamp. cbn [date]. intros ->. reflexivity.
Qed.

Lemma get_hour_range_same_day (e e' hf ht : Z) (pfx : string) :
  local_day utc_offset e = local_day utc_offset e' ->
  get_hour_range utc_offset e hf ht pfx = get_hour_range utc_offset e' hf ht pfx.
Proof.
  intros H. unfold get_hour_range.
  rewrite (replace_same_day e e' hf 0 0 H).
  rewrite (replace_same_day e e' ht 0 0 H).
  rewrite (replace_same_day (e + 1 * 24 * 60 * 60) (e' + 1 * 24 * 60 * 60) 3 0 0)
    by (rewrite !local_day_shift; lia).
  reflexivity.
Qed.

Lemma get_subrange_same_day (phrase : string) (e e' : Z) (pfx : string) :
  local_day utc_offset e = local_day utc_offset e' ->
  get_subrange utc_offset phrase e pfx = get_subrange utc_offset phrase e' pfx.
Proof.
  intros H. unfold get_subrange.
  repeat match goal with
         | |- context [get_hour_range utc_offset e ?a ?b ?c] =>
             rewrite (get_hour_range_same_day e e' a b c H)
         end.
  reflexivity.
Qed.

(** At a fixed offset the resolver reads the clock only for its local day:
    two readings on the same local day give the same range for every phrase. *)
Theorem get_timerange_same_day (now now' : Z) (time_string : option string) :
  local_day utc_offset now = local_day utc_offset now' ->
  get_timerange utc_offset now time_string
  = get_timerange utc_offset now' time_string.
Proof.
  intros H. destruct time_string as [phrase|]; [|reflexivity].
  unfold get_timerange.
  destruct (String.eqb phrase ""); [reflexivity|].
  destruct (contained_weekdays phrase) as [|first rest].
  - assert (Hk : forall k, local_day utc_offset (now + k * 24 * 60 * 60)
                           = local_day utc_offset (now' + k * 24 * 60 * 60))
      by (intros k; rewrite !local_day_shift; lia).
    rewrite !get_weekend_range_eq, !get_week_range_eq, !get_day_range_eq.
    rewrite !(get_subrange_same_day phrase _ _ _ (Hk 2)).
    rewrite !(get_subrange_same_day phrase _ _ _ (Hk 1)).
    rewrite !(get_subrange_same_day phrase now now' _ H).
    rewrite (Hk 1), (Hk 2), H. reflexivity.
  - destruct (index first weekdays) as [d|]; [|reflexivity].
    cbn [bind]. unfold get_weekday.
    rewrite (replace_same_day now now' 0 0 0 H). reflexivity.
Qed.

Lemma day_start_weeks (d k : Z) :
  day_start utc_offset (d + 7 * k) = day_start utc_offset d + k * 604800.
Proof. unfold day_start. lia. Qed.

Lemma local_day_weeks (now k : Z) :
  local_day utc_offset (now + k * 604800) = local_day utc_offset now + 7 * k.
Proof.
  replace (now + k * 604800) with (now + (7 * k) * 86400) by lia.
  apply local_day_next.
Qed.

Lemma weekday_weeks (d k : Z) : (d + 7 * k + 3) mod 7 = (d + 3) mod 7.
Proof.
  replace (d + 7 * k + 3) with (d + 3 + k * 7) by lia. apply Z.mod_add. lia.
Qed.

Lemma get_hour_range_weeks (e k hf ht : Z) (pfx : string) :
  get_hour_range utc_offset (e + k * 604800) hf ht pfx
  = shift_range (k * 604800) (get_hour_range utc_offset e hf ht pfx).
Proof.
  unfold get_hour_range, shift_range. cbn [tr_scale tme_from tme_to prefix option_map].
  destruct (ht =? -1); rewrite !timestamp_replace, ?local_day_shift, !local_day_weeks;
    f_equal; f_equal; unfold day_start; lia.
Qed.

Lemma get_subrange_weeks (phrase : string) (e k : Z) (pfx : string) :
  get_subrange utc_offset phrase (e + k * 604800) pfx
  = option_map (shift_range (k * 604800)) (get_subrange utc_offset phrase e pfx).
Proof.
  unfold get_subrange.
  repeat match goal with
         | |- context [contains ?w phrase] =>
             destruct (contains w phrase);
             [rewrite get_hour_range_weeks; reflexivity|]
         end.
  reflexivity.
Qed.

Lemma get_day_range_weeks (e k : Z) (pfx : string) :
  get_day_range utc_offset (e + k * 604800) pfx
  = shift_range (k * 604800) (get_day_range utc_offset e pfx).
Proof.
  rewrite !get_day_range_eq, local_day_weeks, day_start_weeks. unfold shift_range.
  cbn [tr_scale tme_from tme_to prefix option_map]. f_equal; f_equal; lia.
Qed.

(** At a fixed offset, asking [k] weeks later moves the range by [k] weeks
    and changes nothing else: the scale, the prefix and the fallback stay. *)
Theorem get_timerange_weeks_later (now k : Z) (time_string : option string) :
  get_timerange utc_offset (now + k * 604800) time_string
  = shift_result (k * 604800) (get_timerange utc_offset now time_string).
Proof.
  destruct time_string as [phrase|]; [|reflexivity].
  unfold get_timerange.
  destruct (String.eqb phrase ""); [reflexivity|].
  destruct (contained_weekdays phrase) as [|first rest].
  - assert (Hshift : forall j, now + k * 604800 + j * 24 * 60 * 60
                               = now + j * 24 * 60 * 60 + k * 604800) by (intros; lia).
    destruct (contains "wochenende" phrase
              || contains "woche" phrase && contains "ende" phrase).
    { rewrite !get_weekend_range_eq, local_day_weeks, weekday_weeks. cbv zeta.
      unfold shift_result, shift_range.
      cbn [tr_scale tme_from tme_to prefix option_map].
      do 2 f_equal. f_equal; f_equal; unfold day_start; lia. }
    destruct (contains "woche" phrase).
    { rewrite !get_week_range_eq, local_day_weeks, weekday_weeks. cbv zeta.
      unfold shift_result, shift_range.
      destruct (contains "nächste" phrase);
        cbn [tr_scale tme_from tme_to prefix option_map];
        do 2 f_equal; f_equal; f_equal; unfold day_start; lia. }
    destruct (String.eqb phrase "heute").
    { rewrite get_day_range_weeks. reflexivity. }
    destruct (String.eqb phrase "morgen").
    { rewrite Hshift, get_day_range_weeks. reflexivity. }
    destruct (endswith phrase "bermorgen").
    { rewrite Hshift, get_day_range_weeks. reflexivity. }
    destruct (contained_day_range_symbols phrase); [reflexivity|].
    rewrite !Hshift, !get_subrange_weeks.
    destruct (contains "bermorgen" phrase); [|destruct (contains "morgen" phrase)];
      match goal with
      | |- context [get_subrange utc_offset phrase ?e ?p] =>
          destruct (get_subrange utc_offset phrase e p); reflexivity
      end.
  - destruct (index first weekdays) as [d|]; [|reflexivity].
    cbn [bind]. unfold get_weekday. cbv zeta.
    destruct (nth_error weekdays d) as [name|]; [|reflexivity].
    cbn [item bind shift_result]. unfold shift_range.
    cbn [tr_scale tme_from tme_to prefix option_map].
    unfold timestamp, weekday, plus_days, replace, fromtimestamp.
    cbn [date hour minute second].
    fold (local_day utc_offset (now + k * 604800)). fold (local_day utc_offset now).
    rewrite local_day_weeks, weekday_weeks.
    destruct (Z.of_nat d - (local_day utc_offset now + 3) mod 7 <=? 0);
      do 2 f_equal; f_equal; f_equal; lia.
Qed.



(** At a fixed offset [get_day_range] is the local day of its reading: the
    range starts at a local midnight, ends 86399 seconds later and holds the
    reading. *)
Theorem get_day_range_holds_reading (epoch : Z) (pfx : string) :
  exists lo,
    get_day_range utc_offset epoch pfx
    = {| tr_scale := daily; tme_from := Some lo; tme_to := Some (lo + 86399);
         prefix := pfx |}
    /\ (lo + utc_offset) mod 86400 = 0
    /\ lo <= epoch <= lo + 86399.
Proof.
  exists (day_start utc_offset (local_day utc_offset epoch)).
  split; [apply get_day_range_eq|]. split; [apply day_start_midnight|].
  pose proof (day_start_le epoch). lia.
Qed.

(** At a fixed offset every hourly range of the resolver starts on the base
    day of the phrase (today, tomorrow or the day after), lasts three to five
    hours and carries the label of the base day and a keyword of the phrase. *)
Theorem get_timerange_hourly_shape (now : Z) (phrase : string) (r : TimeRange) :
  get_timerange utc_offset now (Some phrase) = Ret (Some r) ->
  tr_scale r = hourly ->
  exists sym lo hi,
    In sym day_range_symbols
    /\ contains sym phrase = true
    /\ prefix r = snd (base_day phrase) ++ " " ++ sym
    /\ tme_from r = Some lo
    /\ tme_to r = Some hi
    /\ local_day utc_offset lo = local_day utc_offset now + fst (base_day phrase)
    /\ 0 <= fst (base_day phrase) <= 2
    /\ 10800 <= hi - lo <= 18000.
Proof.
  intros Hr Hscale.
  destruct (get_timerange_forms now (Some phrase)) as (r' & Hr' & Hform).
  rewrite Hr in Hr'. injection Hr' as <-.
  destruct Hform as [->|[(d & len & (Hs & _) & _)|Hhour]];
    [discriminate Hscale|congruence|].
  destruct Hhour as (p & sym & hf & len & Hp & Hin & Hsym & (_ & Hlo & Hhi) & Hhf & Hlen & Hpfx).
  injection Hp as <-.
  exists sym, (day_start utc_offset (local_day utc_offset now + fst (base_day phrase))
               + hf * 3600),
         (day_start utc_offset (local_day utc_offset now + fst (base_day phrase))
          + hf * 3600 + len).
  repeat (split; [assumption|]).
  split; [|split; [|lia]].
  - replace (day_start utc_offset (local_day utc_offset now + fst (base_day phrase))
             + hf * 3600)
      with (day_start utc_offset (local_day utc_offset now + fst (base_day phrase))
            + (hf * 3600)) by lia.
    apply local_day_of_day_start. lia.
  - unfold base_day.
    destruct (contains "bermorgen" phrase); [|destruct (contains "morgen" phrase)];
      cbn [fst]; lia.
Qed.

(** At a fixed offset every daily range of the resolver starts at a local
    midnight, at most six days before today and at most seven days after it,
    and lasts a day less one second, a day, or six days. *)
Theorem get_timerange_daily_shape (now : Z) (time_string : option string)
    (r : TimeRange) :
  get_timerange utc_offset now time_string = Ret (Some r) ->
  tr_scale r = daily ->
  exists lo hi,
    tme_from r = Some lo
    /\ tme_to r = Some hi
    /\ (lo + utc_offset) mod 86400 = 0
    /\ local_day utc_offset now - 6 <= local_day utc_offset lo
       <= local_day utc_offset now + 7
    /\ (hi - lo = 86399 \/ hi - lo = 86400 \/ hi - lo = 518400).
Proof.
  intros Hr Hscale.
  destruct (get_timerange_forms now time_string) as (r' & Hr' & Hform).
  rewrite Hr in Hr'. injection Hr' as <-.
  destruct Hform as [->|[Hday|(p & sym & hf & len & _ & _ & _ & (Hs & _) & _)]];
    [discriminate Hscale| |congruence].
  destruct Hday as (d & len & (_ & Hlo & Hhi) & Hd & Hlen).
  exists (day_start utc_offset d), (day_start utc_offset d + len).
  split; [exact Hlo|]. split; [exact Hhi|]. split; [apply day_start_midnight|].
  split; [|lia].
  replace (day_start utc_offset d) with (day_start utc_offset d + 0) by lia.
  rewrite local_day_of_day_start by lia. exact Hd.
Qed.

End ResolverShapes.

(** 08:00 and 23:00 of 1970-01-01, UTC+1. *)
Lemma get_timerange_same_day_witness :
  get_timerange 3600 25200 (Some "morgen abend")
  = get_timerange 3600 79200 (Some "morgen abend").
Proof.
  apply (get_timerange_same_day 3600 25200 79200 (Some "morgen abend")).
  reflexivity.
Defined.



(** "übermorgen abend" at a fixed offset. *)
Lemma get_timerange_hourly_shape_witness :
  exists sym lo hi,
    In sym day_range_symbols
    /\ contains sym "übermorgen abend" = true
    /\ "Übermorgen abend" = snd (base_day "übermorgen abend") ++ " " ++ sym
    /\ Some 234000 = Some lo
    /\ Some 252000 = Some hi
    /\ local_day 0 lo = local_day 0 0 + fst (base_day "übermorgen abend")
    /\ 0 <= fst (base_day "übermorgen abend") <= 2
    /\ 10800 <= hi - lo <= 18000.
Proof.
  apply (get_timerange_hourly_shape 0 0 "übermorgen abend"
           {| tr_scale := hourly; tme_from := Some 234000; tme_to := Some 252000;
              prefix := "Übermorgen abend" |}); reflexivity.
Defined.

(** "sonntag" at a fixed offset. *)
Lemma get_timerange_daily_shape_witness :
  exists lo hi,
    Some 259200 = Some lo
    /\ Some 345599 = Some hi
    /\ (lo + 0) mod 86400 = 0
    /\ local_day 0 0 - 6 <= local_day 0 lo <= local_day 0 0 + 7
    /\ (hi - lo = 86399 \/ hi - lo = 86400 \/ hi - lo = 518400).
Proof.
  apply (get_timerange_daily_shape 0 0 (Some "sonntag")
           {| tr_scale := daily; tme_from := Some 259200; tme_to := Some 345599;
              prefix := "am Sonntag" |}); reflexivity.
Defined.

(** * Further properties of the selector *)

Lemma filter_py_raise {A : Type} (cond : A -> py bool) (xs : list A) (x : A) :
  In x xs -> cond x = Raise -> filter_py cond xs = Raise.
Proof.
  intros Hin Hx. induction xs as [|y rest IH]; [contradiction|].
  cbn [filter_py]. destruct Hin as [->|Hin].
  - rewrite Hx. reflexivity.
  - rewrite (IH Hin). destruct (cond y); reflexivity.
Qed.

Lemma filter_py_again {A : Type} (cond : A -> py bool) (xs ys : list A) :
  filter_py cond xs = Ret ys -> filter_py cond ys = Ret ys.
Proof.
  revert ys. induction xs as [|x rest IH]; intros ys H; cbn [filter_py] in H.
  - injection H as <-. reflexivity.
  - destruct (cond x) as [keep|] eqn:Hx; [|discriminate H]. cbn [bind] in H.
    destruct (filter_py cond rest) as [kept|]; [|discriminate H]. cbn [bind] in H.
    injection H as <-. specialize (IH kept eq_refl).
    destruct keep; [|exact IH].
    cbn [filter_py]. rewrite Hx, IH. reflexivity.
Qed.

Lemma scale_not_currently (sc : scale) :
  sc <> currently -> scale_eqb sc currently = false.
Proof. destruct sc; [contradiction| |]; reflexivity. Qed.

(** X8. A record without a time in either series makes the whole selection
    of a range fail, wherever the record lies and whatever the bounds. *)
Theorem select_weather_untimed_record (weather : payload) (sc : scale)
    (lo hi : option Z) (hs ds : list wx) (r : wx) :
  sc <> currently ->
  p_hourly weather = Some hs ->
  p_daily weather = Some ds ->
  In r hs \/ In r ds ->
  time r = None ->
  select_weather weather sc lo hi = None.
Proof.
  intros Hsc Hh Hd Hin Ht. unfold select_weather.
  rewrite (scale_not_currently sc Hsc), Hh, Hd. cbn [item bind].
  assert (Hr : in_range lo hi r = Raise) by (unfold in_range; rewrite Ht; reflexivity).
  destruct Hin as [Hin|Hin].
  - rewrite (filter_py_raise _ hs r Hin Hr). reflexivity.
  - rewrite (filter_py_raise _ ds r Hin Hr).
    destruct (filter_py (in_range lo hi) hs); reflexivity.
Qed.

(** X9. The selection of a range needs both series: without the hourly or
    without the daily one it fails, for the scale [hourly] as for [daily]. *)
Theorem select_weather_missing_series (weather : payload) (sc : scale)
    (lo hi : option Z) :
  sc <> currently ->
  p_hourly weather = None \/ p_daily weather = None ->
  select_weather weather sc lo hi = None.
Proof.
  intros Hsc Hmiss. unfold select_weather. rewrite (scale_not_currently sc Hsc).
  destruct (p_hourly weather) as [hs|]; cbn [item bind]; [|reflexivity].
  destruct Hmiss as [Hh|Hd]; [discriminate Hh|]. rewrite Hd.
  destruct (filter_py (in_range lo hi) hs); reflexivity.
Qed.

(** X10. Selecting is idempotent: the selection of a range, put in the place
    of the two series, is selected whole by the same bounds. *)
Theorem select_weather_idempotent (weather : payload) (sc : scale)
    (lo hi : option Z) (hours days : list wx) (c : option wx) :
  sc <> currently ->
  select_weather weather sc lo hi = Some (Ranged hours days) ->
  select_weather {| p_currently := c; p_hourly := Some hours; p_daily := Some days |}
    sc lo hi
  = Some (Ranged hours days).
Proof.
  intros Hsc H. unfold select_weather in *.
  rewrite (scale_not_currently sc Hsc) in *. cbn [p_hourly p_daily item bind].
  destruct (p_hourly weather) as [hs|]; cbn [item bind] in H; [|discriminate H].
  destruct (filter_py (in_range lo hi) hs) as [hours'|] eqn:Hhs;
    cbn [bind] in H; [|discriminate H].
  destruct (p_daily weather) as [ds|]; cbn [item bind] in H; [|discriminate H].
  destruct (filter_py (in_range lo hi) ds) as [days'|] eqn:Hds;
    cbn [bind] in H; [|discriminate H].
  injection H as <- <-.
  rewrite (filter_py_again _ hs hours' Hhs). cbn [bind].
  rewrite (filter_py_again _ ds days' Hds). reflexivity.
Qed.

(** X8 on a payload whose second hour has no time. *)
Lemma select_weather_untimed_record_witness :
  select_weather
    {| p_currently := None;
       p_hourly := Some [Sample.record 0 "klar"; decoded_rain;
                         {| time := None; summary := Some "klar"; icon := None;
                            temperature := None; temperatureMin := None;
                            temperatureMax := None; precipType := None;
                            precipProbability := None |}];
       p_daily := Some [] |}
    hourly (Some 0) (Some 10)
  = None.
Proof.
  eapply (select_weather_untimed_record _ hourly (Some 0) (Some 10) _ []
            {| time := None; summary := Some "klar"; icon := None;
               temperature := None; temperatureMin := None;
               temperatureMax := None; precipType := None;
               precipProbability := None |}).
  - discriminate.
  - reflexivity.
  - reflexivity.
  - left. right. right. left. reflexivity.
  - reflexivity.
Defined.

(** X9 on a payload without the daily series. *)
Lemma select_weather_missing_series_witness :
  select_weather
    {| p_currently := None; p_hourly := Some [Sample.record 0 "klar"]; p_daily := None |}
    hourly (Some 0) (Some 10)
  = None.
Proof.
  apply select_weather_missing_series; [discriminate|right; reflexivity].
Defined.

(** X10 on the sample day. *)
Lemma select_weather_idempotent_witness :
  select_weather
    {| p_currently := None; p_hourly := Some [Sample.record 18000 "klar"];
       p_daily := Some [Sample.record 0 "heiter"] |}
    daily (Some 0) (Some 86399)
  = Some (Ranged [Sample.record 18000 "klar"] [Sample.record 0 "heiter"]).
Proof.
  apply (select_weather_idempotent Sample.one_day daily (Some 0) (Some 86399)).
  - discriminate.
  - reflexivity.
Defined.

(** * Further properties of the handlers *)

(** ** Rounding, minimum and maximum *)

Lemma round_spec (x : Q) :
  (2 * Qnum x - Z.pos (Qden x) < 2 * Z.pos (Qden x) * Num.round x
   < 2 * Qnum x + Z.pos (Qden x))
  \/ ((2 * Z.pos (Qden x) * Num.round x = 2 * Qnum x - Z.pos (Qden x)
       \/ 2 * Z.pos (Qden x) * Num.round x = 2 * Qnum x + Z.pos (Qden x))
      /\ Z.even (Num.round x) = true).
Proof.
  unfold Num.round. destruct x as [n d]. cbn [Qnum Qden].
  pose proof (Z.div_mod n (Z.pos d) ltac:(lia)) as Hdm.
  pose proof (Z.mod_pos_bound n (Z.pos d) ltac:(lia)) as Hb.
  destruct (Z.compare_spec (2 * (n mod Z.pos d)) (Z.pos d)) as [He|Hl|Hg].
  - right. destruct (Z.even (n / Z.pos d)) eqn:Hev.
    + split; [left; lia|exact Hev].
    + split; [right; lia|].
      rewrite Z.add_1_r, Z.even_succ, <- Z.negb_even, Hev. reflexivity.
  - left. lia.
  - left. lia.
Qed.

(** Rounding keeps the order. *)
Lemma round_monotone (x y : Q) : (x <= y)%Q -> Num.round x <= Num.round y.
Proof.
  unfold Qle. intros Hle.
  pose proof (round_spec x) as Hx. pose proof (round_spec y) as Hy.
  set (zx := Num.round x) in *. set (zy := Num.round y) in *.
  set (nx := Qnum x) in *. set (ny := Qnum y) in *.
  set (dx := Z.pos (Qden x)) in *. set (dy := Z.pos (Qden y)) in *.
  assert (Hdx : 0 < dx) by (subst dx; lia).
  assert (Hdy : 0 < dy) by (subst dy; lia).
  destruct (Z_le_gt_dec zx zy) as [|Hgt]; [assumption|exfalso].
  assert (Hup : 2 * dx * zx <= 2 * nx + dx) by (destruct Hx as [?|[[?|?] _]]; lia).
  assert (Hdn : 2 * ny - dy <= 2 * dy * zy) by (destruct Hy as [?|[[?|?] _]]; lia).
  assert (H1 : 2 * dx * dy * zx <= 2 * nx * dy + dx * dy) by nia.
  assert (H2 : 2 * ny * dx - dx * dy <= 2 * dx * dy * zy) by nia.
  assert (H3 : 2 * dx * dy * zx <= 2 * dx * dy * zy + 2 * dx * dy) by nia.
  assert (H4 : zx = zy + 1) by nia.
  assert (Hex : 2 * dx * zx = 2 * nx + dx) by nia.
  assert (Hey : 2 * dy * zy = 2 * ny - dy) by nia.
  assert (Hevx : Z.even zx = true) by (destruct Hx as [?|[_ ?]]; [lia|assumption]).
  assert (Hevy : Z.even zy = true) by (destruct Hy as [?|[_ ?]]; [lia|assumption]).
  rewrite H4, Z.add_1_r, Z.even_succ, <- Z.negb_even, Hevy in Hevx. discriminate.
Qed.

Lemma fold_min_spec (rest : list Q) (x : Q) :
  let m := fold_left (fun m y => if Num.ltb y m then y else m) rest x in
  In m (x :: rest) /\ Forall (fun y => (m <= y)%Q) (x :: rest).
Proof.
  revert x. induction rest as [|y rest IH]; intros x; cbn [fold_left].
  - split; [left; reflexivity|]. constructor; [apply Qle_refl|constructor].
  - destruct (IH (if Num.ltb y x then y else x)) as [Hin Hall].
    inversion Hall as [|? ? Hm Hrest]; subst.
    assert (Hxy : ((if Num.ltb y x then y else x) <= x)%Q
                  /\ ((if Num.ltb y x then y else x) <= y)%Q
                  /\ ((if Num.ltb y x then y else x) = y
                      \/ (if Num.ltb y x then y else x) = x)).
    { destruct (Num.ltb y x) eqn:H.
      - apply ltb_lt in H. repeat split; [apply Qlt_le_weak; exact H|apply Qle_refl|auto].
      - apply ltb_ge in H. repeat split; [apply Qle_refl|exact H|auto]. }
    destruct Hxy as (Hx & Hy & Hsel). split.
    + destruct Hin as [Heq|Hin]; [|right; right; exact Hin].
      rewrite <- Heq. destruct Hsel as [->| ->]; [right; left|left]; reflexivity.
    + constructor; [eapply Qle_trans; eassumption|].
      constructor; [eapply Qle_trans; eassumption|exact Hrest].
Qed.

Lemma fold_max_spec (rest : list Q) (x : Q) :
  let m := fold_left (fun m y => if Num.ltb m y then y else m) rest x in
  In m (x :: rest) /\ Forall (fun y => (y <= m)%Q) (x :: rest).
Proof.
  revert x. induction rest as [|y rest IH]; intros x; cbn [fold_left].
  - split; [left; reflexivity|]. constructor; [apply Qle_refl|constructor].
  - destruct (IH (if Num.ltb x y then y else x)) as [Hin Hall].
    inversion Hall as [|? ? Hm Hrest]; subst.
    assert (Hxy : (x <= (if Num.ltb x y then y else x))%Q
                  /\ (y <= (if Num.ltb x y then y else x))%Q
                  /\ ((if Num.ltb x y then y else x) = y
                      \/ (if Num.ltb x y then y else x) = x)).
    { destruct (Num.ltb x y) eqn:H.
      - apply ltb_lt in H. repeat split; [apply Qlt_le_weak; exact H|apply Qle_refl|auto].
      - apply ltb_ge in H. repeat split; [apply Qle_refl|exact H|auto]. }
    destruct Hxy as (Hx & Hy & Hsel). split.
    + destruct Hin as [Heq|Hin]; [|right; right; exact Hin].
      rewrite <- Heq. destruct Hsel as [->| ->]; [right; left|left]; reflexivity.
    + constructor; [eapply Qle_trans; eassumption|].
      constructor; [eapply Qle_trans; eassumption|exact Hrest].
Qed.

Lemma min_spec (xs : list Q) :
  xs <> [] ->
  exists m, Num.min xs = Ret m /\ In m xs /\ Forall (fun y => (m <= y)%Q) xs.
Proof.
  destruct xs as [|x rest]; [contradiction|]. intros _.
  eexists. split; [reflexivity|]. apply fold_min_spec.
Qed.

Lemma max_spec (xs : list Q) :
  xs <> [] ->
  exists m, Num.max xs = Ret m /\ In m xs /\ Forall (fun y => (y <= m)%Q) xs.
Proof.
  destruct xs as [|x rest]; [contradiction|]. intros _.
  eexists. split; [reflexivity|]. apply fold_max_spec.
Qed.

Lemma temperatures_defined (weather : list wx) :
  Forall (fun w => temperature w <> None) weather ->
  map_py (fun w => item (temperature w)) weather = Ret (map temp_of weather).
Proof.
  intros H. apply map_py_total. eapply Forall_impl; [|exact H].
  intros w Hw. cbv beta in Hw. unfold temp_of.
  destruct (temperature w); [reflexivity|contradiction].
Qed.

(** X12. The temperature of a range with two records or more reads "zwischen
    a und b" with a <= b, and the rounded temperature of every record of the
    range lies between the two. *)
Theorem process_temperature_between (sc : scale) (weather days : list wx)
    (pfx : string) :
  (2 <= List.length weather)%nat ->
  Forall (fun w => temperature w <> None) weather ->
  exists a b,
    process_temperature sc (Ranged weather days) pfx
    = Ret (Some (pfx ++ " wird es zwischen " ++ str a ++ " und " ++ str b
                 ++ " Grad warm."))
    /\ a <= b
    /\ (forall w t, In w weather -> temperature w = Some t -> a <= Num.round t <= b).
Proof.
  intros Hlen Hall.
  assert (Hne : map temp_of weather <> [])
    by (destruct weather; [cbn in Hlen; lia|discriminate]).
  destruct (min_spec _ Hne) as (lo & Hmin & Hlo_in & Hlo).
  destruct (max_spec _ Hne) as (hi & Hmax & Hhi_in & Hhi).
  exists (Num.round lo), (Num.round hi).
  rewrite Forall_forall in Hlo, Hhi. split; [|split].
  - unfold process_temperature.
    destruct weather as [|w0 [|w1 rest]]; [cbn in Hlen; lia|cbn in Hlen; lia|].
    rewrite (temperatures_defined _ Hall). cbn [bind].
    rewrite Hmin, Hmax. reflexivity.
  - apply round_monotone. apply Hhi. exact Hlo_in.
  - intros w t Hw Ht.
    assert (Hin : In t (map temp_of weather)).
    { replace t with (temp_of w) by (unfold temp_of; rewrite Ht; reflexivity).
      apply in_map. exact Hw. }
    split; apply round_monotone; [apply Hlo|apply Hhi]; exact Hin.
Qed.

(** X12 on three hours of 9.4, 11.5 and 10 degrees. *)
Lemma process_temperature_between_witness :
  exists a b,
    process_temperature hourly
      (Ranged [{| time := Some 0; summary := None; icon := None;
                  temperature := Some (94 # 10); temperatureMin := None;
                  temperatureMax := None; precipType := None;
                  precipProbability := None |};
               {| time := Some 3600; summary := None; icon := None;
                  temperature := Some (115 # 10); temperatureMin := None;
                  temperatureMax := None; precipType := None;
                  precipProbability := None |};
               Sample.record 7200 "klar"] []) "Heute mittag"
    = Ret (Some ("Heute mittag" ++ " wird es zwischen " ++ str a ++ " und " ++ str b
                 ++ " Grad warm."))
    /\ a <= b
    /\ (forall w t,
          In w [{| time := Some 0; summary := None; icon := None;
                   temperature := Some (94 # 10); temperatureMin := None;
                   temperatureMax := None; precipType := None;
                   precipProbability := None |};
                {| time := Some 3600; summary := None; icon := None;
                   temperature := Some (115 # 10); temperatureMin := None;
                   temperatureMax := None; precipType := None;
                   precipProbability := None |};
                Sample.record 7200 "klar"] ->
          temperature w = Some t -> a <= Num.round t <= b).
Proof.
  apply process_temperature_between.
  - cbn. lia.
  - repeat constructor; discriminate.
Defined.

Example temperature_of_three_hours :
  process_temperature hourly
    (Ranged [{| time := Some 0; summary := None; icon := None;
                temperature := Some (94 # 10); temperatureMin := None;
                temperatureMax := None; precipType := None;
                precipProbability := None |};
             {| time := Some 3600; summary := None; icon := None;
                temperature := Some (115 # 10); temperatureMin := None;
                temperatureMax := None; precipType := None;
                precipProbability := None |};
             Sample.record 7200 "klar"] []) "Heute mittag"
  = Ret (Some "Heute mittag wird es zwischen 9 und 12 Grad warm.").
Proof. reflexivity. Qed.

(** ** Sun *)

Section Sun.

Variable utc_offset : Z.

Lemma process_has_sun_eq (what : pystr) (sc : scale) (hours days : list wx)
    (pfx : string) :
  py_eq what Lit.sun = true ->
  sc <> currently ->
  Forall (fun w => icon w <> None) hours ->
  process_has utc_offset what sc (Ranged hours days) pfx
  = match chosen_sun hours with
    | None => Ret (Some nein)
    | Some w =>
        t <- item (time w) ;;
        Ret (Some (report_sun utc_offset sc hours days pfx t))
    end.
Proof.
  intros Hsun Hsc Hicons.
  assert (Hf : forall name,
             filter_py (fun w => i <- item (icon w) ;; Ret (py_eq i name)) hours
             = Ret (filter (icon_is name) hours)).
  { intros name. apply filter_py_total.
    eapply Forall_impl; [|exact Hicons]. intros w Hw. cbv beta in Hw.
    unfold icon_is. destruct (icon w); [reflexivity|contradiction]. }
  assert (Hbody : process_has utc_offset what sc (Ranged hours days) pfx
    = (hasSun <- filter_py (fun w => i <- item (icon w) ;; Ret (py_eq i Lit.clear_day)) hours ;;
       hasPartly <- filter_py (fun w => i <- item (icon w) ;; Ret (py_eq i Lit.partly_cloudy_day)) hours ;;
       if is_nil hasSun && is_nil hasPartly then Ret (Some nein) else
       w <- item (match hasSun with
                  | x :: _ => Some x
                  | [] => hd_error hasPartly
                  end) ;;
       t <- item (time w) ;;
       let dt := fromtimestamp utc_offset t in
       day <- weekday_name utc_offset t ;;
       let when := strftime_HM_Uhr dt in
       if scale_eqb sc hourly then
         Ret (Some ("Gegen " ++ when ++ " wird es " ++ sun_verb hasSun))
       else if (List.length days =? 1)%nat then
         Ret (Some (pfx ++ " wird es gegen " ++ when ++ " " ++ sun_verb hasSun))
       else
         Ret (Some ("Am " ++ capitalize day ++ " wird es gegen " ++ when ++ " "
                    ++ sun_verb hasSun)))).
  { unfold process_has. destruct sc; [contradiction| |]; rewrite Hsun; reflexivity. }
  rewrite Hbody. clear Hbody. rewrite !Hf. cbn [bind]. cbv zeta.
  unfold chosen_sun, report_sun, sun_words.
  rewrite !find_hd_filter, existsb_filter.
  assert (Hwords : forall x : list wx,
             (if negb (is_nil x) then "sonnig." else "ein bisschen Sonne geben.")
             = sun_verb x) by (intros [|? ?]; reflexivity).
  rewrite Hwords.
  assert (Hreport : forall (w : wx) (x : list wx),
    (t <- item (time w) ;;
     day <- weekday_name utc_offset t ;;
     if scale_eqb sc hourly then
       Ret (Some ("Gegen " ++ strftime_HM_Uhr (fromtimestamp utc_offset t)
                  ++ " wird es " ++ sun_verb x))
     else if (List.length days =? 1)%nat then
       Ret (Some (pfx ++ " wird es gegen "
                  ++ strftime_HM_Uhr (fromtimestamp utc_offset t) ++ " " ++ sun_verb x))
     else
       Ret (Some ("Am " ++ capitalize day ++ " wird es gegen "
                  ++ strftime_HM_Uhr (fromtimestamp utc_offset t) ++ " " ++ sun_verb x)))
    = (t <- item (time w) ;;
       Ret (Some
         match sc with
         | hourly => "Gegen " ++ time_of_day utc_offset t ++ " wird es " ++ sun_verb x
         | _ =>
             if (List.length days =? 1)%nat then
               pfx ++ " wird es gegen " ++ time_of_day utc_offset t ++ " " ++ sun_verb x
             else
               "Am " ++ capitalize (day_name utc_offset t) ++ " wird es gegen "
               ++ time_of_day utc_offset t ++ " " ++ sun_verb x
         end))).
  { intros w x. destruct (time w) as [t|]; cbn [item bind]; [|reflexivity].
    rewrite weekday_name_eq. cbn [bind]. unfold time_of_day.
    destruct sc; [contradiction| |]; cbn [scale_eqb];
      [reflexivity|destruct (List.length days =? 1)%nat; reflexivity]. }
  destruct (filter (icon_is Lit.clear_day) hours) as [|c cs];
    [destruct (filter (icon_is Lit.partly_cloudy_day) hours) as [|q qs]|];
    cbn [is_nil andb hd_error];
    try reflexivity; apply Hreport.
Qed.

(** X13. Sun in a range, over records that carry icon and time: the first
    record with the icon "clear-day" is reported, else the first with
    "partly-cloudy-day", with its time of day (and its weekday when the range
    does not hold exactly one day); without such a record the answer is
    "Nein, ich denke nicht.". *)
Theorem process_has_reports_first_sun (what : pystr) (sc : scale)
    (hours days : list wx) (pfx : string) :
  py_eq what Lit.sun = true ->
  sc <> currently ->
  Forall (fun w => icon w <> None /\ timed w) hours ->
  reports_first_sun utc_offset what sc hours days pfx.
Proof.
  intros Hsun Hsc Hwf. unfold reports_first_sun.
  rewrite (process_has_sun_eq what sc hours days pfx Hsun Hsc)
    by (eapply Forall_impl; [|exact Hwf]; intros w [Hi _]; exact Hi).
  destruct (chosen_sun hours) as [w|] eqn:Hch; [|reflexivity].
  assert (Hin : In w hours).
  { unfold chosen_sun in Hch.
    destruct (find (icon_is Lit.clear_day) hours) eqn:H1;
      [injection Hch as <-; exact (proj1 (find_some _ _ H1))|].
    exact (proj1 (find_some _ _ Hch)). }
  rewrite Forall_forall in Hwf. destruct (Hwf w Hin) as [_ Htimed].
  unfold timed in Htimed. destruct (time w) as [t|]; [|contradiction].
  exists t. split; reflexivity.
Qed.

(** X14. On the current record the presence handler answers whatever keys the
    record lacks: no missing key raises. *)
Theorem process_has_now_answers (what : pystr) (w : wx) (pfx : string) :
  exists answer,
    process_has utc_offset what currently (Current w) pfx = Ret (Some answer).
Proof.
  unfold process_has. destruct (py_eq what Lit.sun).
  - destruct (icon w) as [i|]; [|eexists; reflexivity].
    destruct (py_eq i Lit.clear_day); [eexists; reflexivity|].
    destruct (contains "cloudy" (text i)); eexists; reflexivity.
  - destruct (precipType w) as [ty|]; [|eexists; reflexivity].
    destruct (precipProbability w) as [p|]; [|eexists; reflexivity].
    destruct (negb (py_is ty what) || Num.ltb p (3 # 10)); [eexists; reflexivity|].
    destruct (Num.ltb p (75 # 100)); eexists; reflexivity.
Qed.

(** X15. Sun at the moment: an icon whose text contains "cloudy" and that is
    not the very constant of the module is answered with "eher bewölkt", the
    plain "cloudy" of a decoded payload included. *)
Theorem process_has_now_cloudy (what : pystr) (w : wx) (i : pystr) (pfx : string) :
  py_eq what Lit.sun = true ->
  icon w = Some i ->
  contains "cloudy" (text i) = true ->
  py_is i Lit.cloudy = false ->
  process_has utc_offset what currently (Current w) pfx
  = Ret (Some "Nein, ist ist gerade eher bewölkt.").
Proof.
  intros Hsun Hicon Hcloudy His. unfold process_has.
  rewrite Hsun, Hicon.
  assert (Hclear : py_eq i Lit.clear_day = false).
  { unfold py_eq. destruct (String.eqb_spec (text i) (text Lit.clear_day)) as [He|]; [|reflexivity].
    rewrite He in Hcloudy. discriminate Hcloudy. }
  rewrite Hclear, Hcloudy, His. reflexivity.
Qed.

End Sun.

(** X13 for an hour at 09:00 that is partly cloudy. *)
Lemma process_has_reports_first_sun_witness :
  reports_first_sun 0 Lit.sun hourly
    [{| time := Some 32400; summary := Some "heiter";
        icon := Some {| obj_id := 103; text := "partly-cloudy-day" |};
        temperature := None; temperatureMin := None; temperatureMax := None;
        precipType := None; precipProbability := None |}] [] "Heute vormittag".
Proof.
  apply process_has_reports_first_sun.
  - reflexivity.
  - discriminate.
  - repeat constructor; discriminate.
Defined.

Example sun_of_a_partly_cloudy_hour :
  process_has 0 Lit.sun hourly
    (Ranged [{| time := Some 32400; summary := Some "heiter";
                icon := Some {| obj_id := 103; text := "partly-cloudy-day" |};
                temperature := None; temperatureMin := None; temperatureMax := None;
                precipType := None; precipProbability := None |}] [])
    "Heute vormittag"
  = Ret (Some "Gegen 09:00 Uhr wird es ein bisschen Sonne geben.").
Proof. reflexivity. Qed.

(** X15 for the decoded icon "cloudy". *)
Lemma process_has_now_cloudy_witness :
  process_has 0 Lit.sun currently
    (Current {| time := None; summary := None;
                icon := Some {| obj_id := 104; text := "cloudy" |};
                temperature := None; temperatureMin := None; temperatureMax := None;
                precipType := None; precipProbability := None |}) "Jetzt"
  = Ret (Some "Nein, ist ist gerade eher bewölkt.").
Proof.
  eapply (process_has_now_cloudy 0 Lit.sun _ {| obj_id := 104; text := "cloudy" |});
    reflexivity.
Defined.

(** ** The summary and its dot *)

Lemma endswith_refl (text : string) : endswith text text = true.
Proof.
  destruct text; cbn [endswith]; rewrite String.eqb_refl; reflexivity.
Qed.

Lemma endswith_append (text suffix : string) : endswith (text ++ suffix) suffix = true.
Proof.
  induction text as [|c text IH]; cbn [append].
  - apply endswith_refl.
  - cbn [endswith]. rewrite IH. apply orb_true_r.
Qed.

Lemma strip_dot (text : string) :
  endswith text "." = true ->
  substring 0 (String.length text - 1) text ++ "." = text.
Proof.
  induction text as [|c text IH]; cbn [endswith]; intros H.
  - discriminate H.
  - destruct text as [|c' text'].
    + rewrite orb_false_r in H. apply String.eqb_eq in H. rewrite H. reflexivity.
    + assert (Hne : String.eqb (String c (String c' text')) "." = false).
      { cbn. destruct (Ascii.eqb c "."); reflexivity. }
      rewrite Hne in H. cbn [orb] in H. specialize (IH H).
      cbn [String.length] in *. rewrite Nat.sub_succ, Nat.sub_0_r in *.
      cbn [substring]. cbn [append]. f_equal. exact IH.
Qed.

(** X16. The two forms of a summary differ by the final dot and nothing
    else: the form with the dot ends with a dot, and it is the form without
    the dot followed by a dot. *)
Theorem get_summary_dot (w : wx) (text : string) :
  summary w = Some text ->
  exists dotted bare,
    get_summary w false = Ret dotted
    /\ get_summary w true = Ret bare
    /\ endswith dotted "." = true
    /\ dotted = bare ++ "."
    /\ (dotted = text \/ bare = text).
Proof.
  intros Hs. unfold get_summary. rewrite Hs. cbn [item bind negb andb].
  destruct (endswith text ".") eqn:Hdot; cbn [negb].
  - exists text, (substring 0 (String.length text - 1) text).
    repeat split; auto. symmetry. apply strip_dot. exact Hdot.
  - exists (text ++ "."), text.
    repeat split; auto. apply endswith_append.
Qed.

(** X16 for the summary "Regen.". *)
Lemma get_summary_dot_witness :
  exists dotted bare,
    get_summary (Sample.record 0 "Regen.") false = Ret dotted
    /\ get_summary (Sample.record 0 "Regen.") true = Ret bare
    /\ endswith dotted "." = true
    /\ dotted = bare ++ "."
    /\ (dotted = "Regen." \/ bare = "Regen.").
Proof.
  apply (get_summary_dot (Sample.record 0 "Regen.") "Regen."). reflexivity.
Defined.

(** * Further properties of the pipeline *)

Lemma map_py_defined {A B : Type} (g : A -> py B) (xs : list A) :
  Forall (fun x => exists y, g x = Ret y) xs ->
  exists ys, map_py g xs = Ret ys /\ List.length ys = List.length xs.
Proof.
  induction 1 as [|x rest [y Hy] _ [ys [IH Hlen]]]; cbn [map_py].
  - exists []. split; reflexivity.
  - rewrite Hy, IH. exists (y :: ys). split; [reflexivity|]. cbn. rewrite Hlen. reflexivity.
Qed.

Lemma filter_py_defined {A : Type} (cond : A -> py bool) (xs : list A) :
  Forall (fun x => exists b, cond x = Ret b) xs ->
  exists ys, filter_py cond xs = Ret ys /\ incl ys xs.
Proof.
  induction 1 as [|x rest [b Hb] _ [ys [IH Hincl]]]; cbn [filter_py].
  - exists []. split; [reflexivity|apply incl_nil_l].
  - rewrite Hb, IH. cbn [bind]. destruct b.
    + exists (x :: ys). split; [reflexivity|].
      apply incl_cons; [left; reflexivity|apply incl_tl; exact Hincl].
    + exists ys. split; [reflexivity|apply incl_tl; exact Hincl].
Qed.

Lemma Forall_incl {A : Type} (P : A -> Prop) (xs ys : list A) :
  incl ys xs -> Forall P xs -> Forall P ys.
Proof.
  intros Hincl H. rewrite Forall_forall in *. intros y Hy. apply H, Hincl, Hy.
Qed.

Lemma Forall_filter_keep {A : Type} (P : A -> Prop) (f : A -> bool) (xs : list A) :
  Forall P xs -> Forall P (filter f xs).
Proof.
  apply Forall_incl. intros x Hx. apply filter_In in Hx. tauto.
Qed.

Lemma nth_error_last_In {A : Type} (xs : list A) :
  xs <> [] ->
  exists x, nth_error xs (List.length xs - 1) = Some x /\ In x xs.
Proof.
  intros Hne.
  destruct (nth_error xs (List.length xs - 1)) as [x|] eqn:H.
  - exists x. split; [reflexivity|]. eapply nth_error_In. exact H.
  - apply nth_error_None in H. destruct xs; [contradiction|]. cbn in H. lia.
Qed.

Lemma wx_with_summary_not_empty (w : wx) : summary w <> None -> wx_empty w = false.
Proof.
  intros H. unfold wx_empty. destruct (summary w); [|contradiction].
  cbn [is_some]. rewrite orb_true_r. reflexivity.
Qed.

Lemma chosen_In (what : pystr) (hours : list wx) (w : wx) :
  chosen what hours = Some w -> In w hours.
Proof.
  unfold chosen. intros H.
  destruct (find (precip_match Lit.rain what) hours) eqn:H1;
    [injection H as <-; exact (proj1 (find_some _ _ H1))|].
  destruct (find (precip_match Lit.hail what) hours) eqn:H2;
    [injection H as <-; exact (proj1 (find_some _ _ H2))|].
  exact (proj1 (find_some _ _ H)).
Qed.

Lemma chosen_sun_In (hours : list wx) (w : wx) :
  chosen_sun hours = Some w -> In w hours.
Proof.
  unfold chosen_sun. intros H.
  destruct (find (icon_is Lit.clear_day) hours) eqn:H1;
    [injection H as <-; exact (proj1 (find_some _ _ H1))|].
  exact (proj1 (find_some _ _ H)).
Qed.

Ltac field_present H :=
  match type of H with
  | ?f <> None => let v := fresh "v" in let E := fresh "E" in
                  destruct f as [v|] eqn:E; [clear H|contradiction]
  end.

Section PipelineTotal.

Variable utc_offset : Z.

Lemma select_weather_ranged (weather : payload) (sc : scale) (lo hi : Z)
    (hs ds : list wx) :
  sc <> currently ->
  p_hourly weather = Some hs ->
  p_daily weather = Some ds ->
  Forall timed hs ->
  Forall timed ds ->
  select_weather weather sc (Some lo) (Some hi)
  = Some (Ranged (filter (within lo hi) hs) (filter (within lo hi) ds)).
Proof.
  intros Hsc Hh Hd Hhs Hds. unfold select_weather.
  rewrite (scale_not_currently sc Hsc), Hh, Hd. cbn [item bind].
  rewrite (filter_py_in_range lo hi hs Hhs). cbn [bind].
  rewrite (filter_py_in_range lo hi ds Hds). reflexivity.
Qed.

Lemma min_defined (xs : list Q) : xs <> [] -> exists m, Num.min xs = Ret m.
Proof. destruct xs; [contradiction|]. intros _. eexists. reflexivity. Qed.

Lemma max_defined (xs : list Q) : xs <> [] -> exists m, Num.max xs = Ret m.
Proof. destruct xs; [contradiction|]. intros _. eexists. reflexivity. Qed.

Lemma nonempty_by_length {A B : Type} (xs : list A) (ys : list B) :
  List.length ys = List.length xs -> xs <> [] -> ys <> [].
Proof. destruct xs, ys; cbn; intros; congruence. Qed.

Lemma days_with_icon_defined (name : string) (days : list wx) (first_time : Z) :
  Forall complete_day days ->
  exists names, days_with_icon utc_offset name days first_time = Ret names.
Proof.
  intros Hall. unfold days_with_icon.
  match goal with
  | |- context [filter_py ?c days] =>
      destruct (filter_py_defined c days) as (sel & -> & Hincl)
  end.
  { eapply Forall_impl; [|exact Hall]. intros w (Ht & _ & Hi & _). cbv beta.
    field_present Ht. field_present Hi. cbn [item bind].
    destruct (String.eqb (text v0) name); eexists; reflexivity. }
  cbn [bind].
  match goal with
  | |- context [map_py ?g sel] =>
      destruct (map_py_defined g sel) as (names & -> & _)
  end.
  { apply (Forall_incl _ days sel Hincl).
    eapply Forall_impl; [|exact Hall]. intros w (Ht & _). cbv beta.
    field_present Ht. cbn [item bind]. rewrite weekday_name_eq. eexists. reflexivity. }
  eexists. reflexivity.
Qed.

Lemma process_forecast_daily_defined (hours days : list wx) (pfx : string) :
  days <> [] ->
  Forall complete_day days ->
  exists answer, process_forecast utc_offset daily (Ranged hours days) pfx = Ret answer.
Proof.
  intros Hne Hall. unfold process_forecast.
  destruct (map_py_defined (fun w => item (temperatureMax w)) days)
    as (tmax & -> & Hmax).
  { eapply Forall_impl; [|exact Hall]. intros w (_ & _ & _ & _ & H). cbv beta.
    field_present H. eexists. reflexivity. }
  destruct (map_py_defined (fun w => item (temperatureMin w)) days)
    as (tmin & -> & Hmin).
  { eapply Forall_impl; [|exact Hall]. intros w (_ & _ & _ & H & _). cbv beta.
    field_present H. eexists. reflexivity. }
  cbn [bind].
  destruct (min_defined tmin (nonempty_by_length days tmin Hmin Hne)) as (lo & Hlo).
  destruct (max_defined tmax (nonempty_by_length days tmax Hmax Hne)) as (hi & Hhi).
  destruct days as [|d0 rest]; [contradiction|].
  pose proof (Forall_inv Hall) as (Ht0 & Hs0 & _ & Hmin0 & Hmax0).
  destruct (time d0) as [t0|] eqn:Et0; [|contradiction].
  destruct (summary d0) as [s0|] eqn:Es0; [|contradiction].
  destruct (temperatureMin d0) as [lo0|] eqn:Elo0; [|contradiction].
  destruct (temperatureMax d0) as [hi0|] eqn:Ehi0; [|contradiction].
  destruct rest as [|d1 rest].
  - rewrite (get_summary_with_dot d0 s0 Es0). cbn [item bind]. eexists. reflexivity.
  - pose proof (Forall_inv (Forall_inv_tail Hall)) as (Ht1 & Hs1 & _).
    destruct (time d1) as [t1|] eqn:Et1; [|contradiction].
    destruct (summary d1) as [s1|] eqn:Es1; [|contradiction].
    destruct rest as [|d2 rest].
    + cbn [item bind]. rewrite !weekday_name_eq. cbn [bind].
      rewrite (get_summary_with_dot d0 s0 Es0), (get_summary_with_dot d1 s1 Es1).
      cbn [bind]. rewrite Hlo, Hhi. cbn [bind].
      destruct (String.eqb s0 s1); eexists; reflexivity.
    + cbn [nth_error item bind]. rewrite Et0. cbn [item bind].
      rewrite weekday_name_eq. cbn [bind].
      destruct (days_with_icon_defined "rain" (d0 :: d1 :: d2 :: rest) t0 Hall) as (a & ->).
      destruct (days_with_icon_defined "snow" (d0 :: d1 :: d2 :: rest) t0 Hall) as (b & ->).
      destruct (days_with_icon_defined "thunderstorm" (d0 :: d1 :: d2 :: rest) t0 Hall)
        as (c & ->).
      cbn [bind]. rewrite (get_summary_with_dot d0 s0 Es0). cbn [bind].
      rewrite Hlo, Hhi. cbn [bind]. eexists. reflexivity.
Qed.

Lemma process_forecast_hourly_defined (hours days : list wx) (pfx : string) :
  hours <> [] ->
  Forall complete_hour hours ->
  exists answer, process_forecast utc_offset hourly (Ranged hours days) pfx = Ret answer.
Proof.
  intros Hne Hall. unfold process_forecast.
  rewrite temperatures_defined
    by (eapply Forall_impl; [|exact Hall]; intros w (_ & _ & _ & H & _); exact H).
  cbn [bind].
  assert (Htemps : map temp_of hours <> [])
    by (apply (nonempty_by_length hours); [apply length_map|exact Hne]).
  destruct (min_defined _ Htemps) as (lo & Hlo).
  destruct (max_defined _ Htemps) as (hi & Hhi).
  destruct (nth_error_last_In hours Hne) as (hN & HN & HinN). rewrite HN.
  destruct hours as [|h0 rest]; [contradiction|].
  cbn [nth_error item bind].
  pose proof (Forall_inv Hall) as (_ & Hs0 & _).
  rewrite Forall_forall in Hall. destruct (Hall hN HinN) as (_ & HsN & _).
  destruct (summary h0) as [s0|] eqn:Es0; [|contradiction].
  destruct (summary hN) as [sN|] eqn:EsN; [|contradiction].
  cbn [item bind].
  unfold get_summary. rewrite Es0, EsN. cbn [item bind]. rewrite Hlo, Hhi. cbn [bind].
  destruct (String.eqb s0 sN); eexists; reflexivity.
Qed.

Lemma process_temperature_defined (sc : scale) (hours days : list wx) (pfx : string) :
  hours <> [] ->
  Forall complete_hour hours ->
  exists answer, process_temperature sc (Ranged hours days) pfx = Ret answer.
Proof.
  intros Hne Hall. unfold process_temperature.
  assert (Htemp : Forall (fun w => temperature w <> None) hours)
    by (eapply Forall_impl; [|exact Hall]; intros w (_ & _ & _ & H & _); exact H).
  destruct hours as [|h0 [|h1 rest]]; [contradiction| |].
  - pose proof (Forall_inv Htemp) as H. cbv beta in H. field_present H.
    cbn [item bind]. eexists. reflexivity.
  - rewrite (temperatures_defined _ Htemp). cbn [bind].
    assert (Htemps : map temp_of (h0 :: h1 :: rest) <> []) by discriminate.
    destruct (min_defined _ Htemps) as (lo & ->).
    destruct (max_defined _ Htemps) as (hi & ->).
    eexists. reflexivity.
Qed.

Lemma process_has_ranged_defined (what : pystr) (sc : scale) (hours days : list wx)
    (pfx : string) :
  sc <> currently ->
  Forall complete_hour hours ->
  exists answer, process_has utc_offset what sc (Ranged hours days) pfx = Ret answer.
Proof.
  intros Hsc Hall.
  assert (Hicons : Forall (fun w => icon w <> None) hours)
    by (eapply Forall_impl; [|exact Hall]; intros w (_ & _ & H & _); exact H).
  rewrite Forall_forall in Hall.
  destruct (py_eq what Lit.sun) eqn:Hsun.
  - rewrite (process_has_sun_eq utc_offset what sc hours days pfx Hsun Hsc Hicons).
    destruct (chosen_sun hours) as [w|] eqn:Hch; [|eexists; reflexivity].
    destruct (Hall w (chosen_sun_In hours w Hch)) as (Ht & _).
    field_present Ht. eexists. reflexivity.
  - rewrite (process_has_ranged_eq utc_offset what sc hours days pfx Hsun Hsc Hicons).
    destruct (chosen what hours) as [w|] eqn:Hch; [|eexists; reflexivity].
    destruct (Hall w (chosen_In what hours w Hch)) as (Ht & _ & _ & _ & Hp).
    field_present Ht. field_present Hp. cbn [item bind].
    destruct (Num.ltb v0 (3 # 10)); eexists; reflexivity.
Qed.

Lemma process_has_now_defined (what : pystr) (w : wx) (pfx : string) :
  exists answer, process_has utc_offset what currently (Current w) pfx = Ret answer.
Proof.
  unfold process_has.
  repeat match goal with
         | |- context [if ?c then _ else _] => destruct c
         | |- context [match ?o with Some _ => _ | None => _ end] => destruct o
         end; eexists; reflexivity.
Qed.

(** X17. On a complete payload (current record and both series present, no
    key missing in any record) [process_response] never raises: for every
    intent, phrase and clock it returns an answer or [None]. *)
Theorem process_response_never_raises (now : Z) (intent_name : string)
    (weather : payload) (time_string : option string) :
  complete weather ->
  exists answer,
    process_response utc_offset now intent_name weather time_string = Ret answer.
Proof.
  intros (c & hs & ds & Hc & (Hcs & Hct) & Hh & Hhs & Hd & Hds).
  destruct (get_timerange_forms utc_offset now time_string) as (r & Hr & Hform).
  unfold process_response. rewrite Hr. cbn [bind item].
  assert (Hranged : tr_scale r <> currently ->
            forall lo hi, tme_from r = Some lo -> tme_to r = Some hi ->
            exists answer,
              match select_weather weather (tr_scale r) (tme_from r) (tme_to r) with
              | None => Ret None
              | Some sel =>
                  if first_slot_empty sel
                     || (scale_eqb (tr_scale r) daily && second_slot_empty sel)
                  then Ret None
                  else if String.eqb intent_name "s710:getForecast" then
                    process_forecast utc_offset (tr_scale r) sel (prefix r)
                  else if String.eqb intent_name "s710:getTemperature" then
                    process_temperature (tr_scale r) sel (prefix r)
                  else if String.eqb intent_name "s710:hasRain" then
                    process_has utc_offset Lit.rain (tr_scale r) sel (prefix r)
                  else if String.eqb intent_name "s710:hasSun" then
                    process_has utc_offset Lit.sun (tr_scale r) sel (prefix r)
                  else if String.eqb intent_name "s710:hasSnow" then
                    process_has utc_offset Lit.snow (tr_scale r) sel (prefix r)
                  else Ret None
              end = Ret answer).
  { intros Hsc lo hi Hlo Hhi. rewrite Hlo, Hhi.
    rewrite (select_weather_ranged weather (tr_scale r) lo hi hs ds Hsc Hh Hd)
      by (eapply Forall_impl; [|eassumption]; intros w (H & _); exact H).
    pose proof (Forall_filter_keep _ (within lo hi) hs Hhs) as Hhours.
    pose proof (Forall_filter_keep _ (within lo hi) ds Hds) as Hdays.
    destruct (filter (within lo hi) hs) as [|h hours] eqn:Hsel;
      [eexists; reflexivity|].
    cbn [first_slot_empty second_slot_empty is_nil orb].
    assert (Hne : h :: hours <> []) by discriminate.
    destruct (String.eqb intent_name "s710:getForecast").
    { destruct (tr_scale r) eqn:Hscale; [contradiction| |]; cbn [scale_eqb andb].
      - apply process_forecast_hourly_defined; assumption.
      - destruct (filter (within lo hi) ds) as [|d days] eqn:Hdsel;
          [eexists; reflexivity|]. cbn [is_nil].
        apply process_forecast_daily_defined; [discriminate|assumption]. }
    destruct (String.eqb intent_name "s710:getTemperature").
    { destruct (scale_eqb (tr_scale r) daily && is_nil (filter (within lo hi) ds));
        [eexists; reflexivity|].
      apply process_temperature_defined; assumption. }
    destruct (scale_eqb (tr_scale r) daily && is_nil (filter (within lo hi) ds));
      [eexists; reflexivity|].
    repeat match goal with
           | |- context [String.eqb intent_name ?s] =>
               destruct (String.eqb intent_name s);
               [apply process_has_ranged_defined; assumption|]
           end.
    eexists. reflexivity. }
  destruct Hform as [->|[(d & len & (Hs & Hlo & Hhi) & _)
                        |(p & sym & hf & len & _ & _ & _ & (Hs & Hlo & Hhi) & _)]].
  - unfold select_weather. cbn [jetzt tr_scale tme_from tme_to prefix scale_eqb].
    rewrite Hc. cbn [item bind first_slot_empty second_slot_empty andb].
    rewrite (wx_with_summary_not_empty c Hcs). cbn [orb].
    destruct (String.eqb intent_name "s710:getForecast").
    { unfold process_forecast, get_summary.
      field_present Hcs. field_present Hct. cbn [item bind]. eexists. reflexivity. }
    destruct (String.eqb intent_name "s710:getTemperature").
    { unfold process_temperature. field_present Hct. eexists. reflexivity. }
    repeat match goal with
           | |- context [String.eqb intent_name ?s] =>
               destruct (String.eqb intent_name s);
               [apply process_has_now_defined|]
           end.
    eexists. reflexivity.
  - eapply Hranged; [congruence|eassumption|eassumption].
  - eapply Hranged; [congruence|eassumption|eassumption].
Qed.

End PipelineTotal.

(** X17 on the rainy day, asked for rain "heute nachmittag". *)
Lemma process_response_never_raises_witness :
  exists answer,
    process_response 0 0 "s710:hasRain" Sample.rainy_day (Some "heute nachmittag")
    = Ret answer.
Proof.
  apply (process_response_never_raises 0 0 "s710:hasRain" Sample.rainy_day
           (Some "heute nachmittag")).
  exists (Sample.rainy 0 (8 # 10)),
         [Sample.rainy 50400 (8 # 10); Sample.rainy 54000 (6 # 10)],
         [Sample.day 0 "Regen"].
  split; [reflexivity|]. split; [split; discriminate|].
  split; [reflexivity|]. split; [repeat constructor; discriminate|].
  split; [reflexivity|]. repeat constructor; discriminate.
Defined.

Example rain_this_afternoon :
  process_response 0 0 "s710:hasRain" Sample.rainy_day (Some "heute nachmittag")
  = Ret (Some "Gegen 14:00 Uhr wird es regnen.").
Proof. reflexivity. Qed.

Section PipelineMore.

Variable utc_offset : Z.

(** X11. A daily range in which no daily record lies gives no answer,
    whatever the intent and the hourly series. *)
Theorem process_response_no_days (now : Z) (intent_name : string)
    (weather : payload) (time_string : option string) (r : TimeRange)
    (lo hi : Z) (ds : list wx) :
  get_timerange utc_offset now time_string = Ret (Some r) ->
  tr_scale r = daily ->
  tme_from r = Some lo ->
  tme_to r = Some hi ->
  p_daily weather = Some ds ->
  Forall timed ds ->
  filter (within lo hi) ds = [] ->
  process_response utc_offset now intent_name weather time_string = Ret None.
Proof.
  intros Hr Hsc Hlo Hhi Hd Hds Hnone.
  unfold process_response. rewrite Hr. cbn [bind item].
  unfold select_weather. rewrite Hsc, Hlo, Hhi. cbn [scale_eqb].
  destruct (p_hourly weather) as [hs|]; cbn [item bind]; [|reflexivity].
  destruct (filter_py (in_range (Some lo) (Some hi)) hs) as [hours|];
    cbn [bind]; [|reflexivity].
  rewrite Hd. cbn [item bind].
  rewrite (filter_py_in_range lo hi ds Hds), Hnone. cbn [bind].
  cbn [first_slot_empty second_slot_empty is_nil andb]. rewrite orb_true_r.
  reflexivity.
Qed.

(** X18. An intent outside the five known ones gets no answer and raises
    nothing, for every payload, phrase and clock. *)
Theorem process_response_unknown_intent (now : Z) (intent_name : string)
    (weather : payload) (time_string : option string) :
  ~ In intent_name known_intents ->
  process_response utc_offset now intent_name weather time_string = Ret None.
Proof.
  intros Hunknown.
  destruct (get_timerange_forms utc_offset now time_string) as (r & Hr & _).
  unfold process_response. rewrite Hr. cbn [bind item].
  destruct (select_weather weather (tr_scale r) (tme_from r) (tme_to r)) as [sel|];
    [|reflexivity].
  destruct (first_slot_empty sel || scale_eqb (tr_scale r) daily && second_slot_empty sel);
    [reflexivity|].
  repeat match goal with
         | |- context [String.eqb intent_name ?s] =>
             destruct (String.eqb_spec intent_name s) as [Heq|_];
             [exfalso; apply Hunknown; rewrite Heq; unfold known_intents; cbn [In]; tauto|]
         end.
  reflexivity.
Qed.

(** X19. Without a time phrase the answer is made of the current record
    alone: neither the clock nor the two series change it. *)
Theorem process_response_now_only (now now' : Z) (intent_name : string)
    (weather weather' : payload) :
  p_currently weather = p_currently weather' ->
  process_response utc_offset now intent_name weather None
  = process_response utc_offset now' intent_name weather' None.
Proof.
  intros H. unfold process_response, get_timerange, select_weather.
  cbn [bind item jetzt tr_scale tme_from tme_to prefix scale_eqb].
  rewrite H. reflexivity.
Qed.

End PipelineMore.

(** X11 at "heute" on a payload with an hour of today and no day but
    tomorrow. *)
Lemma process_response_no_days_witness :
  process_response 0 0 "s710:getTemperature"
    {| p_currently := None; p_hourly := Some [Sample.rainy 50400 (8 # 10)];
       p_daily := Some [Sample.day 86400 "Regen"] |}
    (Some "heute")
  = Ret None.
Proof.
  apply (process_response_no_days 0 0 "s710:getTemperature" _ (Some "heute")
           {| tr_scale := daily; tme_from := Some 0; tme_to := Some 86399;
              prefix := "Heute" |}
           0 86399 [Sample.day 86400 "Regen"]).
  - reflexivity.
  - reflexivity.
  - reflexivity.
  - reflexivity.
  - reflexivity.
  - repeat constructor; discriminate.
  - reflexivity.
Defined.

(** X18 for an intent of another skill. *)
Lemma process_response_unknown_intent_witness :
  process_response 0 0 "s710:getHumidity" Sample.rainy_day (Some "heute") = Ret None.
Proof.
  apply (process_response_unknown_intent 0 0 "s710:getHumidity" Sample.rainy_day
           (Some "heute")).
  unfold known_intents. cbn [In].
  intros [H|[H|[H|[H|[H|H]]]]]; try discriminate H. exact H.
Defined.

(** X19 for the rainy day with and without its series. *)
Lemma process_response_now_only_witness :
  process_response 0 0 "s710:getTemperature" Sample.rainy_day None
  = process_response 0 86400 "s710:getTemperature"
      {| p_currently := Some (Sample.rainy 0 (8 # 10)); p_hourly := None;
         p_daily := None |} None.
Proof.
  apply (process_response_now_only 0 0 86400 "s710:getTemperature").
  reflexivity.
Defined.

(** * Further properties of the forecast *)

Lemma append_assoc (a b c : string) : (a ++ b) ++ c = a ++ b ++ c.
Proof.
  induction a as [|x a IH]; cbn [append]; [reflexivity|]. rewrite IH. reflexivity.
Qed.

Section ForecastMore.

Variable utc_offset : Z.

(** X20. The days named after "Vermutlich ... am" never include the first
    day of the range: with or without the icon, the first record is passed
    over. *)
Theorem days_with_icon_skips_first (name : string) (d0 : wx) (rest : list wx)
    (t0 : Z) :
  time d0 = Some t0 ->
  icon d0 <> None ->
  days_with_icon utc_offset name (d0 :: rest) t0
  = days_with_icon utc_offset name rest t0.
Proof.
  intros Ht Hi. unfold days_with_icon. cbn [filter_py].
  destruct (icon d0) as [i|]; [|contradiction]. cbn [item bind].
  destruct (String.eqb (text i) name).
  - rewrite Ht. cbn [item bind]. rewrite Z.eqb_refl. cbn [negb].
    destruct (filter_py _ rest); reflexivity.
  - cbn [bind]. destruct (filter_py _ rest); reflexivity.
Qed.

(** X21. The forecast of an hourly range that is not empty, over hours with
    summary and temperature, ends with "Temperaturen zwischen a und b Grad."
    where a <= b and the rounded temperature of every hour lies between the
    two. *)
Theorem process_forecast_hourly_bounds (hours days : list wx) (pfx : string) :
  hours <> [] ->
  Forall (fun w => summary w <> None /\ temperature w <> None) hours ->
  exists head a b,
    process_forecast utc_offset hourly (Ranged hours days) pfx
    = Ret (Some ("Wetter " ++ pfx ++ ": " ++ head ++ " Temperaturen zwischen "
                 ++ str a ++ " und " ++ str b ++ " Grad."))
    /\ a <= b
    /\ (forall w t, In w hours -> temperature w = Some t -> a <= Num.round t <= b).
Proof.
  intros Hne Hall.
  assert (Htemp : Forall (fun w => temperature w <> None) hours)
    by (eapply Forall_impl; [|exact Hall]; intros w [_ H]; exact H).
  assert (Htemps : map temp_of hours <> [])
    by (destruct hours; [contradiction|discriminate]).
  destruct (min_spec _ Htemps) as (lo & Hmin & Hlo_in & Hlo).
  destruct (max_spec _ Htemps) as (hi & Hmax & Hhi_in & Hhi).
  rewrite Forall_forall in Hlo, Hhi.
  assert (Hbounds : Num.round lo <= Num.round hi
            /\ (forall w t, In w hours -> temperature w = Some t ->
                            Num.round lo <= Num.round t <= Num.round hi)).
  { split; [apply round_monotone, Hhi, Hlo_in|].
    intros w t Hw Ht.
    assert (Hin : In t (map temp_of hours)).
    { replace t with (temp_of w) by (unfold temp_of; rewrite Ht; reflexivity).
      apply in_map. exact Hw. }
    split; apply round_monotone; [apply Hlo|apply Hhi]; exact Hin. }
  destruct (nth_error_last_In hours Hne) as (hN & HN & HinN).
  assert (Hanswer : exists head,
            process_forecast utc_offset hourly (Ranged hours days) pfx
            = Ret (Some ("Wetter " ++ pfx ++ ": " ++ head ++ " Temperaturen zwischen "
                         ++ str (Num.round lo) ++ " und " ++ str (Num.round hi)
                         ++ " Grad."))).
  { unfold process_forecast.
    rewrite (temperatures_defined _ Htemp). cbn [bind]. rewrite HN.
    rewrite Forall_forall in Hall.
    destruct (Hall hN HinN) as [HsN _]. clear HN.
    destruct hours as [|h0 rest]; [contradiction|].
    destruct (Hall h0 ltac:(left; reflexivity)) as [Hs0 _].
    cbn [nth_error item bind].
    destruct (summary h0) as [s0|] eqn:Es0; [|contradiction].
    destruct (summary hN) as [sN|] eqn:EsN; [|contradiction].
    cbn [item bind].
    destruct (String.eqb s0 sN).
    - rewrite (get_summary_with_dot h0 s0 Es0). cbn [bind]. rewrite Hmin, Hmax.
      cbn [bind]. eexists. reflexivity.
    - destruct (get_summary h0 true) as [bare|] eqn:Hbare;
        [|unfold get_summary in Hbare; rewrite Es0 in Hbare; discriminate Hbare].
      cbn [bind]. rewrite (get_summary_with_dot hN sN EsN). cbn [bind].
      rewrite Hmin, Hmax. cbn [bind].
      exists (bare ++ " bis " ++ with_dot sN).
      rewrite !append_assoc. reflexivity. }
  destruct Hanswer as (head & Hanswer).
  exists head, (Num.round lo), (Num.round hi).
  split; [exact Hanswer|exact Hbounds].
Qed.

End ForecastMore.

(** X20 for a rainy first day. *)
Lemma days_with_icon_skips_first_witness :
  days_with_icon 0 "rain" [Sample.day 0 "Regen"; Sample.day 86400 "Regen"] 0
  = days_with_icon 0 "rain" [Sample.day 86400 "Regen"] 0.
Proof.
  apply (days_with_icon_skips_first 0 "rain" (Sample.day 0 "Regen")
           [Sample.day 86400 "Regen"] 0).
  - reflexivity.
  - discriminate.
Defined.

Example rain_after_the_first_day :
  days_with_icon 0 "rain" [Sample.day 0 "Regen"; Sample.day 86400 "Regen"] 0
  = Ret ["Freitag"].
Proof. reflexivity. Qed.

(** X21 for the two hours of the rainy day. *)
Lemma process_forecast_hourly_bounds_witness :
  exists head a b,
    process_forecast 0 hourly
      (Ranged [Sample.rainy 50400 (8 # 10); Sample.rainy 54000 (6 # 10)] [])
      "Heute nachmittag"
    = Ret (Some ("Wetter " ++ "Heute nachmittag" ++ ": " ++ head
                 ++ " Temperaturen zwischen " ++ str a ++ " und " ++ str b ++ " Grad."))
    /\ a <= b
    /\ (forall w t,
          In w [Sample.rainy 50400 (8 # 10); Sample.rainy 54000 (6 # 10)] ->
          temperature w = Some t -> a <= Num.round t <= b).
Proof.
  apply (process_forecast_hourly_bounds 0
           [Sample.rainy 50400 (8 # 10); Sample.rainy 54000 (6 # 10)] []
           "Heute nachmittag").
  - discriminate.
  - repeat constructor; discriminate.
Defined.

(** * Zones whose offset changes *)

(** ** The library's algorithms where the offset is stable *)

Lemma stable_narrow (offset : Z -> Z) (c lo hi lo' hi' : Z) :
  Zoned.stable offset c lo hi -> lo <= lo' -> hi' <= hi ->
  Zoned.stable offset c lo' hi'.
Proof. intros H Hlo Hhi u Hu. apply H. lia. Qed.

Lemma zfromtimestamp_stable (offset : Z -> Z) (c epoch : Z) :
  Zoned.stable offset c (epoch - 86400) epoch ->
  Zoned.fromtimestamp offset epoch
  = {| Zoned.naive := fromtimestamp c epoch; Zoned.fold := false |}.
Proof.
  intros H. unfold Zoned.fromtimestamp, Zoned.local, Zoned.max_fold_seconds.
  cbv zeta. rewrite (H epoch), (H (epoch - 24 * 3600)) by lia.
  destruct (Z.ltb_spec (epoch + c - (epoch - 24 * 3600 + c) - 24 * 3600) 0) as [Hlt|_];
    [lia|reflexivity].
Qed.

Lemma ztimestamp_stable (offset : Z -> Z) (c : Z) (dt : Zoned.zdatetime) :
  -86400 <= c <= 86400 ->
  Zoned.stable offset c (timestamp c (Zoned.naive dt) - 86400)
    (timestamp c (Zoned.naive dt) + 86400) ->
  Zoned.timestamp offset dt = timestamp c (Zoned.naive dt).
Proof.
  intros Hc H. unfold Zoned.timestamp, Zoned.local, Zoned.max_fold_seconds.
  unfold timestamp in *. fold (Zoned.seconds (Zoned.naive dt)) in *.
  set (t := Zoned.seconds (Zoned.naive dt)) in *. cbv zeta.
  rewrite (H t) by lia.
  replace (t - (t + c - t)) with (t - c) by lia.
  rewrite (H (t - c)) by lia.
  destruct (Z.eqb_spec (t - c + c) t) as [_|Hne]; [|lia].
  destruct (Zoned.fold dt).
  - rewrite (H (t - c + 24 * 3600)) by lia.
    destruct (Z.eqb_spec (t + c - t) (t - c + 24 * 3600 + c - (t - c + 24 * 3600)))
      as [_|Hne]; [reflexivity|lia].
  - rewrite (H (t - c - 24 * 3600)) by lia.
    destruct (Z.eqb_spec (t + c - t) (t - c - 24 * 3600 + c - (t - c - 24 * 3600)))
      as [_|Hne]; [reflexivity|lia].
Qed.

Lemma ztimestamp_near (offset : Z -> Z) (c lo hi : Z) (dt : Zoned.zdatetime) :
  -86400 <= c <= 86400 ->
  Zoned.stable offset c lo hi ->
  lo + 86400 <= timestamp c (Zoned.naive dt) <= hi - 86400 ->
  Zoned.timestamp offset dt = timestamp c (Zoned.naive dt).
Proof.
  intros Hc H Hnear. apply ztimestamp_stable; [exact Hc|].
  eapply stable_narrow; [exact H|lia|lia].
Qed.

(** The range of a side condition: the reading a naive datetime stands for,
    by its day and its time of day. *)
Ltac near_by e c :=
  cbn [Zoned.naive Zoned.zreplace Zoned.zplus_days];
  unfold timestamp, replace, plus_days, weekday, fromtimestamp;
  cbn [date hour minute second];
  pose proof (Z.div_mod (e + c) 86400 ltac:(lia));
  pose proof (Z.mod_pos_bound (e + c) 86400 ltac:(lia));
  pose proof (Z.mod_pos_bound ((e + c) / 86400 + 3) 7 ltac:(lia));
  lia.

Section ZonedBridge.

Variable offset : Z -> Z.
Variable c : Z.
Hypothesis c_bound : -86400 <= c <= 86400.

Lemma zget_day_range_stable (epoch : Z) (pfx : string) :
  Zoned.stable offset c (epoch - 172800) (epoch + 172800) ->
  Zoned.get_day_range offset epoch pfx = get_day_range c epoch pfx.
Proof.
  intros H. unfold Zoned.get_day_range, get_day_range.
  rewrite (zfromtimestamp_stable offset c epoch)
    by (eapply stable_narrow; [exact H|lia|lia]).
  rewrite !(ztimestamp_near offset c (epoch - 172800) (epoch + 172800))
    by (first [exact c_bound|exact H|near_by epoch c]).
  reflexivity.
Qed.

Lemma zget_hour_range_stable (epoch hf ht : Z) (pfx : string) :
  0 <= hf <= 23 ->
  ht = -1 \/ 0 <= ht <= 23 ->
  Zoned.stable offset c (epoch - 172800) (epoch + 259200) ->
  Zoned.get_hour_range offset epoch hf ht pfx = get_hour_range c epoch hf ht pfx.
Proof.
  intros Hhf Hht H. unfold Zoned.get_hour_range, get_hour_range.
  rewrite (zfromtimestamp_stable offset c epoch)
    by (eapply stable_narrow; [exact H|lia|lia]).
  rewrite (zfromtimestamp_stable offset c (epoch + 1 * 24 * 60 * 60))
    by (eapply stable_narrow; [exact H|lia|lia]).
  pose proof (day_start_le c epoch) as Hd.
  pose proof (day_start_le c (epoch + 1 * 24 * 60 * 60)) as Hd'.
  destruct (ht =? -1) eqn:Hnight.
  - rewrite !(ztimestamp_near offset c (epoch - 172800) (epoch + 259200))
      by (first [exact c_bound|exact H
                |cbn [Zoned.naive Zoned.zreplace]; rewrite timestamp_replace; lia]).
    reflexivity.
  - apply Z.eqb_neq in Hnight.
    rewrite !(ztimestamp_near offset c (epoch - 172800) (epoch + 259200))
      by (first [exact c_bound|exact H
                |cbn [Zoned.naive Zoned.zreplace]; rewrite timestamp_replace; lia]).
    reflexivity.
Qed.

Lemma zget_subrange_stable (phrase : string) (epoch : Z) (pfx : string) :
  Zoned.stable offset c (epoch - 172800) (epoch + 259200) ->
  Zoned.get_subrange offset phrase epoch pfx = get_subrange c phrase epoch pfx.
Proof.
  intros H. unfold Zoned.get_subrange, get_subrange.
  rewrite !zget_hour_range_stable by (first [exact H|lia]).
  reflexivity.
Qed.

Lemma zget_weekend_range_stable (now : Z) :
  Zoned.stable offset c (now - 691200) (now + 1296000) ->
  Zoned.get_weekend_range offset now = get_weekend_range c now.
Proof.
  intros H. unfold Zoned.get_weekend_range, get_weekend_range, Zoned.zweekday.
  rewrite (zfromtimestamp_stable offset c now)
    by (eapply stable_narrow; [exact H|lia|lia]).
  cbv zeta. cbn [Zoned.naive Zoned.zreplace Zoned.zplus_days].
  rewrite !(ztimestamp_near offset c (now - 691200) (now + 1296000))
    by (first [exact c_bound|exact H|near_by now c]).
  reflexivity.
Qed.

Lemma zget_week_range_stable (now : Z) (phrase : string) :
  Zoned.stable offset c (now - 691200) (now + 1296000) ->
  Zoned.get_week_range offset now phrase = get_week_range c now phrase.
Proof.
  intros H. unfold Zoned.get_week_range, get_week_range, Zoned.zweekday.
  rewrite (zfromtimestamp_stable offset c now)
    by (eapply stable_narrow; [exact H|lia|lia]).
  cbv zeta. cbn [Zoned.naive Zoned.zreplace Zoned.zplus_days].
  rewrite !(ztimestamp_near offset c (now - 691200) (now + 1296000))
    by (first [exact c_bound|exact H|near_by now c]).
  reflexivity.
Qed.

Lemma zget_weekday_stable (now : Z) (day : nat) :
  Zoned.stable offset c (now - 691200) (now + 1296000) ->
  Zoned.get_weekday offset now day = get_weekday c now day.
Proof.
  intros H. unfold Zoned.get_weekday, get_weekday, Zoned.zweekday.
  rewrite (zfromtimestamp_stable offset c now)
    by (eapply stable_narrow; [exact H|lia|lia]).
  cbv zeta. cbn [Zoned.naive Zoned.zreplace Zoned.zplus_days].
  destruct (nth_error weekdays day) as [name|] eqn:Hname; [|reflexivity].
  pose proof (nth_error_weekdays_lt day name Hname) as Hday.
  destruct (Z.of_nat day - weekday (replace (fromtimestamp c now) 0 0 0) <=? 0);
    rewrite !(ztimestamp_near offset c (now - 691200) (now + 1296000))
      by (first [exact c_bound|exact H|near_by now c]);
    reflexivity.
Qed.

(** Where the offset does not change from two days before the reading to
    five days after it, the phrases past the weekday and week rules are
    resolved as at the fixed offset. *)
Lemma zget_timerange_near (now : Z) (phrase : string) :
  Zoned.stable offset c (now - 172800) (now + 432000) ->
  contained_weekdays phrase = [] ->
  contains "woche" phrase = false ->
  Zoned.get_timerange offset now (Some phrase) = get_timerange c now (Some phrase).
Proof.
  intros H Hdays Hwoche. unfold Zoned.get_timerange, get_timerange.
  rewrite Hdays, (no_woche_no_wochenende phrase Hwoche), Hwoche.
  rewrite !zget_day_range_stable by (eapply stable_narrow; [exact H|lia|lia]).
  rewrite !zget_subrange_stable by (eapply stable_narrow; [exact H|lia|lia]).
  reflexivity.
Qed.

(** Where the offset does not change from eight days before the reading to
    fifteen days after it, every phrase is resolved as at the fixed offset. *)
Lemma zget_timerange_stable (now : Z) (time_string : option string) :
  Zoned.stable offset c (now - 691200) (now + 1296000) ->
  Zoned.get_timerange offset now time_string = get_timerange c now time_string.
Proof.
  intros H. destruct time_string as [phrase|]; [|reflexivity].
  unfold Zoned.get_timerange, get_timerange.
  rewrite zget_weekend_range_stable, zget_week_range_stable by exact H.
  rewrite !zget_day_range_stable by (eapply stable_narrow; [exact H|lia|lia]).
  rewrite !zget_subrange_stable by (eapply stable_narrow; [exact H|lia|lia]).
  destruct (String.eqb phrase ""); [reflexivity|].
  destruct (contained_weekdays phrase); [reflexivity|].
  destruct (index s weekdays) as [day|]; [|reflexivity].
  cbn [bind]. rewrite zget_weekday_stable by exact H. reflexivity.
Qed.

End ZonedBridge.

(** ** The resolver where the offset is stable *)

Lemma get_subrange_crossing (c : Z) (phrase : string) (epoch : Z) (pfx : string) :
  contained_day_range_symbols phrase <> [] ->
  exists hf ht sfx,
    get_subrange c phrase epoch pfx = Some (get_hour_range c epoch hf ht (pfx ++ sfx))
    /\ ((contained_day_range_symbols phrase = ["nacht"]
         /\ hf = 22 /\ ht = -1 /\ sfx = " nacht")
        \/ (contained_day_range_symbols phrase <> ["nacht"]
            /\ ht <> -1 /\ 6 <= hf /\ hf < ht /\ ht <= 22)).
Proof.
  unfold get_subrange, contained_day_range_symbols, day_range_symbols.
  cbn [filter]. intros Hne.
  destruct (contains "früh" phrase), (contains "vormittag" phrase),
    (contains "mittag" phrase), (contains "nachmittag" phrase),
    (contains "abend" phrase), (contains "nacht" phrase);
    try (exfalso; apply Hne; reflexivity);
    eexists _, _, _; (split; [reflexivity|]);
    first [left; repeat split; reflexivity
          |right; split; [discriminate|lia]].
Qed.

Section ZonedResolver.

Variable offset : Z -> Z.
Variable c : Z.
Hypothesis c_bound : -86400 <= c <= 86400.

(** C4, amended. In a zone whose offset does not change from two days before
    the reading to five days after it, a phrase with a day-range keyword that
    no earlier rule takes (no weekday name, no "woche", no "bermorgen" at its
    end) gets an hourly range on its base day.  With "nacht" as its only
    keyword the range runs from 22:00 of the base day to 03:00 of the
    following day, so that the end is after the start and one day later; with
    any other keyword the range lies within the base day: "nacht" is the only
    keyword that crosses midnight. *)
Theorem get_timerange_night_zoned (now : Z) (phrase : string) :
  Zoned.stable offset c (now - 172800) (now + 432000) ->
  contained_weekdays phrase = [] ->
  contains "woche" phrase = false ->
  endswith phrase "bermorgen" = false ->
  contained_day_range_symbols phrase <> [] ->
  resolves_keyword offset c now phrase.
Proof.
  intros Hstable Hdays Hwoche Hends Hsyms. unfold resolves_keyword.
  rewrite (zget_timerange_near offset c c_bound now phrase Hstable Hdays Hwoche).
  assert (Hpath : exists epoch,
             local_day c epoch = local_day c now + fst (base_day phrase)
             /\ get_timerange c now (Some phrase)
                = Ret (get_subrange c phrase epoch (snd (base_day phrase)))).
  { unfold get_timerange, base_day.
    destruct (String.eqb_spec phrase "") as [->|_]; [exfalso; apply Hsyms; reflexivity|].
    rewrite Hdays, (no_woche_no_wochenende phrase Hwoche), Hwoche. cbn [orb andb].
    destruct (String.eqb_spec phrase "heute") as [->|_];
      [exfalso; apply Hsyms; reflexivity|].
    destruct (String.eqb_spec phrase "morgen") as [->|_];
      [exfalso; apply Hsyms; reflexivity|].
    rewrite Hends.
    destruct (contained_day_range_symbols phrase) as [|sym syms]; [contradiction|].
    destruct (contains "bermorgen" phrase); [|destruct (contains "morgen" phrase)];
      cbn [fst snd]; eexists; (split; [|reflexivity]);
      rewrite ?local_day_shift; lia. }
  destruct Hpath as (epoch & Hday & ->).
  destruct (get_subrange_crossing c phrase epoch (snd (base_day phrase)) Hsyms)
    as (hf & ht & sfx & -> & Hcase).
  destruct Hcase as [(Honly & -> & -> & ->)|(Hother & Hne & Hlo & Hlt & Hhi)].
  - rewrite get_hour_range_night.
    eexists _, _, _. split; [reflexivity|]. cbn [tr_scale tme_from tme_to prefix].
    assert (Hfrom : local_day c (day_start c (local_day c epoch) + 22 * 3600)
                    = local_day c epoch) by (apply local_day_of_day_start; lia).
    assert (Hto : local_day c (day_start c (local_day c epoch + 1) + 3 * 3600)
                  = local_day c epoch + 1) by (apply local_day_of_day_start; lia).
    split; [reflexivity|]. split; [reflexivity|]. split; [reflexivity|].
    split; [unfold day_start; lia|]. split; [rewrite Hfrom; exact Hday|].
    split; [|intros H; contradiction].
    intros _. rewrite Hfrom, Hto. repeat split; reflexivity.
  - rewrite get_hour_range_eq by exact Hne.
    eexists _, _, _. split; [reflexivity|]. cbn [tr_scale tme_from tme_to prefix].
    assert (Hfrom : local_day c (day_start c (local_day c epoch) + hf * 3600)
                    = local_day c epoch) by (apply local_day_of_day_start; lia).
    assert (Hto : local_day c (day_start c (local_day c epoch) + ht * 3600)
                  = local_day c epoch) by (apply local_day_of_day_start; lia).
    split; [reflexivity|]. split; [reflexivity|]. split; [reflexivity|].
    split; [lia|]. split; [rewrite Hfrom; exact Hday|].
    split; [intros H; contradiction|].
    intros _. rewrite Hfrom, Hto. reflexivity.
Qed.

(** Where the offset does not change from eight days before the reading to
    fifteen days after it, the range of the resolver satisfies the invariant
    of the data model. *)
Lemma get_timerange_invariant_stable (now : Z) (time_string : option string) :
  Zoned.stable offset c (now - 691200) (now + 1296000) ->
  exists r, Zoned.get_timerange offset now time_string = Ret (Some r)
            /\ range_invariant r.
Proof.
  intros H. rewrite (zget_timerange_stable offset c c_bound now time_string H).
  apply get_timerange_invariant.
Qed.

(** X1. Two readings on the same local day, with no change of the zone's
    offset from eight days before to fifteen days after either, give the same
    range for every phrase. *)
Theorem zoned_get_timerange_same_day (now now' : Z) (time_string : option string) :
  Zoned.stable offset c (now - 691200) (now + 1296000) ->
  Zoned.stable offset c (now' - 691200) (now' + 1296000) ->
  local_day c now = local_day c now' ->
  Zoned.get_timerange offset now time_string
  = Zoned.get_timerange offset now' time_string.
Proof.
  intros H H' Hday.
  rewrite (zget_timerange_stable offset c c_bound now time_string H).
  rewrite (zget_timerange_stable offset c c_bound now' time_string H').
  apply get_timerange_same_day. exact Hday.
Qed.

(** X2. Asking [k] weeks later, with the same offset of the zone around both
    readings, moves the range by [k] weeks and changes nothing else. *)
Theorem zoned_get_timerange_weeks_later (now k : Z) (time_string : option string) :
  Zoned.stable offset c (now - 691200) (now + 1296000) ->
  Zoned.stable offset c (now + k * 604800 - 691200) (now + k * 604800 + 1296000) ->
  Zoned.get_timerange offset (now + k * 604800) time_string
  = shift_result (k * 604800) (Zoned.get_timerange offset now time_string).
Proof.
  intros H H'.
  rewrite (zget_timerange_stable offset c c_bound now time_string H).
  rewrite (zget_timerange_stable offset c c_bound (now + k * 604800) time_string H').
  apply get_timerange_weeks_later.
Qed.

(** X5. With no change of the zone's offset within two days of the reading,
    [get_day_range] is the local day of the reading: the range starts at a
    local midnight, ends 86399 seconds later and holds the reading. *)
Theorem zoned_get_day_range_holds_reading (epoch : Z) (pfx : string) :
  Zoned.stable offset c (epoch - 172800) (epoch + 172800) ->
  exists lo,
    Zoned.get_day_range offset epoch pfx
    = {| tr_scale := daily; tme_from := Some lo; tme_to := Some (lo + 86399);
         prefix := pfx |}
    /\ (lo + c) mod 86400 = 0
    /\ lo <= epoch <= lo + 86399.
Proof.
  intros H. rewrite (zget_day_range_stable offset c c_bound epoch pfx H).
  apply get_day_range_holds_reading.
Qed.

(** X6. With no change of the zone's offset from eight days before the
    reading to fifteen days after it, every hourly range of the resolver
    starts on the base day of the phrase (today, tomorrow or the day after),
    lasts three to five hours and carries the label of the base day and a
    keyword of the phrase. *)
Theorem zoned_get_timerange_hourly_shape (now : Z) (phrase : string) (r : TimeRange) :
  Zoned.stable offset c (now - 691200) (now + 1296000) ->
  Zoned.get_timerange offset now (Some phrase) = Ret (Some r) ->
  tr_scale r = hourly ->
  exists sym lo hi,
    In sym day_range_symbols
    /\ contains sym phrase = true
    /\ prefix r = snd (base_day phrase) ++ " " ++ sym
    /\ tme_from r = Some lo
    /\ tme_to r = Some hi
    /\ local_day c lo = local_day c now + fst (base_day phrase)
    /\ 0 <= fst (base_day phrase) <= 2
    /\ 10800 <= hi - lo <= 18000.
Proof.
  intros H Hr Hscale.
  rewrite (zget_timerange_stable offset c c_bound now (Some phrase) H) in Hr.
  exact (get_timerange_hourly_shape c now phrase r Hr Hscale).
Qed.

(** X7. With no change of the zone's offset from eight days before the
    reading to fifteen days after it, every daily range of the resolver
    starts at a local midnight, at most six days before today and at most
    seven days after it, and lasts a day less one second, a day, or six days. *)
Theorem zoned_get_timerange_daily_shape (now : Z) (time_string : option string)
    (r : TimeRange) :
  Zoned.stable offset c (now - 691200) (now + 1296000) ->
  Zoned.get_timerange offset now time_string = Ret (Some r) ->
  tr_scale r = daily ->
  exists lo hi,
    tme_from r = Some lo
    /\ tme_to r = Some hi
    /\ (lo + c) mod 86400 = 0
    /\ local_day c now - 6 <= local_day c lo <= local_day c now + 7
    /\ (hi - lo = 86399 \/ hi - lo = 86400 \/ hi - lo = 518400).
Proof.
  intros H Hr Hscale.
  rewrite (zget_timerange_stable offset c c_bound now time_string H) in Hr.
  exact (get_timerange_daily_shape c now time_string r Hr Hscale).
Qed.

End ZonedResolver.

(** ** Europe/Berlin *)

(** The offset is two hours throughout the weeks around the summer reading. *)
Lemma berlin_summer_stable (lo hi : Z) :
  1774746000 <= lo -> hi < 1792890000 ->
  Zoned.stable Zoned.berlin_2026 7200 lo hi.
Proof.
  intros Hlo Hhi u Hu. unfold Zoned.berlin_2026.
  destruct (Z.leb_spec 1774746000 u); [|lia].
  destruct (Z.ltb_spec u 1792890000); [reflexivity|lia].
Qed.

(** C9 fails on the night of the change: asked at 00:30 of Sunday 2026-10-25
    in Europe/Berlin, "nacht" runs from 22:00 of that Sunday to 03:00 of the
    same Sunday, the upper bound 19 hours before the lower one.  The reading
    one day later, which [get_hour_range] takes for the next day, is 23:30 of
    the same local day, the day being 25 hours long. *)
Theorem get_timerange_night_of_the_change :
  Zoned.naive (Zoned.fromtimestamp Zoned.berlin_2026 change_night)
  = {| date := 20751; hour := 0; minute := 30; second := 0 |}
  /\ Zoned.naive (Zoned.fromtimestamp Zoned.berlin_2026 (change_night + 1 * 24 * 60 * 60))
     = {| date := 20751; hour := 23; minute := 30; second := 0 |}
  /\ Zoned.get_timerange Zoned.berlin_2026 change_night (Some "nacht")
     = Ret (Some {| tr_scale := hourly; tme_from := Some 1792962000;
                    tme_to := Some 1792893600; prefix := "Heute nacht" |})
  /\ ~ range_invariant {| tr_scale := hourly; tme_from := Some 1792962000;
                          tme_to := Some 1792893600; prefix := "Heute nacht" |}.
Proof.
  split; [reflexivity|]. split; [reflexivity|]. split; [vm_compute; reflexivity|].
  intros [_ H]. specialize (H 1792962000 1792893600 eq_refl eq_refl). lia.
Qed.

(** C4 for "morgen nacht" at noon of 2026-07-01 in Europe/Berlin. *)
Lemma get_timerange_night_zoned_witness :
  resolves_keyword Zoned.berlin_2026 7200 summer_noon "morgen nacht".
Proof.
  apply (get_timerange_night_zoned Zoned.berlin_2026 7200 ltac:(lia) summer_noon
           "morgen nacht").
  - apply berlin_summer_stable; unfold summer_noon; lia.
  - reflexivity.
  - reflexivity.
  - reflexivity.
  - discriminate.
Defined.

Example night_after_a_summer_noon :
  Zoned.get_timerange Zoned.berlin_2026 summer_noon (Some "morgen nacht")
  = Ret (Some {| tr_scale := hourly; tme_from := Some 1783022400;
                 tme_to := Some 1783040400; prefix := "Morgen nacht" |}).
Proof. vm_compute. reflexivity. Qed.

(** X1 for noon and 23:00 of 2026-07-01 in Europe/Berlin. *)
Lemma zoned_get_timerange_same_day_witness :
  Zoned.get_timerange Zoned.berlin_2026 summer_noon (Some "morgen abend")
  = Zoned.get_timerange Zoned.berlin_2026 (summer_noon + 39600) (Some "morgen abend").
Proof.
  apply (zoned_get_timerange_same_day Zoned.berlin_2026 7200 ltac:(lia)).
  - apply berlin_summer_stable; unfold summer_noon; lia.
  - apply berlin_summer_stable; unfold summer_noon; lia.
  - reflexivity.
Defined.

(** X2 for "sonntag", asked at the summer noon and two weeks later. *)
Lemma zoned_get_timerange_weeks_later_witness :
  Zoned.get_timerange Zoned.berlin_2026 (summer_noon + 2 * 604800) (Some "sonntag")
  = shift_result (2 * 604800)
      (Zoned.get_timerange Zoned.berlin_2026 summer_noon (Some "sonntag")).
Proof.
  apply (zoned_get_timerange_weeks_later Zoned.berlin_2026 7200 ltac:(lia)).
  - apply berlin_summer_stable; unfold summer_noon; lia.
  - apply berlin_summer_stable; unfold summer_noon; lia.
Defined.

(** X5 for the summer noon. *)
Lemma zoned_get_day_range_holds_reading_witness :
  exists lo,
    Zoned.get_day_range Zoned.berlin_2026 summer_noon "Heute"
    = {| tr_scale := daily; tme_from := Some lo; tme_to := Some (lo + 86399);
         prefix := "Heute" |}
    /\ (lo + 7200) mod 86400 = 0
    /\ lo <= summer_noon <= lo + 86399.
Proof.
  apply (zoned_get_day_range_holds_reading Zoned.berlin_2026 7200 ltac:(lia)).
  apply berlin_summer_stable; unfold summer_noon; lia.
Defined.

(** X6 for "übermorgen abend" at the summer noon. *)
Lemma zoned_get_timerange_hourly_shape_witness :
  exists sym lo hi,
    In sym day_range_symbols
    /\ contains sym "übermorgen abend" = true
    /\ "Übermorgen abend" = snd (base_day "übermorgen abend") ++ " " ++ sym
    /\ Some 1783090800 = Some lo
    /\ Some 1783108800 = Some hi
    /\ local_day 7200 lo = local_day 7200 summer_noon + fst (base_day "übermorgen abend")
    /\ 0 <= fst (base_day "übermorgen abend") <= 2
    /\ 10800 <= hi - lo <= 18000.
Proof.
  apply (zoned_get_timerange_hourly_shape Zoned.berlin_2026 7200 ltac:(lia) summer_noon
           "übermorgen abend"
           {| tr_scale := hourly; tme_from := Some 1783090800;
              tme_to := Some 1783108800; prefix := "Übermorgen abend" |}).
  - apply berlin_summer_stable; unfold summer_noon; lia.
  - vm_compute. reflexivity.
  - reflexivity.
Defined.

(** X7 for "sonntag" at the summer noon. *)
Lemma zoned_get_timerange_daily_shape_witness :
  exists lo hi,
    Some 1783202400 = Some lo
    /\ Some 1783288799 = Some hi
    /\ (lo + 7200) mod 86400 = 0
    /\ local_day 7200 summer_noon - 6 <= local_day 7200 lo <= local_day 7200 summer_noon + 7
    /\ (hi - lo = 86399 \/ hi - lo = 86400 \/ hi - lo = 518400).
Proof.
  apply (zoned_get_timerange_daily_shape Zoned.berlin_2026 7200 ltac:(lia) summer_noon
           (Some "sonntag")
           {| tr_scale := daily; tme_from := Some 1783202400;
              tme_to := Some 1783288799; prefix := "am Sonntag" |}).
  - apply berlin_summer_stable; unfold summer_noon; lia.
  - vm_compute. reflexivity.
  - reflexivity.
Defined.
